(** * nbconflux: PlotlyStaticPreprocessor

    A shallow embedding of [nbconflux/plotly_preprocessor.py] and the
    properties of its specification.

    Conventions of the embedding.
    - Python values are trees of type [pyval].  The values the code walks
      (notebook, cells, outputs, the parsed figure) are produced by JSON
      loading or by [ast.literal_eval], so no two sub-objects are aliased and
      an in-place update is a functional update of the tree.
    - Text is a [string] of 8-bit characters, read as Latin-1 code points.
    - A Python call either returns, raises, or is outside what is modelled
      here ([Unmodelled]); the embedding never invents a behaviour for the
      latter. *)

From Stdlib Require Import ZArith NArith Ascii String List Bool Lia.
From stdpp Require Import base option list strings gmap.
Import ListNotations.

Local Open Scope string_scope.
Local Open Scope Z_scope.

(** ** Python values *)

#[warnings="-register-all"]
Inductive pyval : Type :=
| PNone
| PBool (b : bool)
| PInt (z : Z)
| PFloat (m e : Z)      (* a float, by the decimal m * 10^e of its literal *)
| PStr (s : string)
| PList (l : list pyval)
| PDict (d : list (string * pyval)).     (* insertion-ordered, string keys *)

Section PyvalInd.
Variable P : pyval -> Prop.
Hypothesis HNone : P PNone.
Hypothesis HBool : forall b, P (PBool b).
Hypothesis HInt : forall z, P (PInt z).
Hypothesis HFloat : forall m e, P (PFloat m e).
Hypothesis HStr : forall s, P (PStr s).
Hypothesis HList : forall l, Forall P l -> P (PList l).
Hypothesis HDict : forall d, Forall (fun kv => P (snd kv)) d -> P (PDict d).

Fixpoint pyval_nested_ind (v : pyval) : P v :=
  match v with
  | PNone => HNone
  | PBool b => HBool b
  | PInt z => HInt z
  | PFloat m e => HFloat m e
  | PStr s => HStr s
  | PList l =>
      HList l ((fix go (l : list pyval) : Forall P l :=
                  match l with
                  | [] => @List.Forall_nil _ P
                  | x :: r => @List.Forall_cons _ P x r (pyval_nested_ind x) (go r)
                  end) l)
  | PDict d =>
      HDict d ((fix go (d : list (string * pyval))
                  : Forall (fun kv => P (snd kv)) d :=
                  match d with
                  | [] => @List.Forall_nil _ _
                  | kv :: r =>
                      @List.Forall_cons _ _ kv r (pyval_nested_ind (snd kv)) (go r)
                  end) d)
  end.
End PyvalInd.

(** ** Outcomes of a Python call *)

Inductive exn : Type :=
| AttributeError | TypeError | KeyError | SyntaxError | ValueError
| RenderError.

Inductive result (A : Type) : Type :=
| Ok (a : A)
| Raise (e : exn)
| Unmodelled.
Arguments Ok {A} a.
Arguments Raise {A} e.
Arguments Unmodelled {A}.

Definition rbind {A B} (r : result A) (k : A -> result B) : result B :=
  match r with
  | Ok a => k a
  | Raise e => Raise e
  | Unmodelled => Unmodelled
  end.

Notation "'let*' x ':=' r 'in' k" := (rbind r (fun x => k))
  (at level 10, x pattern, r at level 100, k at level 200).

(** [try: ... except Exception: h] -- every raised exception is handled;
    what is outside the model stays outside. *)
Definition try_except {A} (r : result A) (h : exn -> result A) : result A :=
  match r with
  | Ok a => Ok a
  | Raise e => h e
  | Unmodelled => Unmodelled
  end.

Fixpoint rmapM {A B} (f : A -> result B) (l : list A) : result (list B) :=
  match l with
  | [] => Ok []
  | x :: r => let* y := f x in let* ys := rmapM f r in Ok (y :: ys)
  end.

(** ** Dictionaries, attribute access, truthiness, iteration *)

Fixpoint dict_get (k : string) (d : list (string * pyval)) : option pyval :=
  match d with
  | [] => None
  | (k', v) :: r => if String.eqb k k' then Some v else dict_get k r
  end.

(** [d[k] = v]: an existing key keeps its position, a new key goes last. *)
Fixpoint dict_set (k : string) (v : pyval) (d : list (string * pyval))
  : list (string * pyval) :=
  match d with
  | [] => [(k, v)]
  | (k', v') :: r =>
      if String.eqb k k' then (k', v) :: r else (k', v') :: dict_set k v r
  end.

(** [obj.get(k, dflt)]; only mappings have a [get] method. *)
Definition py_get (obj : pyval) (k : string) (dflt : pyval) : result pyval :=
  match obj with
  | PDict d => Ok (default dflt (dict_get k d))
  | _ => Raise AttributeError
  end.

(** [node.k] on a [NotebookNode]: the entry under [k], [AttributeError]
    when there is none. *)
Definition py_attr (obj : pyval) (k : string) : result pyval :=
  match obj with
  | PDict d => match dict_get k d with
               | Some v => Ok v
               | None => Raise AttributeError
               end
  | _ => Raise AttributeError
  end.

(** [obj[k] = v]. *)
Definition py_setitem (obj : pyval) (k : string) (v : pyval) : result pyval :=
  match obj with
  | PDict d => Ok (PDict (dict_set k v d))
  | _ => Raise TypeError
  end.

Definition py_truthy (v : pyval) : bool :=
  match v with
  | PNone => false
  | PBool b => b
  | PInt z => negb (z =? 0)
  | PFloat m _ => negb (m =? 0)
  | PStr s => match s with EmptyString => false | _ => true end
  | PList l => match l with [] => false | _ => true end
  | PDict d => match d with [] => false | _ => true end
  end.

(** [v == "s"] for a string constant. *)
Definition py_eq_str (v : pyval) (s : string) : bool :=
  match v with
  | PStr t => String.eqb t s
  | _ => false
  end.

Fixpoint chars_of (s : string) : list pyval :=
  match s with
  | EmptyString => []
  | String c r => PStr (String c EmptyString) :: chars_of r
  end.

(** [for x in obj]: the elements of a list, the keys of a mapping, the
    characters of a string. *)
Definition py_iter (obj : pyval) : result (list pyval) :=
  match obj with
  | PList l => Ok l
  | PDict d => Ok (map (fun kv => PStr (fst kv)) d)
  | PStr s => Ok (chars_of s)
  | _ => Raise TypeError
  end.

(** ** [str.replace] and [_fix_js] *)

(** [s.replace(pat, rep)] for a non-empty [pat]: left to right, without
    overlap.  [skip] counts the characters of a match still to be dropped. *)
Fixpoint replace_from (pat rep : string) (skip : nat) (s : string) : string :=
  match s with
  | EmptyString => EmptyString
  | String c r =>
      match skip with
      | S k => replace_from pat rep k r
      | O =>
          if String.prefix pat s
          then String.append rep (replace_from pat rep (Nat.pred (String.length pat)) r)
          else String c (replace_from pat rep 0 r)
      end
  end.

Definition str_replace (s pat rep : string) : string :=
  replace_from pat rep 0 s.

Definition _fix_js (js : string) : string :=
  str_replace (str_replace (str_replace js "null" "None") "true" "True")
              "false" "False".

(** ** Regular expressions: the fragment of [re] that [NEWPLOT_PATTERN] uses

    A backtracking matcher in continuation-passing style: alternatives are
    tried in priority order and the first overall success wins, which is the
    semantics of Python's [re].  Repetition only occurs over single-character
    classes, so every loop is structural on the subject text. *)

Definition char_code (c : ascii) : N := N_of_ascii c.

(** [\s] of a [str] pattern: the Unicode white space below U+0100. *)
Definition is_space (c : ascii) : bool :=
  let n := char_code c in
  ((9 <=? n) && (n <=? 13) || (28 <=? n) && (n <=? 32)
   || (n =? 133) || (n =? 160))%N.

Definition is_any (c : ascii) : bool := true.
Definition is_not (x : ascii) (c : ascii) : bool := negb (Ascii.eqb c x).

Inductive regex : Type :=
| RLit (s : string)                    (* literal text *)
| RStar (p : ascii -> bool)            (* [p*], greedy *)
| RPlus (p : ascii -> bool)            (* [p+], greedy *)
| RLazy (p : ascii -> bool)            (* [p*?] *)
| RSeq (r1 r2 : regex)
| RAlt (r1 r2 : regex)
| ROpt (r : regex)                     (* [(?:r)?], greedy *)
| RGroup (name : string) (r : regex).  (* [(?P<name>r)] *)

Definition captures := list (string * string).

Fixpoint strip_prefix (p s : string) : option string :=
  match p with
  | EmptyString => Some s
  | String a p' =>
      match s with
      | EmptyString => None
      | String b s' => if Ascii.eqb a b then strip_prefix p' s' else None
      end
  end.

Fixpoint star_greedy {R} (p : ascii -> bool) (k : string -> option R)
  (s : string) : option R :=
  match s with
  | String c s' =>
      if p c
      then match star_greedy p k s' with
           | Some x => Some x
           | None => k s
           end
      else k s
  | EmptyString => k s
  end.

Fixpoint star_lazy {R} (p : ascii -> bool) (k : string -> option R)
  (s : string) : option R :=
  match k s with
  | Some x => Some x
  | None =>
      match s with
      | String c s' => if p c then star_lazy p k s' else None
      | EmptyString => None
      end
  end.

(** The text consumed between two positions of the same subject. *)
Definition consumed (s s' : string) : string :=
  String.substring 0 (String.length s - String.length s') s.

Fixpoint rmatch {R} (r : regex) (s : string) (env : captures)
  (k : string -> captures -> option R) : option R :=
  match r with
  | RLit l =>
      match strip_prefix l s with
      | Some s' => k s' env
      | None => None
      end
  | RStar p => star_greedy p (fun s' => k s' env) s
  | RPlus p =>
      match s with
      | String c s' => if p c then star_greedy p (fun t => k t env) s' else None
      | EmptyString => None
      end
  | RLazy p => star_lazy p (fun s' => k s' env) s
  | RSeq r1 r2 => rmatch r1 s env (fun s' env' => rmatch r2 s' env' k)
  | RAlt r1 r2 =>
      match rmatch r1 s env k with
      | Some x => Some x
      | None => rmatch r2 s env k
      end
  | ROpt r1 =>
      match rmatch r1 s env k with
      | Some x => Some x
      | None => k s env
      end
  | RGroup name r1 =>
      rmatch r1 s env (fun s' env' => k s' ((name, consumed s s') :: env'))
  end.

(** [pattern.search(text)]: the match at the leftmost position that has one. *)
Fixpoint re_search (r : regex) (s : string) : option captures :=
  match rmatch r s [] (fun _ env => Some env) with
  | Some env => Some env
  | None =>
      match s with
      | String _ s' => re_search r s'
      | EmptyString => None
      end
  end.

(** [match.group(name)]; [None] for a group that took no part. *)
Fixpoint group (name : string) (m : captures) : option string :=
  match m with
  | [] => None
  | (n, v) :: r => if String.eqb name n then Some v else group name r
  end.

Fixpoint rseq (rs : list regex) : regex :=
  match rs with
  | [] => RLit EmptyString
  | [r] => r
  | r :: rest => RSeq r (rseq rest)
  end.

Definition ws : regex := RStar is_space.
Definition quote_sq : ascii := "'"%char.
Definition quote_dq : ascii := "034"%char.
Definition sq : string := String quote_sq EmptyString.
Definition dq : string := String quote_dq EmptyString.

Definition NEWPLOT_PATTERN : regex :=
  rseq
    [ RLit "Plotly.newPlot"; ws; RLit "("; ws;
      RGroup "id" (RAlt (rseq [RLit sq; RPlus (is_not quote_sq); RLit sq])
                        (rseq [RLit dq; RPlus (is_not quote_dq); RLit dq]));
      ws; RLit ","; ws;
      RGroup "data" (rseq [RLit "["; RLazy is_any; RLit "]"]);
      ws; RLit ","; ws;
      RGroup "layout" (rseq [RLit "{"; RLazy is_any; RLit "}"]);
      ROpt (rseq [ws; RLit ","; ws;
                  RGroup "config" (rseq [RLit "{"; RLazy is_any; RLit "}"])]);
      ws; RLit ")" ].

(** Every character of [s] satisfies [p]. *)
Fixpoint str_all (p : ascii -> bool) (s : string) : bool :=
  match s with
  | String c r => p c && str_all p r
  | EmptyString => true
  end.

(** ** [ast.literal_eval]

    The JSON-shaped fragment of Python's literal syntax: [None], [True],
    [False], decimal integers and floats with an optional sign, quoted
    strings with the one-character escapes, lists and string-keyed
    dictionaries, white space between tokens, a trailing comma.

    An [Ok] or [Raise] answer is CPython's answer.  Everything else is
    [Unmodelled]: what CPython might accept besides (tuples, sets,
    non-string keys, string prefixes, adjacent or triple-quoted strings,
    other escapes, comments, complex numbers, underscores, very long
    integers, nesting beyond [max_depth]), and what it rejects with an
    exception this one-pass reader cannot name: a name other than the
    three constants ([ValueError] if the rest of the text parses,
    [SyntaxError] if not), a text with a NUL character (the exception
    depends on the version).  A float is kept as the decimal its literal
    writes, where CPython holds the nearest double; within the bounds of
    [float_in_range] the two are zero together. *)

Definition is_digit (c : ascii) : bool :=
  let n := char_code c in ((48 <=? n) && (n <=? 57))%N.

Definition is_ident_start (c : ascii) : bool :=
  let n := char_code c in
  ((65 <=? n) && (n <=? 90) || (97 <=? n) && (n <=? 122) || (n =? 95)
   || (128 <=? n))%N.

Definition is_ident_char (c : ascii) : bool := is_ident_start c || is_digit c.

(** White space between the tokens of a bracketed expression. *)
Definition is_blank (c : ascii) : bool :=
  let n := char_code c in
  ((n =? 32) || (n =? 9) || (n =? 10) || (n =? 13) || (n =? 12))%N.

Fixpoint skip_ws (s : string) : string :=
  match s with
  | String c r => if is_blank c then skip_ws r else s
  | EmptyString => s
  end.

Fixpoint span (p : ascii -> bool) (s : string) : string * string :=
  match s with
  | String c r =>
      if p c then let '(a, b) := span p r in (String c a, b)
      else (EmptyString, s)
  | EmptyString => (EmptyString, EmptyString)
  end.

Definition digit_val (c : ascii) : Z := Z.of_N (char_code c) - 48.

Fixpoint Z_of_digits (acc : Z) (ds : string) : Z :=
  match ds with
  | String c r => Z_of_digits (10 * acc + digit_val c) r
  | EmptyString => acc
  end.

Definition max_int_digits : nat := 4300.
Definition max_depth : nat := 32.

Definition starts_with (p : ascii -> bool) (s : string) : bool :=
  match s with
  | String c _ => p c
  | EmptyString => false
  end.

(** The exponent part [e[+-]ddd] of a float, when there is one. *)
Definition read_exponent (s : string) : option (Z * string) :=
  match s with
  | String c r =>
      if Ascii.eqb c "e" || Ascii.eqb c "E" then
        let '(neg, r1) :=
          match r with
          | String "-" r' => (true, r')
          | String "+" r' => (false, r')
          | _ => (false, r)
          end in
        let '(ds, r2) := span is_digit r1 in
        match ds with
        | EmptyString => None
        | _ => Some (if neg then - Z_of_digits 0 ds else Z_of_digits 0 ds, r2)
        end
      else None
  | EmptyString => None
  end.

(** Floats of at most 40 digits and a decimal exponent within 250: their
    double neither overflows nor rounds to zero. *)
Definition float_in_range (digits : string) (e : Z) : bool :=
  Nat.leb (String.length digits) 40 && (Z.abs e <=? 250).

(** An unsigned number at the head of [s] (a digit or a dot comes first). *)
Definition read_number (s : string) : result (pyval * string) :=
  let '(ip, r1) := span is_digit s in
  let '(fp, r2, dotted) :=
    match r1 with
    | String "." r' => let '(f, r'') := span is_digit r' in (f, r'', true)
    | _ => (EmptyString, r1, false)
    end in
  match ip, fp with
  | EmptyString, EmptyString => Unmodelled
  | _, _ =>
      let '(ex, r3, exped) :=
        match read_exponent r2 with
        | Some (e, r') => (e, r', true)
        | None => (0, r2, false)
        end in
      if starts_with is_ident_char r3 || starts_with (Ascii.eqb ".") r3
      then Unmodelled
      else if dotted || exped
      then
        if float_in_range (String.append ip fp)
             (ex - Z.of_nat (String.length fp))
        then Ok (PFloat (Z_of_digits 0 (String.append ip fp))
                        (ex - Z.of_nat (String.length fp)), r3)
        else Unmodelled
      else if (starts_with (Ascii.eqb "0") ip
               && Nat.ltb 1 (String.length ip))
              || Nat.ltb max_int_digits (String.length ip)
      then Unmodelled
      else Ok (PInt (Z_of_digits 0 ip), r3)
  end.

Definition negate (v : pyval) : pyval :=
  match v with
  | PInt z => PInt (- z)
  | PFloat m e => PFloat (- m) e
  | _ => v
  end.

Definition unescape (c : ascii) : option ascii :=
  if Ascii.eqb c "\" then Some "\"%char
  else if Ascii.eqb c quote_sq then Some quote_sq
  else if Ascii.eqb c quote_dq then Some quote_dq
  else if Ascii.eqb c "n" then Some "010"%char
  else if Ascii.eqb c "r" then Some "013"%char
  else if Ascii.eqb c "t" then Some "009"%char
  else if Ascii.eqb c "b" then Some "008"%char
  else if Ascii.eqb c "f" then Some "012"%char
  else if Ascii.eqb c "a" then Some "007"%char
  else if Ascii.eqb c "v" then Some "011"%char
  else None.

(** The body of a string literal opened by the quote [q]. *)
Fixpoint read_string (q : ascii) (s : string) : result (string * string) :=
  match s with
  | EmptyString => Raise SyntaxError
  | String c r =>
      if Ascii.eqb c q then Ok (EmptyString, r)
      else if Ascii.eqb c "010" || Ascii.eqb c "013"
      then Raise SyntaxError
      else if Ascii.eqb c "\" then
        match r with
        | EmptyString => Raise SyntaxError
        | String e r' =>
            match unescape e with
            | Some x => let* (body, rest) := read_string q r' in
                        Ok (String x body, rest)
            | None => Unmodelled
            end
        end
      else let* (body, rest) := read_string q r in Ok (String c body, rest)
  end.

Definition is_quote (c : ascii) : bool :=
  Ascii.eqb c quote_sq || Ascii.eqb c quote_dq.

Definition read_name (s : string) : result (pyval * string) :=
  let '(name, rest) := span is_ident_char s in
  if starts_with is_quote rest then Unmodelled
  else if String.eqb name "None" then Ok (PNone, rest)
  else if String.eqb name "True" then Ok (PBool true, rest)
  else if String.eqb name "False" then Ok (PBool false, rest)
  else Unmodelled.

Definition is_closer (c : ascii) : bool :=
  Ascii.eqb c "]" || Ascii.eqb c "}" || Ascii.eqb c ")".

(** The recursive part.  [fuel] only bounds the recursion (twice the length
    of the text is always enough); [depth] is the number of brackets that
    may still be opened. *)
Fixpoint parse_value (fuel depth : nat) (s : string) {struct fuel}
  : result (pyval * string) :=
  match fuel with
  | O => Unmodelled
  | S f =>
      match skip_ws s with
      | EmptyString => Raise SyntaxError
      | String c r =>
          if Ascii.eqb c "[" then
            match depth with
            | O => Unmodelled
            | S d => let* (l, r') := parse_items f d [] r in Ok (PList l, r')
            end
          else if Ascii.eqb c "{" then
            match depth with
            | O => Unmodelled
            | S d => let* (e, r') := parse_entries f d [] r in Ok (PDict e, r')
            end
          else if is_quote c then
            let* (body, r') := read_string c r in
            if starts_with is_quote (skip_ws r') then Unmodelled
            else Ok (PStr body, r')
          else if is_digit c || Ascii.eqb c "." then read_number (String c r)
          else if Ascii.eqb c "-" || Ascii.eqb c "+" then
            let r1 := skip_ws r in
            if starts_with is_digit r1 || starts_with (Ascii.eqb ".") r1
            then let* (v, r2) := read_number r1 in
                 Ok (if Ascii.eqb c "-" then negate v else v, r2)
            else Unmodelled
          else if is_ident_start c then read_name (String c r)
          else if is_closer c || Ascii.eqb c "," || Ascii.eqb c ":"
          then Raise SyntaxError
          else Unmodelled
      end
  end

with parse_items (fuel depth : nat) (acc : list pyval) (s : string)
  {struct fuel} : result (list pyval * string) :=
  match fuel with
  | O => Unmodelled
  | S f =>
      match skip_ws s with
      | EmptyString => Raise SyntaxError
      | String c r =>
          if Ascii.eqb c "]" then Ok (rev acc, r)
          else
            let* (v, r1) := parse_value f depth (String c r) in
            match skip_ws r1 with
            | EmptyString => Raise SyntaxError
            | String c1 r2 =>
                if Ascii.eqb c1 "," then parse_items f depth (v :: acc) r2
                else if Ascii.eqb c1 "]" then Ok (rev (v :: acc), r2)
                else if is_closer c1 then Raise SyntaxError
                else Unmodelled
            end
      end
  end

with parse_entries (fuel depth : nat) (acc : list (string * pyval))
  (s : string) {struct fuel} : result (list (string * pyval) * string) :=
  match fuel with
  | O => Unmodelled
  | S f =>
      match skip_ws s with
      | EmptyString => Raise SyntaxError
      | String c r =>
          if Ascii.eqb c "}" then Ok (acc, r)
          else
            let* (k, r1) := parse_value f depth (String c r) in
            match skip_ws r1 with
            | EmptyString => Raise SyntaxError
            | String c1 r2 =>
                if Ascii.eqb c1 ":" then
                  let* (v, r3) := parse_value f depth r2 in
                  match k with
                  | PStr ks =>
                      match skip_ws r3 with
                      | EmptyString => Raise SyntaxError
                      | String c2 r4 =>
                          if Ascii.eqb c2 ","
                          then parse_entries f depth (dict_set ks v acc) r4
                          else if Ascii.eqb c2 "}"
                          then Ok (dict_set ks v acc, r4)
                          else if is_closer c2 then Raise SyntaxError
                          else Unmodelled
                      end
                  | _ => Unmodelled
                  end
                else if Ascii.eqb c1 "]" || Ascii.eqb c1 ")"
                then Raise SyntaxError
                else Unmodelled
            end
      end
  end.

(** [text.lstrip(" \t")] *)
Fixpoint lstrip_blank (s : string) : string :=
  match s with
  | String c r =>
      if Ascii.eqb c " " || Ascii.eqb c "009" then lstrip_blank r else s
  | EmptyString => s
  end.

Definition not_nul (c : ascii) : bool := negb (Ascii.eqb c "000").

Definition literal_eval (text : string) : result pyval :=
  let s := lstrip_blank text in
  if negb (str_all not_nul text) then Unmodelled
  else if starts_with (Ascii.eqb "[") s || starts_with (Ascii.eqb "{") s then
    let* (v, rest) := parse_value (2 * String.length s) max_depth s in
    match skip_ws rest with
    | EmptyString => Ok v
    | String c _ => if is_closer c then Raise SyntaxError else Unmodelled
    end
  else Unmodelled.

(** ** [extract_plotly_json] *)

Definition group_text (name : string) (m : captures) : result string :=
  match group name m with
  | Some t => Ok t
  | None => Raise AttributeError      (* [None.replace] *)
  end.

Definition fig_dict (data layout config : pyval) : pyval :=
  PDict [("data", data); ("layout", layout); ("config", config)].

(** The result is [None] for "not a chart", else the figure dictionary. *)
Definition extract_plotly_json (html : string) : result (option pyval) :=
  match re_search NEWPLOT_PATTERN html with
  | None => Ok None
  | Some m =>
      try_except
        (let* dtxt := group_text "data" m in
         let* data := literal_eval (_fix_js dtxt) in
         let* ltxt := group_text "layout" m in
         let* layout := literal_eval (_fix_js ltxt) in
         let* config :=
           match group "config" m with
           | Some (String c r) => literal_eval (_fix_js (String c r))
           | _ => Ok (PDict [])
           end in
         Ok (Some (fig_dict data layout config)))
        (fun _ => Ok None)
  end.

(** Test texts are written with a back-quote for the double quote. *)
Fixpoint bq (s : string) : string :=
  match s with
  | String c r => String (if Ascii.eqb c "`" then quote_dq else c) (bq r)
  | EmptyString => EmptyString
  end.

Definition html_bar : string :=
  bq "<script>Plotly.newPlot('x', [{`type`:`bar`,`y`:[1,2,3]}], {`title`:`T`})</script>".

Definition spec_bar : pyval :=
  fig_dict
    (PList [PDict [("type", PStr "bar");
                   ("y", PList [PInt 1; PInt 2; PInt 3])]])
    (PDict [("title", PStr "T")])
    (PDict []).

(** ** [normalize_heatmapgl]

    The function updates its argument in place; the embedding returns the
    updated figure. *)

Definition normalize_trace (trace : pyval) : result pyval :=
  let* t := py_get trace "type" PNone in
  if py_eq_str t "heatmapgl" then py_setitem trace "type" (PStr "heatmap")
  else Ok trace.

Definition rename_key (k : string) : string :=
  if String.eqb k "heatmapgl" then "heatmap" else k.

(** [{("heatmap" if k == "heatmapgl" else k): v for k, v in d.items()}] *)
Definition rename_keys (d : list (string * pyval)) : list (string * pyval) :=
  fold_left (fun acc kv => dict_set (rename_key (fst kv)) (snd kv) acc) d [].

Definition normalize_heatmapgl (fig_json : pyval) : result pyval :=
  let* data := py_get fig_json "data" (PList []) in
  let* traces := py_iter data in
  let* traces' := rmapM normalize_trace traces in
  let fig1 :=
    match fig_json, data with
    | PDict d, PList _ =>
        match dict_get "data" d with
        | Some _ => PDict (dict_set "data" (PList traces') d)
        | None => fig_json
        end
    | _, _ => fig_json
    end in
  let* layout := py_get fig1 "layout" (PDict []) in
  let* template := py_get layout "template" (PDict []) in
  let* data_template := py_get template "data" PNone in
  let* template1 :=
    match data_template with
    | PDict dt => py_setitem template "data" (PDict (rename_keys dt))
    | _ => Ok template
    end in
  let* layout1 := py_setitem layout "template" template1 in
  py_setitem fig1 "layout" layout1.

(** ** [base64.b64encode] *)

Definition bytes : Type := list Byte.byte.

Definition b64_alphabet : string :=
  "ABCDEFGHIJKLMNOPQRSTUVWXYZabcdefghijklmnopqrstuvwxyz0123456789+/".

Definition b64_char (n : N) : ascii :=
  match String.get (N.to_nat n) b64_alphabet with
  | Some c => c
  | None => "="%char
  end.

Definition sextets3 (a b c : N) : N * N * N * N :=
  (a / 4, (a mod 4) * 16 + b / 16, (b mod 16) * 4 + c / 64, c mod 64)%N.

Fixpoint b64encode (bs : bytes) : string :=
  match bs with
  | a :: b :: c :: r =>
      let '(s1, s2, s3, s4) :=
        sextets3 (Byte.to_N a) (Byte.to_N b) (Byte.to_N c) in
      String (b64_char s1) (String (b64_char s2)
        (String (b64_char s3) (String (b64_char s4) (b64encode r))))
  | [a; b] =>
      let '(s1, s2, s3, _) := sextets3 (Byte.to_N a) (Byte.to_N b) 0 in
      String (b64_char s1) (String (b64_char s2) (String (b64_char s3) "="))
  | [a] =>
      let '(s1, s2, _, _) := sextets3 (Byte.to_N a) 0 0 in
      String (b64_char s1) (String (b64_char s2) "==")
  | [] => EmptyString
  end.

(** The strict decoder the specification's "valid base64 string" refers
    to: groups of four alphabet characters, padding only in the last. *)
Definition b64_index (c : ascii) : option N :=
  let n := char_code c in
  if ((65 <=? n) && (n <=? 90))%N then Some (n - 65)%N
  else if ((97 <=? n) && (n <=? 122))%N then Some (n - 71)%N
  else if ((48 <=? n) && (n <=? 57))%N then Some (n + 4)%N
  else if (n =? 43)%N then Some 62%N
  else if (n =? 47)%N then Some 63%N
  else None.

Definition byte_of_N (n : N) : Byte.byte :=
  match Byte.of_N n with
  | Some b => b
  | None => Byte.x00
  end.

Definition is_pad (c : ascii) : bool := Ascii.eqb c "=".

Fixpoint b64decode (s : string) : option bytes :=
  match s with
  | EmptyString => Some []
  | String c1 (String c2 (String c3 (String c4 r))) =>
      match b64_index c1, b64_index c2 with
      | Some s1, Some s2 =>
          let a := byte_of_N (s1 * 4 + s2 / 16) in
          if is_pad c3 && is_pad c4 then
            match r with
            | EmptyString => if (s2 mod 16 =? 0)%N then Some [a] else None
            | _ => None
            end
          else
            match b64_index c3 with
            | Some s3 =>
                let b := byte_of_N ((s2 mod 16) * 16 + s3 / 4) in
                if is_pad c4 then
                  match r with
                  | EmptyString =>
                      if (s3 mod 4 =? 0)%N then Some [a; b] else None
                  | _ => None
                  end
                else
                  match b64_index c4, b64decode r with
                  | Some s4, Some rest =>
                      Some (a :: b :: byte_of_N ((s3 mod 4) * 64 + s4) :: rest)
                  | _, _ => None
                  end
            | None => None
            end
      | _, _ => None
      end
  | _ => None
  end.

(** ** [uuid.uuid4().hex] *)

(** [UUID(bytes=os.urandom(16), version=4)]: the variant and version bits
    are forced on the 128-bit number. *)
Definition uuid4_int (random : N) : N :=
  let i := (random mod 2 ^ 128)%N in
  let i := N.ldiff i (N.shiftl 49152 48) in      (* int &= ~(0xc000 << 48) *)
  let i := N.lor i (N.shiftl 32768 48) in        (* int |= 0x8000 << 48 *)
  let i := N.ldiff i (N.shiftl 61440 64) in      (* int &= ~(0xf000 << 64) *)
  N.lor i (N.shiftl 4 76).                       (* int |= 4 << 76 *)

Definition hex_digit (n : N) : ascii :=
  match String.get (N.to_nat n) "0123456789abcdef" with
  | Some c => c
  | None => "0"%char
  end.

(** ['%0kx' % n] for [n < 16^k]. *)
Fixpoint to_hex (k : nat) (n : N) : string :=
  match k with
  | O => EmptyString
  | S k' => String (hex_digit ((n / 16 ^ N.of_nat k') mod 16)%N) (to_hex k' n)
  end.

Definition uuid4_hex (random : N) : string := to_hex 32 (uuid4_int random).

(** ** [nbformat.v4.new_output] for [output_type="display_data"] *)

Definition new_output_display (data metadata : pyval) : pyval :=
  PDict [("output_type", PStr "display_data");
         ("metadata", metadata);
         ("data", data)].

(** ** [preprocess] *)

(** [resources]: the entry under ["outputs"] (file name to raw bytes) and
    the other entries. *)
Record resources : Type := mk_resources {
  res_outputs : option (gmap string bytes);
  res_other : list (string * pyval)
}.

Definition empty_resources : resources :=
  {| res_outputs := None; res_other := [] |}.

(** What a run threads through its loops: the shared [outputs_store] and
    the number of random identifiers drawn so far. *)
Record pstate : Type := mk_pstate {
  store : gmap string bytes;
  draws : nat
}.

(** [obj[k]] *)
Definition py_getitem (obj : pyval) (k : string) : result pyval :=
  match obj with
  | PDict d => match dict_get k d with
               | Some v => Ok v
               | None => Raise KeyError
               end
  | _ => Raise TypeError
  end.

(** [a or b] *)
Definition py_or (a b : pyval) : pyval := if py_truthy a then a else b.

Definition png_name (hex : string) : string :=
  String.append "plotly_static_" (String.append hex ".png").

Section Preprocess.

(** [go.Figure(data=..., layout=...)] followed by
    [pio.to_image(fig, format="png")]: the PNG bytes together with
    [fig.layout.width], or the exception of a failed rendering. *)
Variable render : pyval -> pyval -> result (bytes * pyval).

(** The successive 128-bit draws of [os.urandom(16)]. *)
Variable urandom : nat -> N.

(** The body of the [try] block around the rendering. *)
Definition to_png (fig_json : pyval) : result (bytes * pyval) :=
  let* data := py_getitem fig_json "data" in
  let* layout := py_get fig_json "layout" (PDict []) in
  render data layout.

Definition static_output (png : bytes) (width : pyval) : pyval :=
  new_output_display
    (PDict [("image/png", PStr (b64encode png))])
    (PDict [("image/png", PDict [("width", py_or width (PInt 700))])]).

Definition process_output (st : pstate) (out : pyval)
  : result (pyval * pstate) :=
  let* data := py_get out "data" (PDict []) in
  let* html := py_get data "text/html" PNone in
  if negb (py_truthy html) then Ok (out, st)
  else
    match html with
    | PStr h =>
        let* fig := extract_plotly_json h in
        match fig with
        | None => Ok (out, st)
        | Some fig_json =>
            if negb (py_truthy fig_json) then Ok (out, st)
            else
              let* fig1 := normalize_heatmapgl fig_json in
              match to_png fig1 with
              | Raise _ => Ok (out, st)
              | Unmodelled => Unmodelled
              | Ok (png, width) =>
                  let fname := png_name (uuid4_hex (urandom (draws st))) in
                  Ok (static_output png width,
                      {| store := <[fname := png]> (store st);
                         draws := S (draws st) |})
              end
        end
    | _ => Raise TypeError            (* [search] on a non-string *)
    end.

Fixpoint process_outputs (st : pstate) (outs : list pyval)
  : result (list pyval * pstate) :=
  match outs with
  | [] => Ok ([], st)
  | out :: rest =>
      let* (out', st1) := process_output st out in
      let* (rest', st2) := process_outputs st1 rest in
      Ok (out' :: rest', st2)
  end.

Definition process_cell (st : pstate) (cell : pyval)
  : result (pyval * pstate) :=
  let* ty := py_attr cell "cell_type" in
  if negb (py_eq_str ty "code") then Ok (cell, st)
  else
    let* outs := py_get cell "outputs" (PList []) in
    let* l := py_iter outs in
    let* (new_outputs, st') := process_outputs st l in
    let* cell' := py_setitem cell "outputs" (PList new_outputs) in
    Ok (cell', st').

Fixpoint process_cells (st : pstate) (cells : list pyval)
  : result (list pyval * pstate) :=
  match cells with
  | [] => Ok ([], st)
  | cell :: rest =>
      let* (cell', st1) := process_cell st cell in
      let* (rest', st2) := process_cells st1 rest in
      Ok (cell' :: rest', st2)
  end.

Definition preprocess (nb : pyval) (res : option resources)
  : result (pyval * resources) :=
  let res := default empty_resources res in          (* resources or {} *)
  let store0 := default ∅ (res_outputs res) in       (* setdefault *)
  let* cells := py_attr nb "cells" in
  let* l := py_iter cells in
  let* (cells', st) := process_cells {| store := store0; draws := 0 |} l in
  let nb' :=
    match nb, cells with
    | PDict d, PList _ => PDict (dict_set "cells" (PList cells') d)
    | _, _ => nb
    end in
  Ok (nb', {| res_outputs := Some (store st); res_other := res_other res |}).

End Preprocess.

(** The output an empty-HTML lookup sees, when the record has one. *)
Definition html_entry (out : pyval) : option pyval :=
  match out with
  | PDict o =>
      match dict_get "data" o with
      | Some (PDict d) => dict_get "text/html" d
      | _ => None
      end
  | _ => None
  end.

Definition is_code_cell (cell : pyval) : bool :=
  match cell with
  | PDict c => match dict_get "cell_type" c with
               | Some ty => py_eq_str ty "code"
               | None => false
               end
  | _ => false
  end.

(** The outputs a code cell is iterated over: [cell.get("outputs", [])]. *)
Definition cell_outputs (cell : pyval) : list pyval :=
  match cell with
  | PDict c => match dict_get "outputs" c with
               | Some (PList l) => l
               | _ => []
               end
  | _ => []
  end.

(** [pat in s] *)
Fixpoint occurs (pat s : string) : bool :=
  String.prefix pat s ||
  match s with
  | String _ r => occurs pat r
  | EmptyString => false
  end.

(** A notebook with one code cell holding one output with the given HTML. *)
Definition html_output (html : string) : pyval :=
  PDict [("output_type", PStr "display_data");
         ("data", PDict [("text/html", PStr html)]);
         ("metadata", PDict [])].

Definition code_cell (outs : list pyval) : pyval :=
  PDict [("cell_type", PStr "code"); ("source", PStr "fig.show()");
         ("outputs", PList outs)].

Definition markdown_cell : pyval :=
  PDict [("cell_type", PStr "markdown"); ("source", PStr "# Title")].

Definition notebook (cells : list pyval) : pyval :=
  PDict [("cells", PList cells); ("nbformat", PInt 4)].

Definition html_scalar_trace : string := "Plotly.newPlot('x', [1], {})".

(** Stand-ins for the external collaborators, used to run the code on
    concrete notebooks: a renderer that answers a fixed image and the
    layout's own width, one that always fails, and a counter as entropy. *)
Definition png_stub : bytes :=
  [Byte.x89; Byte.x50; Byte.x4e; Byte.x47; Byte.x0d; Byte.x0a; Byte.x1a;
   Byte.x0a].

Definition fake_render (data layout : pyval) : result (bytes * pyval) :=
  match py_get layout "width" PNone with
  | Ok w => Ok (png_stub, w)
  | _ => Raise RenderError
  end.

Definition failing_render (data layout : pyval) : result (bytes * pyval) :=
  Raise RenderError.

Definition fake_urandom (n : nat) : N := N.of_nat n.

Definition stream_output : pyval :=
  PDict [("output_type", PStr "stream"); ("name", PStr "stdout");
         ("text", PStr "done")].

Definition nb_sample : pyval :=
  notebook [markdown_cell; code_cell [stream_output; html_output html_bar]].

Definition st0 : pstate := {| store := ∅; draws := 0 |}.

Definition all_below (k : nat) (f : N -> bool) : bool :=
  forallb (fun i => f (N.of_nat i)) (seq 0 k).



Definition html_wide : string :=
  bq "Plotly.newPlot('x', [{`type`:`bar`,`y`:[1,2,3]}], {`width`:500})".

(** What [normalize_heatmapgl] does to one trace mapping. *)
Definition retag (t : list (string * pyval)) : list (string * pyval) :=
  if py_eq_str (default PNone (dict_get "type" t)) "heatmapgl"
  then dict_set "type" (PStr "heatmap") t
  else t.

(** [fig["layout"]["template"]["data"]], when all three are there. *)
Definition template_data (fig : pyval) : option pyval :=
  match fig with
  | PDict f =>
      match dict_get "layout" f with
      | Some (PDict lay) =>
          match dict_get "template" lay with
          | Some (PDict tpl) => dict_get "data" tpl
          | _ => None
          end
      | _ => None
      end
  | _ => None
  end.

Definition fig_clash : pyval :=
  fig_dict (PList [])
    (PDict [("template",
             PDict [("data", PDict [("heatmap", PStr "plain");
                                    ("heatmapgl", PStr "accelerated")])])])
    (PDict []).

(** An entry of [template.data] after the renaming. *)
Definition renamed (kv : string * pyval) : string * pyval :=
  (rename_key (fst kv), snd kv).

(** ** Compact JSON text

    The figure arguments Plotly writes into the page are compact JSON.  A
    syntax tree of such a text, its rendering and the Python value it
    denotes state what parsing it should yield.  Numbers are kept as their
    digits; [emit] takes the spelling of the three constants and the
    transformation undergone by the contents of string literals, so that it
    also describes the text after [_fix_js]. *)

#[warnings="-register-all"]
Inductive js : Type :=
| JNull
| JBool (b : bool)
| JNum (neg : bool) (digits : string)
| JStr (s : string)
| JArr (l : list js)
| JObj (d : list (string * js)).

Record words : Type := mk_words {
  w_null : string; w_true : string; w_false : string
}.

Definition js_words : words :=
  {| w_null := "null"; w_true := "true"; w_false := "false" |}.
Definition py_words : words :=
  {| w_null := "None"; w_true := "True"; w_false := "False" |}.

(** The text of [j] followed by [k]. *)
Fixpoint emit (w : words) (g : string -> string) (j : js) (k : string)
  : string :=
  match j with
  | JNull => String.append (w_null w) k
  | JBool b => String.append (if b then w_true w else w_false w) k
  | JNum neg ds =>
      if neg then String "-" (String.append ds k) else String.append ds k
  | JStr s => String quote_dq (String.append (g s) (String quote_dq k))
  | JArr l =>
      String "["
        ((fix items (l : list js) (k : string) : string :=
            match l with
            | [] => k
            | x :: r =>
                emit w g x match r with
                           | [] => k
                           | _ => String "," (items r k)
                           end
            end) l (String "]" k))
  | JObj d =>
      String "{"
        ((fix entries (d : list (string * js)) (k : string) : string :=
            match d with
            | [] => k
            | (key, v) :: r =>
                String quote_dq
                  (String.append (g key)
                     (String quote_dq
                        (String ":"
                           (emit w g v match r with
                                       | [] => k
                                       | _ => String "," (entries r k)
                                       end))))
            end) d (String "}" k))
  end.

Fixpoint emit_items (w : words) (g : string -> string) (l : list js)
  (k : string) : string :=
  match l with
  | [] => k
  | x :: r =>
      emit w g x match r with
                 | [] => k
                 | _ => String "," (emit_items w g r k)
                 end
  end.

Fixpoint emit_entries (w : words) (g : string -> string)
  (d : list (string * js)) (k : string) : string :=
  match d with
  | [] => k
  | (key, v) :: r =>
      String quote_dq
        (String.append (g key)
           (String quote_dq
              (String ":"
                 (emit w g v match r with
                             | [] => k
                             | _ => String "," (emit_entries w g r k)
                             end))))
  end.

(** The JSON text of [j]. *)
Definition js_text (j : js) : string := emit js_words id j EmptyString.

Definition digits_value (neg : bool) (ds : string) : Z :=
  if neg then - Z_of_digits 0 ds else Z_of_digits 0 ds.

(** The Python value of [j], its strings transformed by [g]. *)
Fixpoint denote (g : string -> string) (j : js) : pyval :=
  match j with
  | JNull => PNone
  | JBool b => PBool b
  | JNum neg ds => PInt (digits_value neg ds)
  | JStr s => PStr (g s)
  | JArr l => PList (map (denote g) l)
  | JObj d =>
      PDict
        ((fix entries (d : list (string * js)) (acc : list (string * pyval))
            : list (string * pyval) :=
            match d with
            | [] => acc
            | (key, v) :: r => entries r (dict_set (g key) (denote g v) acc)
            end) d [])
  end.

Fixpoint denote_entries (g : string -> string) (d : list (string * js))
  (acc : list (string * pyval)) : list (string * pyval) :=
  match d with
  | [] => acc
  | (key, v) :: r => denote_entries g r (dict_set (g key) (denote g v) acc)
  end.

(** A character that stands for itself inside a double-quoted literal. *)
Definition is_plain (c : ascii) : bool :=
  negb (Ascii.eqb c quote_dq || Ascii.eqb c "\" || Ascii.eqb c "010"
        || Ascii.eqb c "013" || Ascii.eqb c "000").

(** Digits of a decimal integer literal. *)
Definition digits_ok (ds : string) : bool :=
  match ds with
  | EmptyString => false
  | String c r =>
      str_all is_digit ds
      && (negb (Ascii.eqb c "0") || match r with
                                    | EmptyString => true
                                    | _ => false
                                    end)
      && Nat.leb (String.length ds) max_int_digits
  end.

(** [j] nests at most [n] brackets, its numbers are well formed and its
    strings, keys included, satisfy [P]. *)
Fixpoint js_ok (P : string -> bool) (n : nat) (j : js) : bool :=
  match j with
  | JNull | JBool _ => true
  | JNum _ ds => digits_ok ds
  | JStr s => P s
  | JArr l =>
      match n with
      | O => false
      | S m => forallb (js_ok P m) l
      end
  | JObj d =>
      match n with
      | O => false
      | S m =>
          forallb (fun kv => let '(key, v) := kv in P key && js_ok P m v) d
      end
  end.

Definition is_container (j : js) : bool :=
  match j with
  | JArr _ | JObj _ => true
  | _ => false
  end.

(** What the recursion of the parser costs on [j]. *)
Fixpoint weight (j : js) : nat :=
  match j with
  | JArr l => 2 + list_sum (map (fun x => S (weight x)) l)
  | JObj d => 2 + list_sum (map (fun kv => let '(_, v) := kv in S (weight v)) d)
  | _ => 1
  end.

Definition js_sample : js :=
  JArr [JObj [("name", JStr "a"); ("visible", JBool true);
              ("y", JArr [JNum false "1"; JNull; JNum true "20"])]].

Definition html_nullable : string :=
  bq "Plotly.newPlot('x', [{`name`:`nullable`,`y`:[null]}], {})".

(** [c] does not occur in [pat]; [k] is empty or starts with such a [c]. *)
Definition avoids (c : ascii) (pat : string) : bool :=
  str_all (fun x => negb (Ascii.eqb x c)) pat.

Definition safe_head (pat k : string) : bool :=
  match k with
  | EmptyString => true
  | String c _ => avoids c pat
  end.

Definition is_alpha (c : ascii) : bool :=
  let n := char_code c in
  ((65 <=? n) && (n <=? 90) || (97 <=? n) && (n <=? 122))%N.

(** A search pattern made of letters, as the three of [_fix_js] are. *)
Definition word_pattern (pat : string) : bool :=
  str_all is_alpha pat && match pat with
                          | EmptyString => false
                          | _ => true
                          end.

Definition replaced (pat rep : string) (w : words) : words :=
  {| w_null := str_replace (w_null w) pat rep;
     w_true := str_replace (w_true w) pat rep;
     w_false := str_replace (w_false w) pat rep |}.

Definition all_ascii : list ascii := map ascii_of_nat (seq 0 256).

(** ** What the parser is shown to do on compact JSON *)

(** The characters that may follow a value. *)
Definition is_delim (c : ascii) : bool :=
  Ascii.eqb c "," || Ascii.eqb c "]" || Ascii.eqb c "}" || Ascii.eqb c ":".

Definition tail_ok (k : string) : bool :=
  match k with
  | EmptyString => true
  | String c _ => is_delim c
  end.

(** The contents of a string literal stand for themselves once [g] has
    been applied. *)
Definition plain_under (g : string -> string) (s : string) : bool :=
  str_all is_plain (g s).

(** Values nesting at most [m] brackets, followed by any admissible text,
    are read back by [parse_value]. *)
Definition parses (g : string -> string) (m : nat) : Prop :=
  forall j fuel depth k,
    js_ok (plain_under g) m j = true -> (m <= depth)%nat ->
    (weight j <= fuel)%nat -> tail_ok k = true ->
    parse_value fuel depth (emit py_words g j k) = Ok (denote g j, k).

(** A list or an object within the depth limit, without escapes. *)
Definition json_ok (j : js) : bool :=
  is_container j && js_ok (str_all is_plain) max_depth j.





(** [isinstance(v, dict)] *)
Definition is_mapping (v : pyval) : bool :=
  match v with
  | PDict _ => true
  | _ => false
  end.

(** A cell of another kind than code: it has a [cell_type], which is not
    ["code"]. *)
Definition is_other_cell (cell : pyval) : bool :=
  match cell with
  | PDict c => match dict_get "cell_type" c with
               | Some ty => negb (py_eq_str ty "code")
               | None => false
               end
  | _ => false
  end.

(** The cell has its list of outputs. *)
Definition has_output_list (cell : pyval) : bool :=
  match cell with
  | PDict c => match dict_get "outputs" c with
               | Some (PList _) => true
               | _ => false
               end
  | _ => false
  end.

(** [resources or {}], with the [outputs] entry that [setdefault] puts. *)
Definition with_outputs (res : option resources) : resources :=
  let r := default empty_resources res in
  {| res_outputs := Some (default ∅ (res_outputs r));
     res_other := res_other r |}.

Definition html_broken : string :=
  "Plotly.newPlot('x', [1,,2], {})".

(** The store a run starts from: [resources.setdefault("outputs", {})]. *)
Definition initial_store (res : option resources) : gmap string bytes :=
  default ∅ (res_outputs (default empty_resources res)).

(** Between two states of a run: the entries whose name does not begin
    with [plotly_static_] are the same, and no entry has gone. *)
Definition store_kept (s s' : gmap string bytes) : Prop :=
  (forall k, String.prefix "plotly_static_" k = false -> s' !! k = s !! k) /\
  (forall k, is_Some (s !! k) -> is_Some (s' !! k)).

Definition resources_logo : resources :=
  {| res_outputs := Some (<["logo.png" := png_stub]> ∅); res_other := [] |}.

(** What a match of [r] is: it takes a word of [r] off the front of [s],
    leaving [s'], and records the groups it went through. *)
Fixpoint matched (r : regex) (s : string) (env : captures) (s' : string)
  (env' : captures) {struct r} : Prop :=
  match r with
  | RLit l => s = String.append l s' /\ env' = env
  | RStar p | RLazy p =>
      (exists w, s = String.append w s' /\ str_all p w = true) /\ env' = env
  | RPlus p =>
      (exists c w, s = String (c : ascii) (String.append w s')
                   /\ str_all p (String c w) = true) /\ env' = env
  | RSeq r1 r2 =>
      exists s1 env1, matched r1 s env s1 env1 /\ matched r2 s1 env1 s' env'
  | RAlt r1 r2 => matched r1 s env s' env' \/ matched r2 s env s' env'
  | ROpt r1 => matched r1 s env s' env' \/ (s' = s /\ env' = env)
  | RGroup name r1 =>
      exists env1, matched r1 s env s' env1
                   /\ env' = (name, consumed s s') :: env1
  end.

(** [o], any text, [c]. *)
Definition bracketed (o c : string) (t : string) : Prop :=
  exists w, t = String.append o (String.append w c).

(** No substring of the page is an invocation: at no position does a word
    of [NEWPLOT_PATTERN] begin. *)
Definition no_invocation (html : string) : Prop :=
  forall pre t s' m,
    html = String.append pre t -> ~ matched NEWPLOT_PATTERN t [] s' m.

(** A page that names the function without calling it the way the
    pattern expects. *)
Definition html_other_call : string :=
  "<script>Plotly.newPlot(gd, data, layout)</script>".

(** The invocation the specification names. *)
Definition newplot_bar : string :=
  bq "Plotly.newPlot('x', [{`type`:`bar`,`y`:[1,2,3]}], {`title`:`T`})".

(** No occurrence of [lit] in [pre ++ s] begins inside [pre]. *)
Fixpoint starts_nowhere (lit pre s : string) : bool :=
  match pre with
  | EmptyString => true
  | String _ p =>
      negb (String.prefix lit (String.append pre s))
      && starts_nowhere lit p s
  end.

(** An earlier invocation, of an empty chart. *)
Definition newplot_empty : string := "Plotly.newPlot('y', [], {}) ".


(** What the code relies on from Plotly: [pio.to_image] answers a PNG
    image, which is never empty, and [go.Figure] admits as
    [layout.width] only a number of at least 10, so that a width the
    figure holds is truthy. *)
Definition render_contract
  (render : pyval -> pyval -> result (bytes * pyval)) : Prop :=
  forall data layout png width,
    render data layout = Ok (png, width) ->
    png <> [] /\ (width = PNone \/ py_truthy width = true).

(** A stand-in that checks the width as Plotly does. *)
Definition checking_render (data layout : pyval) : result (bytes * pyval) :=
  match py_get layout "width" PNone with
  | Ok PNone => Ok (png_stub, PNone)
  | Ok (PInt z) => if (10 <=? z)%Z then Ok (png_stub, PInt z) else Raise ValueError
  | _ => Raise ValueError
  end.





(** * Properties *)

Example fix_js_tokens :
  _fix_js "[null,true,false]" = "[None,True,False]".
Proof. reflexivity. Qed.

Example extract_bar : extract_plotly_json html_bar = Ok (Some spec_bar).
Proof. vm_compute. reflexivity. Qed.

(** ** The result monad *)

Lemma rbind_ok {A B} (r : result A) (k : A -> result B) (b : B) :
  rbind r k = Ok b -> exists a, r = Ok a /\ k a = Ok b.
Proof. destruct r; simpl; intros H; try discriminate. eauto. Qed.

Ltac inv_ok :=
  repeat match goal with
  | H : rbind _ _ = Ok _ |- _ =>
      let a := fresh "a" in
      let Ha := fresh "Ha" in
      apply rbind_ok in H; destruct H as (a & Ha & H)
  | H : Ok _ = Ok _ |- _ => injection H as H; subst
  | H : (let '(_, _) := ?p in _) = Ok _ |- _ => destruct p
  | H : Raise _ = Ok _ |- _ => discriminate H
  | H : Unmodelled = Ok _ |- _ => discriminate H
  end.

(** ** Dictionaries *)

Lemma dict_get_set_eq k v d : dict_get k (dict_set k v d) = Some v.
Proof.
  induction d as [|[k' v'] r IH]; simpl.
  - now rewrite String.eqb_refl.
  - destruct (String.eqb k k') eqn:E; simpl; rewrite E; auto.
Qed.

Lemma dict_get_set_ne k k' v d :
  k <> k' -> dict_get k (dict_set k' v d) = dict_get k d.
Proof.
  intros Hne. induction d as [|[k1 v1] r IH]; simpl.
  - apply String.eqb_neq in Hne. now rewrite Hne.
  - destruct (String.eqb k' k1) eqn:E; simpl.
    + apply String.eqb_eq in E. subst k1.
      apply String.eqb_neq in Hne. now rewrite Hne.
    + destruct (String.eqb k k1); auto.
Qed.

Lemma dict_set_same k v d : dict_get k d = Some v -> dict_set k v d = d.
Proof.
  induction d as [|[k1 v1] r IH]; simpl; [discriminate|].
  destruct (String.eqb k k1) eqn:E.
  - now intros [= ->].
  - intros H. now rewrite IH.
Qed.

(** ** Pass-through of outputs without chart HTML *)

Section PreprocessFacts.
Variable render : pyval -> pyval -> result (bytes * pyval).
Variable urandom : nat -> N.

Lemma process_output_no_html st out out' st' :
  process_output render urandom st out = Ok (out', st') ->
  html_entry out = None -> out' = out /\ st' = st.
Proof.
  unfold process_output, html_entry. intros H Hn.
  destruct out as [| | | | |l|o]; simpl in H; try discriminate.
  destruct (dict_get "data" o) as [dv|] eqn:Ed; simpl in H.
  - destruct dv; simpl in H; try discriminate.
    rewrite Hn in H. simpl in H. inv_ok. tauto.
  - inv_ok. tauto.
Qed.

Lemma process_outputs_Forall2 st outs outs' st' :
  process_outputs render urandom st outs = Ok (outs', st') ->
  Forall2 (fun out out' =>
             exists sa sb,
               process_output render urandom sa out = Ok (out', sb))
          outs outs'.
Proof.
  revert st outs' st'. induction outs as [|out rest IH]; simpl; intros.
  - inv_ok. constructor.
  - inv_ok. constructor; eauto.
Qed.

Lemma process_cell_not_code st cell cell' st' :
  process_cell render urandom st cell = Ok (cell', st') ->
  is_code_cell cell = false -> cell' = cell /\ st' = st.
Proof.
  unfold process_cell, is_code_cell, py_attr. intros H Hc.
  destruct cell; try discriminate.
  destruct (dict_get "cell_type" d); simpl in H; try discriminate.
  rewrite Hc in H. simpl in H. inv_ok. tauto.
Qed.

Lemma process_output_not_dict st s :
  process_output render urandom st (PStr s) = Raise AttributeError.
Proof. reflexivity. Qed.

Lemma process_cell_code st cell cell' st' :
  process_cell render urandom st cell = Ok (cell', st') ->
  is_code_cell cell = true ->
  exists c outs',
    cell = PDict c /\
    cell' = PDict (dict_set "outputs" (PList outs') c) /\
    process_outputs render urandom st (cell_outputs cell) = Ok (outs', st').
Proof.
  unfold process_cell, is_code_cell, py_attr. intros H Hc.
  destruct cell as [| | | | | |c]; try discriminate.
  destruct (dict_get "cell_type" c); simpl in H; try discriminate.
  rewrite Hc in H. simpl in H. inv_ok.
  exists c, l. split; [reflexivity|]. split; [reflexivity|].
  unfold cell_outputs.
  destruct (dict_get "outputs" c) as [o|];
    [destruct o as [| | | |s|l0|d]|]; simpl in *; inv_ok; try assumption.
  - destruct s; simpl in *; [assumption|inv_ok].
  - destruct d; simpl in *; [assumption|inv_ok].
Qed.

Lemma process_cells_Forall2 st cells cells' st' :
  process_cells render urandom st cells = Ok (cells', st') ->
  Forall2 (fun cell cell' =>
             exists sa sb,
               process_cell render urandom sa cell = Ok (cell', sb))
          cells cells'.
Proof.
  revert st cells' st'. induction cells as [|cell rest IH]; simpl; intros.
  - inv_ok. constructor.
  - inv_ok. constructor; eauto.
Qed.

(** C1.  When [preprocess] returns, the notebook has the same cells in
    the same order; a cell that is not a code cell is returned as it was;
    a code cell keeps its other fields and gets an output list of the same
    length, whose j-th element is the result of processing the j-th input
    output, and is that very output when it has no "text/html" entry. *)
Theorem preprocess_preserves_outputs nb res nb' res' cells :
  preprocess render urandom nb res = Ok (nb', res') ->
  py_attr nb "cells" = Ok (PList cells) ->
  exists cells',
    py_attr nb' "cells" = Ok (PList cells') /\
    length cells' = length cells /\
    Forall2
      (fun cell cell' =>
         if is_code_cell cell then
           (exists c, cell = PDict c /\
              cell' = PDict (dict_set "outputs"
                               (PList (cell_outputs cell')) c)) /\
           length (cell_outputs cell') = length (cell_outputs cell) /\
           Forall2
             (fun out out' =>
                (exists sa sb,
                   process_output render urandom sa out = Ok (out', sb)) /\
                (html_entry out = None -> out' = out))
             (cell_outputs cell) (cell_outputs cell')
         else cell' = cell)
      cells cells'.
Proof.
  unfold preprocess. intros H Hc. rewrite Hc in H. simpl in H. inv_ok.
  rename l into cells'.
  destruct nb as [| | | | | |d]; try discriminate.
  exists cells'. split.
  { unfold py_attr. now rewrite dict_get_set_eq. }
  apply process_cells_Forall2 in Ha.
  split; [symmetry; eapply Forall2_length; eauto|].
  eapply Forall2_impl; [exact Ha|].
  intros cell cell' (sa & sb & Hp). simpl in Hp.
  destruct (is_code_cell cell) eqn:Ec.
  - destruct (process_cell_code _ _ _ _ Hp Ec) as (c & outs' & -> & -> & Ho).
    assert (Hco : cell_outputs (PDict (dict_set "outputs" (PList outs') c))
                  = outs').
    { unfold cell_outputs. now rewrite dict_get_set_eq. }
    rewrite Hco. apply process_outputs_Forall2 in Ho.
    split; [eauto|]. split; [symmetry; eapply Forall2_length; eauto|].
    eapply Forall2_impl; [exact Ho|].
    intros out out' (sa' & sb' & Hq). split; [eauto|].
    intros Hn. eapply process_output_no_html; eauto.
  - eapply process_cell_not_code; eauto.
Qed.

End PreprocessFacts.

Lemma preprocess_preserves_outputs_witness :
  exists nb' res',
    preprocess fake_render fake_urandom nb_sample None = Ok (nb', res') /\
    exists cells',
      py_attr nb' "cells" = Ok (PList cells') /\
      length cells' = 2%nat /\
      nth 0 cells' PNone = markdown_cell /\
      nth 0 (cell_outputs (nth 1 cells' PNone)) PNone = stream_output.
Proof.
  eexists. eexists. split; [vm_compute; reflexivity|].
  edestruct (preprocess_preserves_outputs fake_render fake_urandom
               nb_sample None) as (cells' & Hc & Hl & Hf);
    [vm_compute; reflexivity | reflexivity |].
  exists cells'. split; [exact Hc|]. split; [exact Hl|].
  destruct cells' as [|c0 [|c1 [|]]]; try discriminate.
  inversion Hf as [|? ? ? ? H0 Hf1]; subst.
  inversion Hf1 as [|? ? ? ? H1 _]; subst.
  simpl in H0. subst c0. split; [reflexivity|].
  simpl in H1. destruct H1 as (_ & Hlen & Hout).
  change (cell_outputs (code_cell [stream_output; html_output html_bar]))
    with [stream_output; html_output html_bar] in *.
  simpl nth. destruct (cell_outputs c1) as [|o0 r]; [discriminate|].
  inversion Hout as [|? ? ? ? (_ & Hs) _]; subst.
  simpl. apply Hs. reflexivity.
Defined.

(** ** Extraction *)

Lemma strip_prefix_none p s :
  String.prefix p s = false -> strip_prefix p s = None.
Proof.
  revert s. induction p as [|a p IH]; intros s H.
  - destruct s; discriminate.
  - destruct s as [|b s]; [reflexivity|]. simpl in *.
    destruct (ascii_dec a b) as [->|Hne].
    + rewrite Ascii.eqb_refl. auto.
    + apply Ascii.eqb_neq in Hne. now rewrite Hne.
Qed.

Lemma NEWPLOT_head :
  exists rest, NEWPLOT_PATTERN = RSeq (RLit "Plotly.newPlot") rest.
Proof. eexists. reflexivity. Qed.

Lemma rmatch_lit_seq {R} l r s env (k : string -> captures -> option R) :
  rmatch (RSeq (RLit l) r) s env k =
  match strip_prefix l s with
  | Some s' => rmatch r s' env k
  | None => None
  end.
Proof. reflexivity. Qed.

Lemma re_search_cons r c s :
  re_search r (String c s) =
  match rmatch r (String c s) [] (fun _ env => Some env) with
  | Some env => Some env
  | None => re_search r s
  end.
Proof. reflexivity. Qed.

Lemma search_needs_literal s :
  occurs "Plotly.newPlot" s = false -> re_search NEWPLOT_PATTERN s = None.
Proof.
  destruct NEWPLOT_head as [rest ->].
  induction s as [|c s IH]; intros H.
  - reflexivity.
  - cbn [occurs] in H. apply orb_false_iff in H. destruct H as [Hp Hr].
    rewrite re_search_cons, rmatch_lit_seq, (strip_prefix_none _ _ Hp).
    auto.
Qed.

Lemma html_entry_inv out h :
  html_entry out = Some h ->
  exists o d, out = PDict o /\ dict_get "data" o = Some (PDict d) /\
              dict_get "text/html" d = Some h.
Proof.
  unfold html_entry. destruct out as [| | | | | |o]; try discriminate.
  destruct (dict_get "data" o) as [[| | | | | |d]|] eqn:E; try discriminate.
  eauto.
Qed.

(** C10.  An output whose "text/html" entry is the empty string is handled
    like an output without the entry: both come back unchanged, and neither
    the store nor the random draws are touched, whatever the renderer. *)
Theorem empty_html_passthrough
  (render : pyval -> pyval -> result (bytes * pyval)) (urandom : nat -> N)
  (st : pstate) (out : pyval) :
  html_entry out = Some (PStr EmptyString) ->
  process_output render urandom st out = Ok (out, st) /\
  forall o d,
    dict_get "data" o = Some (PDict d) ->
    dict_get "text/html" d = None ->
    process_output render urandom st (PDict o) = Ok (PDict o, st).
Proof.
  intros Hh. split.
  - apply html_entry_inv in Hh. destruct Hh as (o & d & -> & Hd & Ht).
    unfold process_output, py_get. rewrite Hd. simpl. rewrite Ht. reflexivity.
  - intros o d Hd Ht.
    unfold process_output, py_get. rewrite Hd. simpl. rewrite Ht. reflexivity.
Qed.

Lemma empty_html_passthrough_witness :
  process_output (fun _ _ => Raise RenderError) (fun _ => 0%N)
    {| store := ∅; draws := 0 |} (html_output EmptyString)
  = Ok (html_output EmptyString, {| store := ∅; draws := 0 |}).
Proof.
  apply (empty_html_passthrough (fun _ _ => Raise RenderError) (fun _ => 0%N)
           {| store := ∅; draws := 0 |} (html_output EmptyString) eq_refl).
Defined.

(** C2 fails on the code: [normalize_heatmapgl] runs outside every [try].
    A chart whose data array holds a scalar makes it raise, and the
    exception leaves [preprocess]. *)
Lemma preprocess_raises_in_normalize
  (render : pyval -> pyval -> result (bytes * pyval)) (urandom : nat -> N) :
  extract_plotly_json html_scalar_trace
  = Ok (Some (fig_dict (PList [PInt 1]) (PDict []) (PDict []))) /\
  preprocess render urandom
    (notebook [code_cell [html_output html_scalar_trace]]) None
  = Raise AttributeError.
Proof. split; vm_compute; reflexivity. Qed.

(** ** Base64 *)

Lemma all_below_spec k f :
  all_below k f = true -> forall n, (n < N.of_nat k)%N -> f n = true.
Proof.
  unfold all_below. rewrite List.forallb_forall. intros H n Hn.
  specialize (H (N.to_nat n)). rewrite N2Nat.id in H. apply H.
  apply List.in_seq. lia.
Qed.

Lemma b64_index_char n :
  (n < 64)%N ->
  b64_index (b64_char n) = Some n /\ is_pad (b64_char n) = false.
Proof.
  intros Hn.
  pose proof (all_below_spec 64
    (fun n => match b64_index (b64_char n) with
              | Some m => (m =? n)%N
              | None => false
              end && negb (is_pad (b64_char n)))) as H.
  specialize (H ltac:(vm_compute; reflexivity) n Hn). simpl in H.
  apply andb_true_iff in H. destruct H as [H1 H2].
  destruct (b64_index (b64_char n)); [|discriminate].
  apply N.eqb_eq in H1. subst. split; [reflexivity|].
  now apply negb_true_iff in H2.
Qed.

Lemma byte_of_to_N b : byte_of_N (Byte.to_N b) = b.
Proof. unfold byte_of_N. now rewrite Byte.of_to_N. Qed.

Lemma byte_bound b : (Byte.to_N b < 256)%N.
Proof. pose proof (Byte.to_N_bounded b). lia. Qed.

Lemma split_div x y k : (y < k)%N -> ((x * k + y) / k = x)%N.
Proof.
  intros H. symmetry. apply (N.div_unique _ _ _ y); [exact H | lia].
Qed.

Lemma split_mod x y k : (y < k)%N -> ((x * k + y) mod k = y)%N.
Proof.
  intros H. symmetry. apply (N.mod_unique _ _ x); [exact H | lia].
Qed.

Lemma div_bound a k q : (0 < k)%N -> (a < k * q)%N -> (a / k < q)%N.
Proof. intros Hk H. apply N.Div0.div_lt_upper_bound; lia. Qed.

Lemma sextets3_bounds a b c :
  (a < 256)%N -> (b < 256)%N -> (c < 256)%N ->
  let '(s1, s2, s3, s4) := sextets3 a b c in
  (s1 < 64 /\ s2 < 64 /\ s3 < 64 /\ s4 < 64)%N.
Proof.
  unfold sextets3. cbv beta iota. intros Ha Hb Hc.
  pose proof (div_bound a 4 64 ltac:(lia) ltac:(lia)).
  pose proof (div_bound b 16 16 ltac:(lia) ltac:(lia)).
  pose proof (div_bound c 64 4 ltac:(lia) ltac:(lia)).
  pose proof (N.mod_lt a 4 ltac:(lia)).
  pose proof (N.mod_lt b 16 ltac:(lia)).
  pose proof (N.mod_lt c 64 ltac:(lia)).
  lia.
Qed.

Lemma sextets3_inverse a b c :
  (a < 256)%N -> (b < 256)%N -> (c < 256)%N ->
  let '(s1, s2, s3, s4) := sextets3 a b c in
  (s1 * 4 + s2 / 16 = a /\ (s2 mod 16) * 16 + s3 / 4 = b /\
   (s3 mod 4) * 64 + s4 = c)%N.
Proof.
  unfold sextets3. cbv beta iota. intros Ha Hb Hc.
  pose proof (div_bound b 16 16 ltac:(lia) ltac:(lia)) as Hb16.
  pose proof (div_bound c 64 4 ltac:(lia) ltac:(lia)) as Hc64.
  rewrite (split_div _ _ 16 Hb16), (split_mod _ _ 16 Hb16).
  rewrite (split_div _ _ 4 Hc64), (split_mod _ _ 4 Hc64).
  pose proof (N.div_mod' a 4). pose proof (N.div_mod' b 16).
  pose proof (N.div_mod' c 64). lia.
Qed.

Lemma sextets3_padding a b :
  ((((a mod 4) * 16 + 0 / 16) mod 16 = 0) /\
   (((b mod 16) * 4 + 0 / 64) mod 4 = 0))%N.
Proof.
  change (0 / 16)%N with 0%N. change (0 / 64)%N with 0%N.
  split; apply split_mod; lia.
Qed.

Lemma b64decode_group c1 c2 c3 c4 r :
  is_pad c3 = false -> is_pad c4 = false ->
  b64decode (String c1 (String c2 (String c3 (String c4 r)))) =
  match b64_index c1, b64_index c2, b64_index c3, b64_index c4,
        b64decode r with
  | Some s1, Some s2, Some s3, Some s4, Some rest =>
      Some (byte_of_N (s1 * 4 + s2 / 16)
            :: byte_of_N ((s2 mod 16) * 16 + s3 / 4)
            :: byte_of_N ((s3 mod 4) * 64 + s4) :: rest)
  | _, _, _, _, _ => None
  end.
Proof.
  intros H3 H4. cbn [b64decode]. rewrite H3, H4. simpl.
  destruct (b64_index c1), (b64_index c2), (b64_index c3), (b64_index c4),
    (b64decode r); reflexivity.
Qed.

Lemma b64_round_trip_aux n : forall bs : bytes,
  (length bs <= n)%nat -> b64decode (b64encode bs) = Some bs.
Proof.
  induction n as [|n IH]; intros bs Hlen.
  - destruct bs; [reflexivity | simpl in Hlen; lia].
  - destruct bs as [|a [|b [|c r]]].
    + reflexivity.
    + pose proof (sextets3_bounds _ _ _ (byte_bound a)
                    (ltac:(lia) : (0 < 256)%N) (ltac:(lia) : (0 < 256)%N))
        as Hb.
      pose proof (sextets3_inverse _ _ _ (byte_bound a)
                    (ltac:(lia) : (0 < 256)%N) (ltac:(lia) : (0 < 256)%N))
        as Hi.
      pose proof (sextets3_padding (Byte.to_N a) 0) as [Hp _].
      unfold sextets3 in *. cbn [b64encode sextets3 b64decode].
      destruct Hb as (B1 & B2 & _). destruct Hi as (I1 & _).
      destruct (b64_index_char _ B1) as [-> _].
      destruct (b64_index_char _ B2) as [-> _].
      change (is_pad "=" && is_pad "=") with true. cbv iota.
      rewrite Hp. cbn. rewrite I1, byte_of_to_N. reflexivity.
    + pose proof (sextets3_bounds _ _ _ (byte_bound a) (byte_bound b)
                    (ltac:(lia) : (0 < 256)%N)) as Hb.
      pose proof (sextets3_inverse _ _ _ (byte_bound a) (byte_bound b)
                    (ltac:(lia) : (0 < 256)%N)) as Hi.
      pose proof (sextets3_padding 0 (Byte.to_N b)) as [_ Hp].
      unfold sextets3 in *. cbn [b64encode sextets3 b64decode].
      destruct Hb as (B1 & B2 & B3 & _). destruct Hi as (I1 & I2 & _).
      destruct (b64_index_char _ B1) as [-> _].
      destruct (b64_index_char _ B2) as [-> _].
      destruct (b64_index_char _ B3) as [-> P3].
      rewrite P3. change (is_pad "=") with true. cbv iota. simpl andb.
      cbv iota. rewrite Hp. cbn. rewrite I1, I2, !byte_of_to_N. reflexivity.
    + pose proof (sextets3_bounds _ _ _ (byte_bound a) (byte_bound b)
                    (byte_bound c)) as Hb.
      pose proof (sextets3_inverse _ _ _ (byte_bound a) (byte_bound b)
                    (byte_bound c)) as Hi.
      unfold sextets3 in *.
      change (b64encode (a :: b :: c :: r)) with
        (String (b64_char (Byte.to_N a / 4))
           (String (b64_char ((Byte.to_N a mod 4) * 16 + Byte.to_N b / 16))
              (String (b64_char ((Byte.to_N b mod 16) * 4 + Byte.to_N c / 64))
                 (String (b64_char (Byte.to_N c mod 64)) (b64encode r))))).
      destruct Hb as (B1 & B2 & B3 & B4). destruct Hi as (I1 & I2 & I3).
      destruct (b64_index_char _ B1) as [E1 _].
      destruct (b64_index_char _ B2) as [E2 _].
      destruct (b64_index_char _ B3) as [E3 P3].
      destruct (b64_index_char _ B4) as [E4 P4].
      rewrite (b64decode_group _ _ _ _ _ P3 P4), E1, E2, E3, E4.
      rewrite IH by (simpl in Hlen; lia).
      rewrite I1, I2, I3, !byte_of_to_N. reflexivity.
Qed.

Lemma b64_round_trip (bs : bytes) : b64decode (b64encode bs) = Some bs.
Proof. apply (b64_round_trip_aux (length bs)). lia. Qed.

(** ** The success path *)

Lemma extract_is_fig_dict h fig :
  extract_plotly_json h = Ok (Some fig) ->
  exists d l c, fig = fig_dict d l c.
Proof.
  unfold extract_plotly_json.
  destruct (re_search NEWPLOT_PATTERN h) as [m|]; [|discriminate].
  destruct (group_text "data" m) as [dt| |]; simpl; try discriminate.
  destruct (literal_eval (_fix_js dt)) as [dv| |]; simpl; try discriminate.
  destruct (group_text "layout" m) as [lt| |]; simpl; try discriminate.
  destruct (literal_eval (_fix_js lt)) as [lv| |]; simpl; try discriminate.
  destruct (match group "config" m with
            | Some (String c r) => literal_eval (_fix_js (String c r))
            | _ => Ok (PDict [])
            end) as [cv| |]; simpl; try discriminate.
  intros [= <-]. eauto.
Qed.

Lemma process_output_success
  (render : pyval -> pyval -> result (bytes * pyval)) (urandom : nat -> N)
  st out h fig fig1 png width :
  html_entry out = Some (PStr h) -> h <> EmptyString ->
  extract_plotly_json h = Ok (Some fig) ->
  normalize_heatmapgl fig = Ok fig1 ->
  to_png render fig1 = Ok (png, width) ->
  process_output render urandom st out =
  Ok (static_output png width,
      {| store := <[png_name (uuid4_hex (urandom (draws st))) := png]>
                    (store st);
         draws := S (draws st) |}).
Proof.
  intros Hh Hne He Hn Hp. apply html_entry_inv in Hh.
  destruct Hh as (o & d & -> & Hd & Ht).
  unfold process_output, py_get. rewrite Hd. simpl. rewrite Ht. simpl.
  destruct h as [|c0 h0]; [congruence|]. simpl. rewrite He. simpl.
  destruct (extract_is_fig_dict _ _ He) as (dv & lv & cv & ->). simpl.
  change (normalize_heatmapgl (PDict [("data", dv); ("layout", lv);
                                      ("config", cv)]))
    with (normalize_heatmapgl (fig_dict dv lv cv)).
  rewrite Hn. simpl. rewrite Hp. reflexivity.
Qed.

(** ** The outputs store *)






(** ** [normalize_heatmapgl] *)

Lemma normalize_traces (traces : list (list (string * pyval))) :
  rmapM normalize_trace (map PDict traces)
  = Ok (map (fun t => PDict (retag t)) traces).
Proof.
  induction traces as [|t r IH]; [reflexivity|].
  cbn [map rmapM]. rewrite IH.
  unfold normalize_trace, retag, py_get. simpl.
  destruct (py_eq_str (default PNone (dict_get "type" t)) "heatmapgl");
    reflexivity.
Qed.

Lemma dict_get_None k d : dict_get k d = None <-> k ∉ map fst d.
Proof.
  induction d as [|[k' v] r IH]; simpl.
  - split; [intros _; apply not_elem_of_nil | reflexivity].
  - destruct (String.eqb k k') eqn:E.
    + apply String.eqb_eq in E. subst. split; [discriminate|].
      intros H. exfalso. apply H. left.
    + apply String.eqb_neq in E. rewrite IH, not_elem_of_cons. tauto.
Qed.

Lemma dict_set_fresh k v d :
  k ∉ map fst d -> dict_set k v d = (d ++ [(k, v)])%list.
Proof.
  induction d as [|[k' v'] r IH]; simpl; [reflexivity|].
  rewrite not_elem_of_cons. intros [Hne Hr].
  apply String.eqb_neq in Hne. rewrite Hne, IH by exact Hr. reflexivity.
Qed.

Lemma rename_fold_fresh d : forall acc,
  NoDup (map fst acc ++ map rename_key (map fst d))%list ->
  fold_left (fun acc kv => dict_set (rename_key (fst kv)) (snd kv) acc) d acc
  = (acc ++ map renamed d)%list.
Proof.
  induction d as [|[k v] r IH]; intros acc Hnd; simpl.
  - now rewrite app_nil_r.
  - simpl in Hnd. apply NoDup_app in Hnd as (Ha & Hdisj & Hr).
    apply NoDup_cons in Hr as (Hk & Hr).
    assert (Hfresh : rename_key k ∉ map fst acc).
    { intros Hin. apply (Hdisj _ Hin). left. }
    rewrite dict_set_fresh by exact Hfresh.
    rewrite IH.
    + rewrite <- app_assoc. reflexivity.
    + rewrite map_app. simpl. apply NoDup_app. split; [|split].
      * apply NoDup_app. split; [exact Ha|]. split.
        -- intros x Hx Hx'. apply list_elem_of_singleton in Hx'. subst.
           exact (Hfresh Hx).
        -- apply NoDup_singleton.
      * intros x Hx Hx'. apply elem_of_app in Hx as [Hx|Hx].
        -- apply (Hdisj _ Hx). now right.
        -- apply list_elem_of_singleton in Hx. subst. exact (Hk Hx').
      * exact Hr.
Qed.

Lemma rename_key_inj_on (keys : list string) :
  "heatmap" ∉ keys -> NoDup keys -> NoDup (map rename_key keys).
Proof.
  intros Hh Hnd. apply (NoDup_fmap_2_strong rename_key); [|exact Hnd].
  intros x y Hx Hy. unfold rename_key.
  destruct (String.eqb x "heatmapgl") eqn:Ex,
           (String.eqb y "heatmapgl") eqn:Ey; intros E.
  - apply String.eqb_eq in Ex, Ey. congruence.
  - subst y. contradiction.
  - subst x. contradiction.
  - exact E.
Qed.

Lemma rename_keys_no_clash dt :
  NoDup (map fst dt) -> dict_get "heatmap" dt = None ->
  rename_keys dt = map renamed dt.
Proof.
  intros Hnd Hh. unfold rename_keys.
  rewrite rename_fold_fresh; [reflexivity|]. simpl.
  apply rename_key_inj_on; [now apply dict_get_None | exact Hnd].
Qed.

Lemma retag_spec t :
  (dict_get "type" t = Some (PStr "heatmapgl") ->
   dict_get "type" (retag t) = Some (PStr "heatmap") /\
   forall k, k <> "type" -> dict_get k (retag t) = dict_get k t) /\
  (py_eq_str (default PNone (dict_get "type" t)) "heatmapgl" = false ->
   retag t = t).
Proof.
  unfold retag. split.
  - intros H. rewrite H. simpl. split; [apply dict_get_set_eq|].
    intros k Hk. now apply dict_get_set_ne.
  - intros ->. reflexivity.
Qed.

(** When [template.data] already has a "heatmap" entry next to
    "heatmapgl", the renaming collapses the two and the "heatmap" entry
    does not keep its value. *)
Lemma template_key_clash :
  ~ (forall fig fig' dt k v,
       normalize_heatmapgl fig = Ok fig' ->
       template_data fig = Some (PDict dt) ->
       k <> "heatmapgl" -> dict_get k dt = Some v ->
       exists dt', template_data fig' = Some (PDict dt') /\
                   dict_get k dt' = Some v).
Proof.
  intros H.
  destruct (H fig_clash _ _ "heatmap" (PStr "plain")
              ltac:(vm_compute; reflexivity) eq_refl
              ltac:(discriminate) eq_refl) as (dt' & Ht & Hg).
  vm_compute in Ht. injection Ht as <-. discriminate Hg.
Qed.

Lemma normalize_heatmapgl_run f traces lay :
  dict_get "data" f = Some (PList (map PDict traces)) ->
  dict_get "layout" f = Some (PDict lay) ->
  (dict_get "template" lay = None \/
   exists tpl, dict_get "template" lay = Some (PDict tpl)) ->
  exists tpl',
    normalize_heatmapgl (PDict f) =
    Ok (PDict
          (dict_set "layout" (PDict (dict_set "template" (PDict tpl') lay))
             (dict_set "data"
                (PList (map (fun t => PDict (retag t)) traces)) f))) /\
    (forall t,
       (dict_get "type" t = Some (PStr "heatmapgl") ->
        dict_get "type" (retag t) = Some (PStr "heatmap") /\
        forall k, k <> "type" -> dict_get k (retag t) = dict_get k t) /\
       (py_eq_str (default PNone (dict_get "type" t)) "heatmapgl" = false ->
        retag t = t)) /\
    (dict_get "template" lay = None -> tpl' = []) /\
    (forall tpl,
       dict_get "template" lay = Some (PDict tpl) ->
       match dict_get "data" tpl with
       | Some (PDict dt) =>
           tpl' = dict_set "data" (PDict (rename_keys dt)) tpl /\
           (NoDup (map fst dt) -> dict_get "heatmap" dt = None ->
            rename_keys dt = map renamed dt)
       | _ => tpl' = tpl /\ dict_set "template" (PDict tpl') lay = lay
       end).
Proof.
  intros Hd Hl Ht.
  assert (Hl' : dict_get "layout"
                  (dict_set "data"
                     (PList (map (fun t => PDict (retag t)) traces)) f)
                = Some (PDict lay)).
  { rewrite dict_get_set_ne by discriminate. exact Hl. }
  assert (Hrun : forall tpl0,
            default (PDict []) (dict_get "template" lay) = PDict tpl0 ->
            normalize_heatmapgl (PDict f) =
            Ok (PDict
                  (dict_set "layout"
                     (PDict (dict_set "template"
                               (PDict match dict_get "data" tpl0 with
                                      | Some (PDict dt) =>
                                          dict_set "data"
                                            (PDict (rename_keys dt)) tpl0
                                      | _ => tpl0
                                      end) lay))
                     (dict_set "data"
                        (PList (map (fun t => PDict (retag t)) traces)) f)))).
  { intros tpl0 Htpl. unfold normalize_heatmapgl.
    cbn [py_get]. rewrite Hd.
    cbn -[dict_set dict_get rename_keys retag normalize_trace rmapM].
    rewrite normalize_traces.
    cbn -[dict_set dict_get rename_keys retag]. rewrite Hl'.
    cbn -[dict_set dict_get rename_keys retag].
    change (match dict_get "template" lay with
            | Some x => x
            | None => PDict []
            end) with (default (PDict []) (dict_get "template" lay)).
    rewrite Htpl. cbn -[dict_set dict_get rename_keys retag].
    destruct (dict_get "data" tpl0) as [[| | | | | |dt]|]; reflexivity. }
  destruct Ht as [Hnone | [tpl Hsome]].
  - exists []. split; [|split; [|split]].
    + rewrite (Hrun []) by (rewrite Hnone; reflexivity). reflexivity.
    + apply retag_spec.
    + reflexivity.
    + intros tpl H. congruence.
  - exists (match dict_get "data" tpl with
            | Some (PDict dt) => dict_set "data" (PDict (rename_keys dt)) tpl
            | _ => tpl
            end).
    split; [|split; [|split]].
    + apply Hrun. rewrite Hsome. reflexivity.
    + apply retag_spec.
    + congruence.
    + intros tpl1 H. rewrite Hsome in H. injection H as <-.
      destruct (dict_get "data" tpl) as [[| | | | | |dt]|];
        try (split; [reflexivity | now apply dict_set_same]).
      split; [reflexivity | apply rename_keys_no_clash].
Qed.

(** On a figure whose data is a list of trace mappings and whose
    layout is a mapping with no template or a template mapping, the
    function returns the figure with every "heatmapgl" trace retagged
    "heatmap" (other traces, and the other fields of a retagged trace,
    unchanged) and with [layout.template] set: to an empty mapping when
    there was none; to the same template when its data is absent or not a
    mapping, so the layout is unchanged; and otherwise to the template with
    its data rebuilt by renaming "heatmapgl" to "heatmap", which keeps every
    value and every other key in place provided the keys are distinct and
    "heatmap" is not among them. *)
Theorem normalize_heatmapgl_spec f traces lay :
  dict_get "data" f = Some (PList (map PDict traces)) ->
  dict_get "layout" f = Some (PDict lay) ->
  (dict_get "template" lay = None \/
   exists tpl, dict_get "template" lay = Some (PDict tpl)) ->
  exists tpl',
    normalize_heatmapgl (PDict f) =
    Ok (PDict
          (dict_set "layout" (PDict (dict_set "template" (PDict tpl') lay))
             (dict_set "data"
                (PList (map (fun t => PDict (retag t)) traces)) f))) /\
    (forall t,
       (dict_get "type" t = Some (PStr "heatmapgl") ->
        dict_get "type" (retag t) = Some (PStr "heatmap") /\
        forall k, k <> "type" -> dict_get k (retag t) = dict_get k t) /\
       (py_eq_str (default PNone (dict_get "type" t)) "heatmapgl" = false ->
        retag t = t)) /\
    (dict_get "template" lay = None -> tpl' = []) /\
    (forall tpl,
       dict_get "template" lay = Some (PDict tpl) ->
       match dict_get "data" tpl with
       | Some (PDict dt) =>
           tpl' = dict_set "data" (PDict (rename_keys dt)) tpl /\
           (NoDup (map fst dt) -> dict_get "heatmap" dt = None ->
            rename_keys dt = map renamed dt)
       | _ => tpl' = tpl /\ dict_set "template" (PDict tpl') lay = lay
       end).
Proof. exact (normalize_heatmapgl_run f traces lay). Qed.

Lemma normalize_heatmapgl_spec_witness :
  normalize_heatmapgl
    (fig_dict
       (PList [PDict [("type", PStr "heatmapgl"); ("z", PList [PInt 1])]])
       (PDict [("template",
                PDict [("data", PDict [("heatmapgl", PStr "gl");
                                       ("bar", PStr "b")])])])
       (PDict []))
  = Ok (fig_dict
          (PList [PDict [("type", PStr "heatmap"); ("z", PList [PInt 1])]])
          (PDict [("template",
                   PDict [("data", PDict [("heatmap", PStr "gl");
                                          ("bar", PStr "b")])])])
          (PDict [])).
Proof.
  destruct (normalize_heatmapgl_spec
              [("data",
                PList (map PDict
                         [[("type", PStr "heatmapgl");
                           ("z", PList [PInt 1])]]));
               ("layout",
                PDict [("template",
                        PDict [("data", PDict [("heatmapgl", PStr "gl");
                                               ("bar", PStr "b")])])]);
               ("config", PDict [])]
              [[("type", PStr "heatmapgl"); ("z", PList [PInt 1])]]
              [("template",
                PDict [("data", PDict [("heatmapgl", PStr "gl");
                                       ("bar", PStr "b")])])]
              eq_refl eq_refl
              (or_intror (ex_intro _ _ eq_refl)))
    as (tpl' & Hrun & _ & _ & Htpl).
  specialize (Htpl _ eq_refl). simpl in Htpl. destruct Htpl as [-> _].
  exact Hrun.
Defined.

(** ** Strings *)

Lemma append_cons x a k :
  String.append (String x a) k = String x (String.append a k).
Proof. reflexivity. Qed.

Lemma append_nil_l k : String.append EmptyString k = k.
Proof. reflexivity. Qed.

Lemma append_nil_r s : String.append s EmptyString = s.
Proof.
  induction s as [|c s IH]; [reflexivity|]. now rewrite append_cons, IH.
Qed.

Lemma append_assoc a b c :
  String.append (String.append a b) c = String.append a (String.append b c).
Proof.
  induction a as [|x a IH]; [reflexivity|]. now rewrite !append_cons, IH.
Qed.

Lemma append_length a b :
  String.length (String.append a b) = (String.length a + String.length b)%nat.
Proof.
  induction a as [|x a IH]; [reflexivity|]. rewrite append_cons. simpl.
  now rewrite IH.
Qed.

Lemma ascii_all (P : ascii -> bool) :
  forallb P all_ascii = true -> forall c, P c = true.
Proof.
  rewrite List.forallb_forall. intros H c. apply H.
  rewrite <- (ascii_nat_embedding c). unfold all_ascii.
  apply List.in_map, List.in_seq. pose proof (nat_ascii_bounded c). lia.
Qed.

(** A fact about every character, checked on the 256 of them. *)
Ltac by_ascii_cases P :=
  let H := fresh in
  pose proof (ascii_all P ltac:(vm_compute; reflexivity)) as H;
  cbv beta in H.

Lemma prefix_length pat a :
  String.prefix pat a = true -> (String.length pat <= String.length a)%nat.
Proof.
  revert a. induction pat as [|c p IH]; intros a H; simpl; [lia|].
  destruct a as [|x a]; simpl in *; [discriminate|].
  destruct (ascii_dec c x); [|discriminate]. apply IH in H. lia.
Qed.

Lemma avoids_head c x p : avoids c (String x p) = true -> x <> c.
Proof.
  unfold avoids. simpl. intros H. apply andb_true_iff in H as [H _].
  apply negb_true_iff, Ascii.eqb_neq in H. exact H.
Qed.

Lemma avoids_tail c x p : avoids c (String x p) = true -> avoids c p = true.
Proof.
  unfold avoids. simpl. intros H. now apply andb_true_iff in H as [_ H].
Qed.

Lemma prefix_app pat a k :
  safe_head pat k = true ->
  String.prefix pat (String.append a k) = String.prefix pat a.
Proof.
  revert pat. induction a as [|x a IH]; intros pat Hk.
  - rewrite append_nil_l.
    destruct pat as [|c p]; [destruct k; reflexivity|].
    destruct k as [|d k]; [reflexivity|]. simpl in *.
    apply avoids_head in Hk. destruct (ascii_dec c d); congruence.
  - rewrite append_cons.
    destruct pat as [|c p]; [reflexivity|]. simpl.
    destruct (ascii_dec c x); [|reflexivity]. apply IH.
    destruct k as [|d k]; [reflexivity|]. simpl in *.
    eapply avoids_tail; eauto.
Qed.

(** ** [str.replace] on a text cut at a character foreign to the pattern *)

Section Replace.
Variables pat rep : string.

Lemma replace_app k : safe_head pat k = true -> forall a skip,
  (skip <= String.length a)%nat ->
  replace_from pat rep skip (String.append a k) =
  String.append (replace_from pat rep skip a) (replace_from pat rep 0 k).
Proof.
  intros Hk. induction a as [|x a IH]; intros skip Hs.
  - simpl in Hs. assert (skip = 0%nat) as -> by lia. reflexivity.
  - destruct skip as [|n].
    + change (String.append (String x a) k)
        with (String x (String.append a k)).
      cbn [replace_from].
      change (String x (String.append a k))
        with (String.append (String x a) k).
      rewrite (prefix_app pat (String x a) k Hk).
      destruct (String.prefix pat (String x a)) eqn:Ep.
      * apply prefix_length in Ep. simpl in Ep.
        rewrite IH by lia. now rewrite append_assoc.
      * simpl. rewrite IH by lia. reflexivity.
    + simpl in *. apply IH. lia.
Qed.

Lemma replace_cons x r :
  word_pattern pat = true -> avoids x pat = true ->
  replace_from pat rep 0 (String x r) = String x (replace_from pat rep 0 r).
Proof.
  intros Hw Hx. cbn [replace_from].
  destruct pat as [|c p]; [discriminate Hw|].
  apply avoids_head in Hx. simpl.
  destruct (ascii_dec c x); [congruence | reflexivity].
Qed.

Lemma replace_clean a :
  word_pattern pat = true -> str_all (fun c => avoids c pat) a = true ->
  replace_from pat rep 0 a = a.
Proof.
  intros Hw. induction a as [|x a IH]; intros Ha; [reflexivity|].
  simpl in Ha. apply andb_true_iff in Ha as [Hx Ha].
  rewrite replace_cons by assumption. now rewrite IH.
Qed.

Lemma avoids_non_alpha c :
  word_pattern pat = true -> is_alpha c = false -> avoids c pat = true.
Proof.
  unfold word_pattern. intros Hw Hc. apply andb_true_iff in Hw as [Hw _].
  unfold avoids. induction pat as [|x p IH]; [reflexivity|].
  simpl in *. apply andb_true_iff in Hw as [Hx Hp].
  rewrite IH by exact Hp. rewrite andb_true_r.
  apply negb_true_iff, Ascii.eqb_neq. congruence.
Qed.

End Replace.

(** ** Compact JSON through [_fix_js] and [literal_eval] *)

Lemma emit_arr w g l k :
  emit w g (JArr l) k = String "[" (emit_items w g l (String "]" k)).
Proof.
  cbn [emit]. f_equal. generalize (String "]" k). clear k.
  induction l as [|x l IH]; intros k; [reflexivity|].
  cbn [emit_items]. destruct l as [|y l]; [reflexivity|]. now rewrite IH.
Qed.

Lemma emit_obj w g d k :
  emit w g (JObj d) k = String "{" (emit_entries w g d (String "}" k)).
Proof.
  cbn [emit]. f_equal. generalize (String "}" k). clear k.
  induction d as [|[key v] d IH]; intros k; [reflexivity|].
  cbn [emit_entries]. destruct d as [|y d]; [reflexivity|]. now rewrite IH.
Qed.

Lemma emit_items_one w g x k : emit_items w g [x] k = emit w g x k.
Proof. reflexivity. Qed.

Lemma emit_items_more w g x y l k :
  emit_items w g (x :: y :: l) k =
  emit w g x (String "," (emit_items w g (y :: l) k)).
Proof. reflexivity. Qed.

Lemma emit_entries_one w g key v k :
  emit_entries w g [(key, v)] k =
  String quote_dq
    (String.append (g key) (String quote_dq (String ":" (emit w g v k)))).
Proof. reflexivity. Qed.

Lemma emit_entries_more w g key v y d k :
  emit_entries w g ((key, v) :: y :: d) k =
  String quote_dq
    (String.append (g key)
       (String quote_dq
          (String ":"
             (emit w g v (String "," (emit_entries w g (y :: d) k)))))).
Proof. reflexivity. Qed.

Lemma denote_arr g l : denote g (JArr l) = PList (map (denote g) l).
Proof. reflexivity. Qed.

Lemma denote_obj g d : denote g (JObj d) = PDict (denote_entries g d []).
Proof.
  cbn [denote]. f_equal. generalize (@nil (string * pyval)).
  induction d as [|[key v] d IH]; intros acc; [reflexivity|].
  cbn [denote_entries]. now rewrite IH.
Qed.

Lemma digit_not_alpha c : is_digit c = true -> is_alpha c = false.
Proof.
  intros H.
  pose proof (ascii_all (fun c => implb (is_digit c) (negb (is_alpha c)))
                ltac:(vm_compute; reflexivity) c) as A.
  cbv beta in A. rewrite H in A. simpl in A. now apply negb_true_iff in A.
Qed.

Section ReplaceEmit.
Variables pat rep : string.
Hypothesis Hw : word_pattern pat = true.
Variable w : words.
Variable g : string -> string.
Variable P : string -> bool.

Lemma replace_mark c k :
  is_alpha c = false ->
  replace_from pat rep 0 (String c k) = String c (replace_from pat rep 0 k).
Proof. intros Hc. apply replace_cons; [exact Hw|]. now apply avoids_non_alpha. Qed.

Lemma safe_mark c k : is_alpha c = false -> safe_head pat (String c k) = true.
Proof. intros Hc. simpl. now apply avoids_non_alpha. Qed.

Lemma replace_digits ds k :
  str_all is_digit ds = true -> safe_head pat k = true ->
  replace_from pat rep 0 (String.append ds k) =
  String.append ds (replace_from pat rep 0 k).
Proof.
  intros Hd Hk. rewrite replace_app by (assumption || lia).
  rewrite replace_clean; [reflexivity | exact Hw |].
  induction ds as [|c ds IH]; [reflexivity|]. simpl in *.
  apply andb_true_iff in Hd as [Hc Hd]. rewrite IH by exact Hd.
  rewrite avoids_non_alpha; [reflexivity | exact Hw |].
  now apply digit_not_alpha.
Qed.

Lemma replace_quoted s k :
  replace_from pat rep 0 (String quote_dq (String.append s (String quote_dq k)))
  = String quote_dq (String.append (str_replace s pat rep)
                       (String quote_dq (replace_from pat rep 0 k))).
Proof.
  rewrite replace_mark by reflexivity.
  rewrite replace_app by (try lia; now apply safe_mark).
  now rewrite replace_mark by reflexivity.
Qed.

Lemma replace_emit n : forall j k,
  js_ok P n j = true -> safe_head pat k = true ->
  replace_from pat rep 0 (emit w g j k) =
  emit (replaced pat rep w) (fun s => str_replace (g s) pat rep) j
       (replace_from pat rep 0 k).
Proof.
  induction n as [|m IH]; intros j k Hj Hk.
  - destruct j as [|b|neg ds|s|l|d]; try discriminate Hj.
    + simpl. now rewrite replace_app by (assumption || lia).
    + destruct b; simpl; now rewrite replace_app by (assumption || lia).
    + simpl in Hj |- *. unfold digits_ok in Hj. destruct ds as [|c ds]; [discriminate|].
      apply andb_true_iff in Hj as [Hj _]. apply andb_true_iff in Hj as [Hj _].
      destruct neg; [rewrite replace_mark by reflexivity|];
        now rewrite replace_digits.
    + simpl. apply replace_quoted.
  - destruct j as [|b|neg ds|s|l|d].
    + simpl. now rewrite replace_app by (assumption || lia).
    + destruct b; simpl; now rewrite replace_app by (assumption || lia).
    + simpl in Hj |- *. unfold digits_ok in Hj. destruct ds as [|c ds]; [discriminate|].
      apply andb_true_iff in Hj as [Hj _]. apply andb_true_iff in Hj as [Hj _].
      destruct neg; [rewrite replace_mark by reflexivity|];
        now rewrite replace_digits.
    + simpl. apply replace_quoted.
    + rewrite !emit_arr. simpl in Hj. rewrite replace_mark by reflexivity.
      f_equal. rewrite <- (replace_mark "]" k) by reflexivity.
      assert (Hk' : safe_head pat (String "]" k) = true)
        by now apply safe_mark.
      revert Hj Hk'. generalize (String "]" k). clear Hk k.
      induction l as [|x l IHl]; intros k Hl Hk; [reflexivity|].
      simpl in Hl. apply andb_true_iff in Hl as [Hx Hl].
      destruct l as [|y l].
      * rewrite !emit_items_one. now apply IH.
      * rewrite !emit_items_more.
        rewrite IH by (try assumption; now apply safe_mark).
        rewrite replace_mark by reflexivity. now rewrite IHl.
    + rewrite !emit_obj. simpl in Hj. rewrite replace_mark by reflexivity.
      f_equal. rewrite <- (replace_mark "}" k) by reflexivity.
      assert (Hk' : safe_head pat (String "}" k) = true)
        by now apply safe_mark.
      revert Hj Hk'. generalize (String "}" k). clear Hk k.
      induction d as [|[key v] d IHd]; intros k Hd Hk; [reflexivity|].
      simpl in Hd. apply andb_true_iff in Hd as [Hx Hd].
      apply andb_true_iff in Hx as [_ Hx].
      destruct d as [|y d].
      * rewrite !emit_entries_one, replace_quoted.
        rewrite replace_mark by reflexivity. now rewrite IH.
      * rewrite !emit_entries_more, replace_quoted.
        rewrite replace_mark by reflexivity.
        rewrite IH by (try assumption; now apply safe_mark).
        rewrite replace_mark by reflexivity. now rewrite IHd.
Qed.

End ReplaceEmit.

Lemma fix_js_text P n j :
  js_ok P n j = true ->
  _fix_js (js_text j) = emit py_words _fix_js j EmptyString.
Proof.
  intros Hj. unfold _fix_js at 1, js_text, str_replace.
  rewrite (replace_emit "null" "None" eq_refl js_words id P n j EmptyString Hj eq_refl).
  change (replace_from "null" "None" 0 EmptyString) with EmptyString.
  rewrite (replace_emit "true" "True" eq_refl _ _ P n j EmptyString Hj eq_refl).
  change (replace_from "true" "True" 0 EmptyString) with EmptyString.
  rewrite (replace_emit "false" "False" eq_refl _ _ P n j EmptyString Hj eq_refl).
  reflexivity.
Qed.

(** ** The parser on compact JSON *)

Lemma str_all_app p a b :
  str_all p (String.append a b) = str_all p a && str_all p b.
Proof.
  induction a as [|x a IH]; [reflexivity|]. rewrite append_cons. simpl.
  now rewrite IH, andb_assoc.
Qed.

Lemma replace_keeps p pat rep : str_all p rep = true ->
  forall s skip, str_all p s = true ->
  str_all p (replace_from pat rep skip s) = true.
Proof.
  intros Hr. induction s as [|c s IH]; intros skip Hs; [reflexivity|].
  simpl in Hs. apply andb_true_iff in Hs as [Hc Hs].
  destruct skip as [|n]; cbn [replace_from]; [|now apply IH].
  destruct (String.prefix pat (String c s)).
  - rewrite str_all_app, Hr. now apply IH.
  - simpl. rewrite Hc. now apply IH.
Qed.

Lemma fix_js_plain s :
  str_all is_plain s = true -> str_all is_plain (_fix_js s) = true.
Proof.
  intros H. unfold _fix_js, str_replace.
  repeat (apply replace_keeps; [reflexivity|]). exact H.
Qed.

Lemma js_ok_mono (P Q : string -> bool) :
  (forall s, P s = true -> Q s = true) ->
  forall n j, js_ok P n j = true -> js_ok Q n j = true.
Proof.
  intros HPQ. induction n as [|m IH]; intros j Hj;
    destruct j as [|b|neg ds|s|l|d]; simpl in *;
    try discriminate; try assumption; try now apply HPQ.
  - rewrite List.forallb_forall in *. intros x Hx. apply IH, Hj, Hx.
  - rewrite List.forallb_forall in *. intros [key v] Hx.
    specialize (Hj _ Hx). simpl in Hj. apply andb_true_iff in Hj as [Hk Hv].
    rewrite (HPQ _ Hk). now apply IH.
Qed.

Lemma span_none p k : starts_with p k = false -> span p k = (EmptyString, k).
Proof. destruct k as [|c k]; simpl; [reflexivity|]. now intros ->. Qed.

Lemma span_app p a k :
  str_all p a = true -> starts_with p k = false ->
  span p (String.append a k) = (a, k).
Proof.
  intros Ha Hk. induction a as [|x a IH].
  - now apply span_none.
  - simpl in Ha. apply andb_true_iff in Ha as [Hx Ha].
    rewrite append_cons. simpl. now rewrite Hx, IH.
Qed.

Lemma delim_cases c :
  is_delim c = true -> c = ","%char \/ c = "]"%char \/ c = "}"%char \/ c = ":"%char.
Proof.
  unfold is_delim. rewrite !orb_true_iff, !Ascii.eqb_eq. tauto.
Qed.

Lemma tail_cases k :
  tail_ok k = true ->
  k = EmptyString \/ exists c r, k = String c r /\
    (c = ","%char \/ c = "]"%char \/ c = "}"%char \/ c = ":"%char).
Proof.
  destruct k as [|c r]; [now left|]. simpl. intros H. right.
  exists c, r. split; [reflexivity|]. now apply delim_cases.
Qed.

Ltac by_tail H :=
  apply tail_cases in H as [-> | (? & ? & -> & [-> | [-> | [-> | ->]]])].

Lemma read_number_digits ds k :
  digits_ok ds = true -> tail_ok k = true ->
  read_number (String.append ds k) = Ok (PInt (Z_of_digits 0 ds), k).
Proof.
  intros Hd Hk. unfold digits_ok in Hd.
  destruct ds as [|c ds]; [discriminate|].
  apply andb_true_iff in Hd as [Hd Hlen].
  apply andb_true_iff in Hd as [Hd Hzero].
  apply Nat.leb_le in Hlen.
  unfold read_number. rewrite (span_app is_digit _ k Hd) by (by_tail Hk; reflexivity).
  assert (Hz : starts_with (Ascii.eqb "0") (String c ds)
               && Nat.ltb 1 (String.length (String c ds)) = false).
  { cbn [starts_with]. rewrite Ascii.eqb_sym.
    destruct (Ascii.eqb c "0"); [|reflexivity]. simpl in Hzero.
    destruct ds; [reflexivity | discriminate]. }
  assert (Hl : Nat.ltb max_int_digits (String.length (String c ds)) = false)
    by (apply Nat.ltb_ge; exact Hlen).
  by_tail Hk; cbv beta iota; cbn [read_exponent starts_with orb Ascii.eqb];
    cbn -[max_int_digits String.length Nat.ltb Z_of_digits] in *;
    rewrite ?Hz, ?Hl; reflexivity.
Qed.

Lemma tail_skip k : tail_ok k = true -> skip_ws k = k.
Proof. intros H. by_tail H; reflexivity. Qed.

Lemma tail_no_quote k : tail_ok k = true -> starts_with is_quote (skip_ws k) = false.
Proof. intros H. by_tail H; reflexivity. Qed.

Lemma digit_head c :
  is_digit c = true ->
  is_blank c = false /\ Ascii.eqb c "[" = false /\ Ascii.eqb c "{" = false
  /\ is_quote c = false /\ Ascii.eqb c "]" = false.
Proof.
  intros H.
  pose proof (ascii_all
                (fun c => implb (is_digit c)
                            (negb (is_blank c) && negb (Ascii.eqb c "[")
                             && negb (Ascii.eqb c "{") && negb (is_quote c)
                             && negb (Ascii.eqb c "]")))
                ltac:(vm_compute; reflexivity) c) as A.
  cbv beta in A. rewrite H in A. simpl in A.
  rewrite !andb_true_iff, !negb_true_iff in A. tauto.
Qed.

(** *** One step of the three parsing functions *)

Lemma parse_value_arr f d r :
  parse_value (S f) (S d) (String "[" r) =
  let* (l, r') := parse_items f d [] r in Ok (PList l, r').
Proof. reflexivity. Qed.

Lemma parse_value_obj f d r :
  parse_value (S f) (S d) (String "{" r) =
  let* (e, r') := parse_entries f d [] r in Ok (PDict e, r').
Proof. reflexivity. Qed.

Lemma parse_items_close f depth acc k :
  parse_items (S f) depth acc (String "]" k) = Ok (rev acc, k).
Proof. reflexivity. Qed.

Lemma parse_entries_close f depth acc k :
  parse_entries (S f) depth acc (String "}" k) = Ok (acc, k).
Proof. reflexivity. Qed.

Lemma parse_items_next f depth acc c r v r2 :
  is_blank c = false -> Ascii.eqb c "]" = false ->
  parse_value f depth (String c r) = Ok (v, String "," r2) ->
  parse_items (S f) depth acc (String c r) = parse_items f depth (v :: acc) r2.
Proof.
  intros Hb Hc Hv. cbn [parse_items skip_ws]. rewrite Hb, Hc, Hv. reflexivity.
Qed.

Lemma parse_items_last f depth acc c r v r2 :
  is_blank c = false -> Ascii.eqb c "]" = false ->
  parse_value f depth (String c r) = Ok (v, String "]" r2) ->
  parse_items (S f) depth acc (String c r) = Ok (rev (v :: acc), r2).
Proof.
  intros Hb Hc Hv. cbn [parse_items skip_ws]. rewrite Hb, Hc, Hv. reflexivity.
Qed.

Lemma parse_entries_next f depth acc R ks X v r4 :
  parse_value f depth (String quote_dq R) = Ok (PStr ks, String ":" X) ->
  parse_value f depth X = Ok (v, String "," r4) ->
  parse_entries (S f) depth acc (String quote_dq R) =
  parse_entries f depth (dict_set ks v acc) r4.
Proof.
  intros Hk Hv. cbn [parse_entries skip_ws].
  change (is_blank quote_dq) with false. cbv iota.
  change (Ascii.eqb quote_dq "}") with false. cbv iota.
  rewrite Hk. cbn [rbind skip_ws]. change (is_blank ":") with false. cbv iota.
  change (Ascii.eqb ":" ":") with true. cbv iota.
  rewrite Hv. reflexivity.
Qed.

Lemma parse_entries_last f depth acc R ks X v r4 :
  parse_value f depth (String quote_dq R) = Ok (PStr ks, String ":" X) ->
  parse_value f depth X = Ok (v, String "}" r4) ->
  parse_entries (S f) depth acc (String quote_dq R) =
  Ok (dict_set ks v acc, r4).
Proof.
  intros Hk Hv. cbn [parse_entries skip_ws].
  change (is_blank quote_dq) with false. cbv iota.
  change (Ascii.eqb quote_dq "}") with false. cbv iota.
  rewrite Hk. cbn [rbind skip_ws]. change (is_blank ":") with false. cbv iota.
  change (Ascii.eqb ":" ":") with true. cbv iota.
  rewrite Hv. reflexivity.
Qed.

(** *** Leaves *)

Lemma read_string_plain s k :
  str_all is_plain s = true ->
  read_string quote_dq (String.append s (String quote_dq k)) = Ok (s, k).
Proof.
  induction s as [|c s IH]; intros Hs; [reflexivity|].
  simpl in Hs. apply andb_true_iff in Hs as [Hc Hs].
  unfold is_plain in Hc. rewrite negb_true_iff, !orb_false_iff in Hc.
  destruct Hc as [[[[H1 H2] H3] H4] H5].
  rewrite append_cons. cbn [read_string].
  rewrite H1, H2, H3, H4. cbn [orb]. rewrite IH by exact Hs. reflexivity.
Qed.

Lemma parse_str f depth s k :
  str_all is_plain s = true -> tail_ok k = true ->
  parse_value (S f) depth (String quote_dq (String.append s (String quote_dq k)))
  = Ok (PStr s, k).
Proof.
  intros Hs Hk. cbn [parse_value skip_ws].
  change (is_blank quote_dq) with false. cbv iota.
  change (Ascii.eqb quote_dq "[") with false.
  change (Ascii.eqb quote_dq "{") with false.
  change (is_quote quote_dq) with true. cbv iota.
  rewrite read_string_plain by exact Hs. cbn [rbind].
  now rewrite tail_no_quote.
Qed.

Lemma read_name_word (wd : string) v k :
  str_all is_ident_char wd = true ->
  (if String.eqb wd "None" then Ok (PNone, k)
   else if String.eqb wd "True" then Ok (PBool true, k)
   else if String.eqb wd "False" then Ok (PBool false, k)
   else Unmodelled) = Ok (v, k) ->
  tail_ok k = true ->
  read_name (String.append wd k) = Ok (v, k).
Proof.
  intros Hw Hv Hk. unfold read_name.
  rewrite (span_app is_ident_char wd k Hw) by (by_tail Hk; reflexivity).
  replace (starts_with is_quote k) with false by (by_tail Hk; reflexivity).
  destruct (String.eqb wd "None"); [exact Hv|].
  destruct (String.eqb wd "True"); [exact Hv|].
  destruct (String.eqb wd "False"); [exact Hv|]. discriminate Hv.
Qed.

Lemma parse_null f depth k :
  tail_ok k = true ->
  parse_value (S f) depth (String.append "None" k) = Ok (PNone, k).
Proof.
  intros Hk. rewrite <- (read_name_word "None" PNone k eq_refl eq_refl Hk).
  reflexivity.
Qed.

Lemma parse_true f depth k :
  tail_ok k = true ->
  parse_value (S f) depth (String.append "True" k) = Ok (PBool true, k).
Proof.
  intros Hk. rewrite <- (read_name_word "True" _ k eq_refl eq_refl Hk).
  reflexivity.
Qed.

Lemma parse_false f depth k :
  tail_ok k = true ->
  parse_value (S f) depth (String.append "False" k) = Ok (PBool false, k).
Proof.
  intros Hk. rewrite <- (read_name_word "False" _ k eq_refl eq_refl Hk).
  reflexivity.
Qed.

Lemma digits_head ds :
  digits_ok ds = true ->
  exists c r, ds = String c r /\ is_digit c = true.
Proof.
  unfold digits_ok. destruct ds as [|c r]; [discriminate|]. intros H.
  apply andb_true_iff in H as [H _]. apply andb_true_iff in H as [H _].
  simpl in H. apply andb_true_iff in H as [H _]. now exists c, r.
Qed.

Lemma parse_num f depth (neg : bool) ds k :
  digits_ok ds = true -> tail_ok k = true ->
  parse_value (S f) depth
    (if neg then String "-" (String.append ds k) else String.append ds k)
  = Ok (PInt (digits_value neg ds), k).
Proof.
  intros Hd Hk. pose proof (read_number_digits ds k Hd Hk) as Hn.
  destruct (digits_head ds Hd) as (c & r & -> & Hc).
  destruct (digit_head c Hc) as (Hb & H1 & H2 & H3 & _).
  rewrite append_cons in *. destruct neg.
  - cbn [parse_value skip_ws]. change (is_blank "-") with false. cbv iota.
    change (Ascii.eqb "-" "[") with false.
    change (Ascii.eqb "-" "{") with false.
    change (is_quote "-") with false.
    change (is_digit "-" || Ascii.eqb "-" ".") with false.
    change (Ascii.eqb "-" "-" || Ascii.eqb "-" "+") with true. cbv iota.
    cbn [skip_ws]. rewrite Hb. cbn [starts_with]. rewrite Hc. cbn [orb].
    rewrite Hn. reflexivity.
  - cbn [parse_value skip_ws]. rewrite Hb, H1, H2, H3, Hc. cbn [orb].
    exact Hn.
Qed.

(** *** Values *)

Lemma sum_cons {A} (f : A -> nat) x l :
  list_sum (map f (x :: l)) = (f x + list_sum (map f l))%nat.
Proof. reflexivity. Qed.

Section ParseEmit.
Variable g : string -> string.

Lemma emit_head n j k :
  js_ok (plain_under g) n j = true ->
  exists c r, emit py_words g j k = String c r
              /\ is_blank c = false /\ Ascii.eqb c "]" = false.
Proof.
  intros Hj. destruct j as [|[|]|[|] ds|s|l|d].
  - now eexists _, _.
  - now eexists _, _.
  - now eexists _, _.
  - now eexists _, _.
  - assert (Hd : digits_ok ds = true) by (destruct n; exact Hj).
    destruct (digits_head ds Hd) as (c & r & -> & Hc).
    destruct (digit_head c Hc) as (Hb & _ & _ & _ & He).
    cbn [emit]. rewrite append_cons. now eexists _, _.
  - now eexists _, _.
  - rewrite emit_arr. now eexists _, _.
  - rewrite emit_obj. now eexists _, _.
Qed.

Lemma parse_leaf m j fuel depth k :
  is_container j = false ->
  js_ok (plain_under g) m j = true -> (weight j <= fuel)%nat -> tail_ok k = true ->
  parse_value fuel depth (emit py_words g j k) = Ok (denote g j, k).
Proof.
  intros Hc Hj Hf Hk. destruct fuel as [|f]; [destruct j; simpl in Hf; lia|].
  destruct j as [|[|]|neg ds|s|l|d]; try discriminate Hc.
  - now apply parse_null.
  - now apply parse_true.
  - now apply parse_false.
  - apply parse_num; [destruct m; exact Hj | exact Hk].
  - apply parse_str; [destruct m; exact Hj | exact Hk].
Qed.

Lemma parse_items_emit m (IH : parses g m) :
  forall l fuel depth acc k,
    forallb (js_ok (plain_under g) m) l = true -> (m <= depth)%nat ->
    (1 + list_sum (map (fun x => S (weight x)) l) <= fuel)%nat ->
    parse_items fuel depth acc (emit_items py_words g l (String "]" k))
    = Ok ((rev acc ++ map (denote g) l)%list, k).
Proof.
  induction l as [|x l IHl]; intros fuel depth acc k Hl Hd Hf;
    (destruct fuel as [|f]; [simpl in Hf; lia|]).
  - cbn [emit_items map]. rewrite parse_items_close.
    now rewrite List.app_nil_r.
  - cbn [forallb] in Hl. apply andb_true_iff in Hl as [Hx Hl].
    rewrite sum_cons in Hf.
    destruct l as [|y l].
    + rewrite emit_items_one.
      destruct (emit_head m x (String "]" k) Hx) as (c & r & E & Hb & Hc).
      pose proof (IH x f depth (String "]" k) Hx Hd ltac:(lia) eq_refl) as Hv.
      rewrite E in *.
      rewrite (parse_items_last _ _ _ _ _ _ _ Hb Hc Hv). reflexivity.
    + rewrite emit_items_more.
      set (K := emit_items py_words g (y :: l) (String "]" k)) in *.
      destruct (emit_head m x (String "," K) Hx) as (c & r & E & Hb & Hc).
      pose proof (IH x f depth (String "," K) Hx Hd ltac:(lia) eq_refl) as Hv.
      rewrite E in *.
      rewrite (parse_items_next _ _ _ _ _ _ _ Hb Hc Hv). subst K.
      rewrite IHl by (try assumption; lia).
      cbn [rev map]. now rewrite <- List.app_assoc.
Qed.

Lemma parse_entries_emit m (IH : parses g m) :
  forall d fuel depth acc k,
    forallb (fun kv : string * js =>
               let '(key, v) := kv in plain_under g key && js_ok (plain_under g) m v) d = true ->
    (m <= depth)%nat ->
    (1 + list_sum (map (fun kv : string * js =>
                          let '(_, v) := kv in S (weight v)) d) <= fuel)%nat ->
    parse_entries fuel depth acc (emit_entries py_words g d (String "}" k))
    = Ok (denote_entries g d acc, k).
Proof.
  induction d as [|[key v] d IHd]; intros fuel depth acc k Hl Hd Hf;
    (destruct fuel as [|f]; [simpl in Hf; lia|]).
  - cbn [emit_entries]. now rewrite parse_entries_close.
  - cbn [forallb] in Hl. apply andb_true_iff in Hl as [Hx Hl].
    apply andb_true_iff in Hx as [Hkey Hv].
    rewrite sum_cons in Hf.
    destruct f as [|f']; [lia|].
    destruct d as [|y d].
    + rewrite emit_entries_one.
      erewrite parse_entries_last;
        [reflexivity
        | apply parse_str; [exact Hkey | reflexivity]
        | apply IH; [exact Hv | exact Hd | lia | reflexivity]].
    + rewrite emit_entries_more.
      erewrite parse_entries_next;
        [
        | apply parse_str; [exact Hkey | reflexivity]
        | apply IH; [exact Hv | exact Hd | lia | reflexivity]].
      rewrite IHd by (try assumption; lia). reflexivity.
Qed.

Lemma parse_emit : forall m, parses g m.
Proof.
  induction m as [|m IH]; intros j fuel depth k Hj Hd Hf Hk.
  - destruct (is_container j) eqn:Ec; [destruct j; discriminate|].
    now apply (parse_leaf 0).
  - destruct j as [| | | |l|d];
      try (now apply (parse_leaf (S m))).
    + cbn [js_ok] in Hj. cbn [weight] in Hf.
      destruct depth as [|dp]; [lia|]. destruct fuel as [|f]; [lia|].
      rewrite emit_arr, parse_value_arr.
      rewrite (parse_items_emit m IH) by (try assumption; lia).
      reflexivity.
    + cbn [js_ok] in Hj. cbn [weight] in Hf.
      destruct depth as [|dp]; [lia|]. destruct fuel as [|f]; [lia|].
      rewrite emit_obj, parse_value_obj.
      rewrite (parse_entries_emit m IH) by (try assumption; lia).
      cbn [rbind]. now rewrite denote_obj.
Qed.

(** The fuel that [literal_eval] grants is enough. *)
Lemma weight_bound : forall n j k,
  js_ok (plain_under g) n j = true ->
  (S (weight j) + 2 * String.length k <= 2 * String.length (emit py_words g j k))%nat.
Proof.
  assert (Hleaf : forall n j k, is_container j = false -> js_ok (plain_under g) n j = true ->
    (S (weight j) + 2 * String.length k
     <= 2 * String.length (emit py_words g j k))%nat).
  { intros n j k Hc Hj.
    destruct j as [|[|]|neg ds|s|l|d]; try discriminate Hc;
      cbn [emit weight py_words w_null w_true w_false].
    - rewrite append_length. simpl. lia.
    - rewrite append_length. simpl. lia.
    - rewrite append_length. simpl. lia.
    - assert (Hd : digits_ok ds = true) by (destruct n; exact Hj).
      destruct (digits_head ds Hd) as (c & r & -> & _).
      destruct neg; cbn [String.length]; rewrite append_length; simpl; lia.
    - cbn [String.length]. rewrite append_length. cbn [String.length]. lia. }
  induction n as [|m IH]; intros j k Hj.
  - destruct (is_container j) eqn:Ec; [destruct j; discriminate|].
    now apply (Hleaf 0%nat).
  - destruct j as [| | | |l|d]; try (now apply (Hleaf (S m))).
    + cbn [js_ok] in Hj. rewrite emit_arr. cbn [weight String.length].
      assert (H : forall k,
        (list_sum (map (fun x => S (weight x)) l) + 2 * String.length k
         <= 2 * String.length (emit_items py_words g l k))%nat).
      { clear k. induction l as [|x l IHl]; intros k; [simpl; lia|].
        cbn [forallb] in Hj. apply andb_true_iff in Hj as [Hx Hl].
        rewrite sum_cons. destruct l as [|y l].
        - rewrite emit_items_one. specialize (IH x k Hx). simpl. lia.
        - rewrite emit_items_more.
          specialize (IH x (String "," (emit_items py_words g (y :: l) k)) Hx).
          specialize (IHl Hl k). cbn [String.length] in IH. lia. }
      specialize (H (String "]" k)). cbn [String.length] in H. lia.
    + cbn [js_ok] in Hj. rewrite emit_obj. cbn [weight String.length].
      assert (H : forall k,
        (list_sum (map (fun kv : string * js =>
                          let '(_, v) := kv in S (weight v)) d)
         + 2 * String.length k
         <= 2 * String.length (emit_entries py_words g d k))%nat).
      { clear k. induction d as [|[key v] d IHd]; intros k; [simpl; lia|].
        cbn [forallb] in Hj. apply andb_true_iff in Hj as [Hx Hl].
        apply andb_true_iff in Hx as [_ Hx].
        rewrite sum_cons. destruct d as [|y d].
        - rewrite emit_entries_one. specialize (IH v k Hx).
          cbn [String.length]. rewrite append_length. cbn [String.length].
          simpl list_sum. lia.
        - rewrite emit_entries_more.
          specialize (IH v (String "," (emit_entries py_words g (y :: d) k)) Hx).
          specialize (IHd Hl k). cbn [String.length] in IH |- *.
          rewrite append_length. cbn [String.length]. lia. }
      specialize (H (String "}" k)). cbn [String.length] in H. lia.
Qed.

End ParseEmit.

Lemma str_all_impl (p q : ascii -> bool) s :
  (forall c, p c = true -> q c = true) ->
  str_all p s = true -> str_all q s = true.
Proof.
  intros Hpq. induction s as [|c s IH]; [reflexivity|]. cbn [str_all].
  intros H. apply andb_true_iff in H as [Hc Hs].
  now rewrite (Hpq _ Hc), IH.
Qed.

(** A class of characters that holds the punctuation, the digits, the
    three words and the strings of a value holds its whole text. *)
Section EmitAll.
Variable p : ascii -> bool.
Variable w : words.
Variable g : string -> string.
Hypothesis Hmarks :
  forallb p [quote_dq; "["; "]"; "{"; "}"; ","; ":"; "-"]%char = true.
Hypothesis Hdigits : forall c, is_digit c = true -> p c = true.
Hypothesis Hwords :
  str_all p (w_null w) && str_all p (w_true w) && str_all p (w_false w)
  = true.

Lemma emit_all_leaf n j k :
  is_container j = false ->
  js_ok (fun s => str_all p (g s)) n j = true -> str_all p k = true ->
  str_all p (emit w g j k) = true.
Proof.
  intros Hc Hj Hk. cbn [forallb] in Hmarks.
  repeat (apply andb_true_iff in Hmarks as [? Hmarks]).
  apply andb_true_iff in Hwords as [Hw1 Hw3].
  apply andb_true_iff in Hw1 as [Hw1 Hw2].
  destruct j as [|[|]|neg ds|s|l|d]; try discriminate Hc; cbn [emit].
  - now rewrite str_all_app, Hw1, Hk.
  - now rewrite str_all_app, Hw2, Hk.
  - now rewrite str_all_app, Hw3, Hk.
  - assert (Hd : str_all p ds = true).
    { assert (Hok : digits_ok ds = true) by (destruct n; exact Hj).
      unfold digits_ok in Hok. destruct ds as [|c r]; [discriminate Hok|].
      apply andb_true_iff in Hok as [Hok _].
      apply andb_true_iff in Hok as [Hok _].
      now apply (str_all_impl is_digit). }
    destruct neg; cbn [str_all]; rewrite str_all_app, Hd, Hk;
      now rewrite ?andb_true_r.
  - assert (Hs : str_all p (g s) = true) by (destruct n; exact Hj).
    cbn [str_all]. rewrite str_all_app. cbn [str_all].
    now rewrite Hs, Hk, H.
Qed.

Lemma emit_all : forall n j k,
  js_ok (fun s => str_all p (g s)) n j = true -> str_all p k = true ->
  str_all p (emit w g j k) = true.
Proof.
  induction n as [|m IH]; intros j k Hj Hk.
  - destruct (is_container j) eqn:Ec; [destruct j; discriminate|].
    now apply (emit_all_leaf 0%nat).
  - destruct j as [| | | |l|d]; try (now apply (emit_all_leaf (S m))).
    + cbn [js_ok] in Hj. rewrite emit_arr. pose proof Hmarks as Hm.
      cbn [forallb] in Hm. repeat (apply andb_true_iff in Hm as [? Hm]).
      cbn [str_all]. rewrite H0. cbn [andb].
      assert (Hk' : str_all p (String "]" k) = true)
        by (cbn [str_all]; now rewrite H1, Hk).
      revert Hk'. generalize (String "]" k). clear Hk k.
      induction l as [|x l IHl]; intros k Hk; [exact Hk|].
      cbn [forallb] in Hj. apply andb_true_iff in Hj as [Hx Hl].
      destruct l as [|y l].
      * rewrite emit_items_one. now apply IH.
      * rewrite emit_items_more. apply IH; [exact Hx|].
        cbn [str_all]. rewrite H4. now apply IHl.
    + cbn [js_ok] in Hj. rewrite emit_obj. pose proof Hmarks as Hm.
      cbn [forallb] in Hm. repeat (apply andb_true_iff in Hm as [? Hm]).
      cbn [str_all]. rewrite H2. cbn [andb].
      assert (Hk' : str_all p (String "}" k) = true)
        by (cbn [str_all]; now rewrite H3, Hk).
      revert Hk'. generalize (String "}" k). clear Hk k.
      induction d as [|[key v] d IHd]; intros k Hk; [exact Hk|].
      cbn [forallb] in Hj. apply andb_true_iff in Hj as [Hx Hl].
      apply andb_true_iff in Hx as [Hkey Hv].
      destruct d as [|y d].
      * rewrite emit_entries_one. cbn [str_all]. rewrite str_all_app.
        cbn [str_all]. rewrite H, Hkey, H5. cbn [andb]. now apply IH.
      * rewrite emit_entries_more. cbn [str_all]. rewrite str_all_app.
        cbn [str_all]. rewrite H, Hkey, H5. cbn [andb].
        apply IH; [exact Hv|]. cbn [str_all]. rewrite H4. now apply IHd.
Qed.

End EmitAll.

Lemma plain_not_nul c : is_plain c = true -> not_nul c = true.
Proof.
  unfold is_plain, not_nul. rewrite !negb_true_iff, !orb_false_iff. tauto.
Qed.

Lemma digit_not_nul c : is_digit c = true -> not_nul c = true.
Proof.
  intros H.
  pose proof (ascii_all (fun c => implb (is_digit c) (not_nul c))
                ltac:(vm_compute; reflexivity) c) as A.
  cbv beta in A. now rewrite H in A.
Qed.

Lemma emit_container w g j k :
  is_container j = true ->
  exists c r, emit w g j k = String c r
              /\ (c = "["%char \/ c = "{"%char).
Proof.
  destruct j as [| | | |l|d]; try discriminate; intros _.
  - rewrite emit_arr. eexists _, _. split; [reflexivity | now left].
  - rewrite emit_obj. eexists _, _. split; [reflexivity | now right].
Qed.

Lemma literal_eval_json j :
  json_ok j = true ->
  literal_eval (_fix_js (js_text j)) = Ok (denote _fix_js j).
Proof.
  unfold json_ok. intros H. apply andb_true_iff in H as [Hc Hj].
  rewrite (fix_js_text _ _ _ Hj).
  apply (js_ok_mono _ (fun s => str_all is_plain (_fix_js s)) fix_js_plain)
    in Hj.
  pose proof (weight_bound _fix_js _ j EmptyString Hj) as Hw.
  pose proof (parse_emit _fix_js max_depth j
                (2 * String.length (emit py_words _fix_js j EmptyString))%nat
                max_depth EmptyString Hj (le_n _) ltac:(lia) eq_refl) as Hp.
  assert (Hn : str_all not_nul (emit py_words _fix_js j EmptyString) = true).
  { apply (emit_all not_nul py_words _fix_js eq_refl digit_not_nul eq_refl
             max_depth); [|reflexivity].
    revert Hj. apply js_ok_mono. intros s.
    apply str_all_impl, plain_not_nul. }
  destruct (emit_container py_words _fix_js j EmptyString Hc)
    as (c & r & E & Hh).
  unfold literal_eval. rewrite E in *. rewrite Hn. cbn [negb].
  assert (Hs : lstrip_blank (String c r) = String c r)
    by (destruct Hh as [-> | ->]; reflexivity).
  rewrite Hs.
  assert (Hb : starts_with (Ascii.eqb "[") (String c r)
               || starts_with (Ascii.eqb "{") (String c r) = true)
    by (destruct Hh as [-> | ->]; reflexivity).
  rewrite Hb, Hp. reflexivity.
Qed.



(** C5 fails on the code: [_fix_js] replaces the three words wherever
    they occur, inside string literals too, so the name "nullable" of the
    page comes out of extraction as "Noneable". *)
Theorem fix_js_rewrites_strings :
  extract_plotly_json html_nullable =
  Ok (Some (fig_dict
              (PList [PDict [("name", PStr "Noneable"); ("y", PList [PNone])]])
              (PDict []) (PDict []))).
Proof. vm_compute. reflexivity. Qed.

(** ** [_fix_js] on its own *)

Lemma replace_absent pat rep s :
  occurs pat s = false -> str_replace s pat rep = s.
Proof.
  unfold str_replace. induction s as [|c s IH]; intros H; [reflexivity|].
  cbn [occurs] in H. apply orb_false_iff in H as [Hp Hs].
  cbn [replace_from]. rewrite Hp, IH by exact Hs. reflexivity.
Qed.

(** [_fix_js] leaves alone every text in which none of the three words
    occurs. *)
Theorem fix_js_token_free s :
  occurs "null" s = false -> occurs "true" s = false ->
  occurs "false" s = false -> _fix_js s = s.
Proof.
  intros Hn Ht Hf. unfold _fix_js.
  now rewrite (replace_absent "null"), (replace_absent "true"),
    (replace_absent "false").
Qed.

Lemma fix_js_token_free_witness :
  _fix_js (bq "[1,2,{`k`:`v`}]") = bq "[1,2,{`k`:`v`}]".
Proof. apply fix_js_token_free; reflexivity. Defined.

(** On compact JSON, [_fix_js] respells the three constants and rewrites
    the contents of the string literals; digits and punctuation stay. *)
Theorem fix_js_on_json n j :
  js_ok (fun _ => true) n j = true ->
  _fix_js (js_text j) = emit py_words _fix_js j EmptyString.
Proof. apply fix_js_text. Qed.

Lemma fix_js_on_json_witness :
  _fix_js (js_text js_sample) = emit py_words _fix_js js_sample EmptyString.
Proof. apply (fix_js_on_json 3 js_sample). reflexivity. Defined.

(** [literal_eval] after [_fix_js] reads a compact JSON list or object
    back: the constants become [None], [True] and [False], a string [s],
    keys included, comes out as [_fix_js s]. *)
Theorem literal_eval_compact_json j :
  json_ok j = true ->
  literal_eval (_fix_js (js_text j)) = Ok (denote _fix_js j).
Proof. apply literal_eval_json. Qed.

Lemma literal_eval_compact_json_witness :
  literal_eval (_fix_js (js_text js_sample)) = Ok (denote _fix_js js_sample).
Proof. apply literal_eval_compact_json. vm_compute. reflexivity. Defined.

Lemma fix_js_null_head r :
  _fix_js (String.append "null" r) = String.append "None" (_fix_js r).
Proof. destruct r; reflexivity. Qed.

(** A string literal that begins with the letters of [null] does not
    come out as written: the word is rewritten inside the literal too. *)
Theorem fix_js_rewrites_inside_strings r :
  str_all is_plain r = true ->
  literal_eval (_fix_js (js_text (JArr [JStr (String.append "null" r)])))
  = Ok (PList [PStr (String.append "None" (_fix_js r))]).
Proof.
  intros Hr. rewrite literal_eval_json.
  - cbn [denote map]. now rewrite fix_js_null_head.
  - unfold json_ok, max_depth. cbn [is_container andb js_ok forallb].
    rewrite andb_true_r. rewrite !append_cons, append_nil_l. exact Hr.
Qed.

Lemma fix_js_rewrites_inside_strings_witness :
  literal_eval (_fix_js (js_text (JArr [JStr "nullable"])))
  = Ok (PList [PStr "Noneable"]).
Proof. apply (fix_js_rewrites_inside_strings "able"). reflexivity. Defined.

(** ** More on [normalize_heatmapgl] *)

Lemma rmapM_Forall2 {A B} (f : A -> result B) l l' :
  rmapM f l = Ok l' -> Forall2 (fun x y => f x = Ok y) l l'.
Proof.
  revert l'. induction l as [|x l IH]; intros l' H; simpl in H.
  - injection H as <-. constructor.
  - inv_ok. constructor; [assumption | now apply IH].
Qed.

Lemma normalize_trace_type t t' :
  normalize_trace t = Ok t' ->
  py_get t' "type" PNone <> Ok (PStr "heatmapgl").
Proof.
  unfold normalize_trace. destruct t as [| | | | | |d]; try discriminate.
  cbn [py_get rbind].
  destruct (py_eq_str (default PNone (dict_get "type" d)) "heatmapgl") eqn:E.
  - cbn [py_setitem]. intros [= <-]. cbn [py_get].
    rewrite dict_get_set_eq. discriminate.
  - intros [= <-]. cbn [py_get]. intros [= H]. rewrite H in E. discriminate E.
Qed.

Lemma rename_keys_fold_no_gl d : forall acc,
  dict_get "heatmapgl" acc = None ->
  dict_get "heatmapgl"
    (fold_left (fun acc kv => dict_set (rename_key (fst kv)) (snd kv) acc)
       d acc) = None.
Proof.
  induction d as [|[k v] d IH]; intros acc Hacc; [exact Hacc|].
  cbn [fold_left fst snd]. apply IH. rewrite dict_get_set_ne; [exact Hacc|].
  unfold rename_key. destruct (String.eqb k "heatmapgl") eqn:E.
  - discriminate.
  - apply String.eqb_neq in E. congruence.
Qed.

Lemma rename_keys_no_gl dt : dict_get "heatmapgl" (rename_keys dt) = None.
Proof. apply rename_keys_fold_no_gl. reflexivity. Qed.

(** After a successful [normalize_heatmapgl], no trace of the figure has
    the type [heatmapgl] and [layout.template.data] has no key
    [heatmapgl]. *)
Theorem normalize_leaves_no_heatmapgl fig fig' :
  normalize_heatmapgl fig = Ok fig' ->
  (forall traces',
     py_getitem fig' "data" = Ok (PList traces') ->
     Forall (fun t => py_get t "type" PNone <> Ok (PStr "heatmapgl"))
       traces') /\
  (forall dt',
     template_data fig' = Some (PDict dt') ->
     dict_get "heatmapgl" dt' = None).
Proof.
  unfold normalize_heatmapgl. intros H.
  destruct fig as [| | | | | |f]; try discriminate H.
  cbn [py_get rbind] in H.
  apply rbind_ok in H as (traces & Hit & H).
  apply rbind_ok in H as (traces' & Hmap & H).
  set (fig1 := match default (PList []) (dict_get "data" f) with
               | PList _ =>
                   match dict_get "data" f with
                   | Some _ => PDict (dict_set "data" (PList traces') f)
                   | None => PDict f
                   end
               | _ => PDict f
               end) in H.
  assert (Hfig1 : exists f1, fig1 = PDict f1 /\
            forall tr, dict_get "data" f1 = Some (PList tr) -> tr = traces').
  { subst fig1. destruct (dict_get "data" f) as [dv|] eqn:Ed; cbn [default].
    - destruct dv; try (eexists; split; [reflexivity|];
                         intros tr Ht; rewrite Ed in Ht; discriminate Ht).
      eexists; split; [reflexivity|]. intros tr Ht.
      rewrite dict_get_set_eq in Ht. now injection Ht as <-.
    - eexists; split; [reflexivity|]. intros tr Ht.
      rewrite Ed in Ht. discriminate Ht. }
  destruct Hfig1 as (f1 & E1 & Hdata). rewrite E1 in H. clear E1 fig1.
  cbn [py_get rbind] in H.
  apply rbind_ok in H as (template & Htpl & H).
  apply rbind_ok in H as (data_template & Hdt & H).
  apply rbind_ok in H as (template1 & Ht1 & H).
  apply rbind_ok in H as (layout1 & Hl1 & H).
  cbn [py_setitem] in H. injection H as <-.
  split.
  - intros tr Htr. cbn [py_getitem] in Htr.
    rewrite dict_get_set_ne in Htr by discriminate.
    destruct (dict_get "data" f1) as [dv|] eqn:Ed; [|discriminate Htr].
    injection Htr as ->. rewrite (Hdata tr eq_refl).
    apply rmapM_Forall2 in Hmap.
    clear -Hmap. induction Hmap; constructor; [|assumption].
    eapply normalize_trace_type; eassumption.
  - intros dt' Hd. cbn [template_data] in Hd.
    rewrite dict_get_set_eq in Hd.
    destruct (default (PDict []) (dict_get "layout" f1)) as [| | | | | |lay];
      try discriminate Hl1.
    cbn [py_setitem] in Hl1. injection Hl1 as <-.
    rewrite dict_get_set_eq in Hd.
    destruct template as [| | | | | |tpl]; try discriminate Hdt.
    cbn [py_get] in Hdt. injection Hdt as <-.
    destruct (default PNone (dict_get "data" tpl)) as [| | | | | |dt] eqn:Edt;
      cbn [py_setitem] in Ht1; injection Ht1 as <-;
      try (rewrite Hd in Edt; discriminate Edt).
    rewrite dict_get_set_eq in Hd. injection Hd as <-.
    apply rename_keys_no_gl.
Qed.

Lemma normalize_leaves_no_heatmapgl_witness :
  Forall (fun t => py_get t "type" PNone <> Ok (PStr "heatmapgl"))
    [PDict [("type", PStr "heatmap"); ("z", PList [PInt 1])]] /\
  dict_get "heatmapgl" [("heatmap", PStr "gl")] = None.
Proof.
  pose proof (normalize_leaves_no_heatmapgl
    (fig_dict
       (PList [PDict [("type", PStr "heatmapgl"); ("z", PList [PInt 1])]])
       (PDict [("template",
                PDict [("data", PDict [("heatmapgl", PStr "gl")])])])
       (PDict []))
    (fig_dict
       (PList [PDict [("type", PStr "heatmap"); ("z", PList [PInt 1])]])
       (PDict [("template",
                PDict [("data", PDict [("heatmap", PStr "gl")])])])
       (PDict []))
    eq_refl) as [Htr Htpl].
  split; [apply Htr | apply Htpl]; reflexivity.
Defined.

Lemma rmapM_non_mapping l :
  forallb is_mapping l = false ->
  rmapM normalize_trace l = Raise AttributeError.
Proof.
  induction l as [|x l IH]; intros H; [discriminate H|].
  cbn [forallb] in H. cbn [rmapM].
  destruct x as [| | | | | |d]; try reflexivity.
  cbn [is_mapping andb] in H. rewrite (IH H).
  unfold normalize_trace. cbn [py_get rbind].
  destruct (py_eq_str _ _); reflexivity.
Qed.

(** A figure one of whose traces is not a mapping makes
    [normalize_heatmapgl] raise [AttributeError]. *)
Theorem normalize_rejects_non_mapping_trace f traces :
  dict_get "data" f = Some (PList traces) ->
  forallb is_mapping traces = false ->
  normalize_heatmapgl (PDict f) = Raise AttributeError.
Proof.
  intros Hd Hm. unfold normalize_heatmapgl. cbn [py_get]. rewrite Hd.
  cbn -[dict_set dict_get normalize_trace rmapM].
  now rewrite rmapM_non_mapping.
Qed.

Lemma normalize_rejects_non_mapping_trace_witness :
  normalize_heatmapgl
    (fig_dict (PList [PDict [("type", PStr "bar")]; PInt 1]) (PDict [])
       (PDict []))
  = Raise AttributeError.
Proof.
  apply (normalize_rejects_non_mapping_trace _
           [PDict [("type", PStr "bar")]; PInt 1]); reflexivity.
Defined.

(** A layout whose template is not a mapping, a template named by a
    string for one, makes [normalize_heatmapgl] raise [AttributeError]. *)
Theorem normalize_rejects_named_template f traces lay tpl :
  dict_get "data" f = Some (PList (map PDict traces)) ->
  dict_get "layout" f = Some (PDict lay) ->
  dict_get "template" lay = Some tpl -> is_mapping tpl = false ->
  normalize_heatmapgl (PDict f) = Raise AttributeError.
Proof.
  intros Hd Hl Ht Hm. unfold normalize_heatmapgl. cbn [py_get]. rewrite Hd.
  cbn -[dict_set dict_get normalize_trace rmapM].
  rewrite normalize_traces. cbn -[dict_set dict_get].
  rewrite dict_get_set_ne by discriminate. rewrite Hl.
  cbn -[dict_set dict_get]. rewrite Ht. cbn -[dict_set dict_get].
  destruct tpl; try reflexivity. discriminate Hm.
Qed.

Lemma normalize_rejects_named_template_witness :
  normalize_heatmapgl
    (fig_dict (PList [PDict [("type", PStr "bar")]])
       (PDict [("template", PStr "plotly_dark")]) (PDict []))
  = Raise AttributeError.
Proof.
  apply (normalize_rejects_named_template _ [[("type", PStr "bar")]]
           [("template", PStr "plotly_dark")] (PStr "plotly_dark"));
    reflexivity.
Defined.

(** ** More on base64 *)

Lemma b64encode_length_aux n : forall bs : bytes,
  (length bs <= n)%nat ->
  String.length (b64encode bs) = (4 * ((length bs + 2) / 3))%nat.
Proof.
  induction n as [|n IH]; intros bs H.
  - destruct bs; [reflexivity | simpl in H; lia].
  - destruct bs as [|a [|b [|c r]]]; try reflexivity.
    cbn [b64encode sextets3 String.length length].
    rewrite IH by (simpl in H; lia).
    replace (S (S (S (length r))) + 2)%nat
      with ((length r + 2) + 1 * 3)%nat by lia.
    rewrite Nat.div_add by lia. lia.
Qed.

(** [b64encode] writes four characters for every three bytes, the last
    group padded: the text has [4 * ceil(n / 3)] characters. *)
Theorem b64encode_length (bs : bytes) :
  String.length (b64encode bs) = (4 * ((length bs + 2) / 3))%nat.
Proof. apply (b64encode_length_aux (length bs)). lia. Qed.

(** Strict decoding undoes [b64encode]; two byte strings with the same
    encoding are the same. *)
Theorem b64decode_b64encode (bs : bytes) :
  b64decode (b64encode bs) = Some bs /\
  forall bs' : bytes, b64encode bs' = b64encode bs -> bs' = bs.
Proof.
  split; [apply b64_round_trip|]. intros bs' H.
  pose proof (b64_round_trip bs') as H'. rewrite H, b64_round_trip in H'.
  now injection H'.
Qed.

(** ** More on the identifier *)

Lemma get_to_hex n : forall k p, (p < k)%nat ->
  String.get p (to_hex k n) =
  Some (hex_digit ((n / 16 ^ N.of_nat (k - 1 - p)) mod 16)%N).
Proof.
  induction k as [|k IH]; intros p Hp; [lia|].
  cbn [to_hex]. destruct p as [|p].
  - cbn [String.get]. now replace (S k - 1 - 0)%nat with k by lia.
  - cbn [String.get]. rewrite IH by lia.
    now replace (S k - 1 - S p)%nat with (k - 1 - p)%nat by lia.
Qed.

Lemma nibble_land i (p : N) :
  ((i / 16 ^ p) mod 16 = N.land (N.shiftr i (4 * p)) 15)%N.
Proof.
  rewrite N.shiftr_div_pow2.
  change 15%N with (N.ones 4). rewrite N.land_ones.
  rewrite N.pow_mul_r. reflexivity.
Qed.

Lemma testbit_small_high (a k n : N) :
  (a < 2 ^ k)%N -> (k <= n)%N -> N.testbit a n = false.
Proof.
  intros Ha Hn. destruct (N.eq_dec a 0%N) as [->|Hz]; [apply N.bits_0|].
  apply N.bits_above_log2. apply N.log2_lt_pow2 in Ha; lia.
Qed.

Lemma uuid4_bits random n :
  N.testbit (uuid4_int random) n =
  (((N.testbit (random mod 2 ^ 128) n
     && negb (N.testbit (N.shiftl 49152 48) n)
     || N.testbit (N.shiftl 32768 48) n)
    && negb (N.testbit (N.shiftl 61440 64) n))
   || N.testbit (N.shiftl 4 76) n)%bool.
Proof.
  unfold uuid4_int. cbv zeta.
  now rewrite N.lor_spec, N.ldiff_spec, N.lor_spec, N.ldiff_spec.
Qed.

Lemma small_cases (n : N) :
  (n < 4)%N -> n = 0%N \/ n = 1%N \/ n = 2%N \/ n = 3%N.
Proof. lia. Qed.

Lemma uuid4_version_nibble random :
  (N.land (N.shiftr (uuid4_int random) 76) 15 = 4)%N.
Proof.
  apply N.bits_inj. intros n. rewrite N.land_spec, N.shiftr_spec by lia.
  destruct (N.lt_ge_cases n 4) as [Hn|Hn].
  - rewrite uuid4_bits.
    destruct (small_cases n Hn) as [-> | [-> | [-> | ->]]];
      cbn [N.add Pos.add Pos.succ];
      match goal with
      | |- context [N.testbit (random mod ?m) ?k] =>
          generalize (N.testbit (random mod m) k)
      end; intros b; vm_compute; now destruct b.
  - rewrite (testbit_small_high 15 4 n), (testbit_small_high 4 4 n)
      by (try assumption; reflexivity).
    apply andb_false_r.
Qed.

Lemma uuid4_variant_nibble random :
  exists x, (x < 4)%N /\
    (N.land (N.shiftr (uuid4_int random) 60) 15 = N.lor 8 x)%N.
Proof.
  exists (N.land (N.shiftr (uuid4_int random) 60) 3). split.
  - change 3%N with (N.ones 2). rewrite N.land_ones.
    apply N.mod_lt. discriminate.
  - apply N.bits_inj. intros n.
    rewrite N.lor_spec, !N.land_spec, N.shiftr_spec by lia.
    destruct (N.lt_ge_cases n 4) as [Hn|Hn].
    + rewrite uuid4_bits.
      destruct (small_cases n Hn) as [-> | [-> | [-> | ->]]];
        cbn [N.add Pos.add Pos.succ];
        match goal with
        | |- context [N.testbit (random mod ?m) ?k] =>
            generalize (N.testbit (random mod m) k)
        end; intros b; vm_compute; now destruct b.
    + rewrite (testbit_small_high 15 4 n), (testbit_small_high 8 4 n),
        (testbit_small_high 3 4 n) by (try assumption; reflexivity).
      now rewrite !andb_false_r.
Qed.

(** The identifier is a version 4, variant 1 UUID whatever the random
    bytes: of its 32 hexadecimal digits the thirteenth is [4] and the
    seventeenth is one of [8], [9], [a] and [b]. *)
Theorem uuid4_hex_version_variant random :
  String.get 12 (uuid4_hex random) = Some "4"%char /\
  exists c, String.get 16 (uuid4_hex random) = Some c /\
            (c = "8" \/ c = "9" \/ c = "a" \/ c = "b")%char.
Proof.
  unfold uuid4_hex. split.
  - rewrite get_to_hex by lia.
    change (N.of_nat (32 - 1 - 12)) with 19%N.
    rewrite nibble_land. change (4 * 19)%N with 76%N.
    now rewrite uuid4_version_nibble.
  - rewrite get_to_hex by lia.
    change (N.of_nat (32 - 1 - 16)) with 15%N.
    rewrite nibble_land. change (4 * 15)%N with 60%N.
    destruct (uuid4_variant_nibble random) as (x & Hx & ->).
    eexists. split; [reflexivity|].
    destruct (small_cases x Hx) as [-> | [-> | [-> | ->]]]; vm_compute; tauto.
Qed.

(** ** File names *)

Lemma append_cancel_l p a b :
  String.append p a = String.append p b -> a = b.
Proof.
  induction p as [|c p IH]; intros H; [exact H|].
  rewrite !append_cons in H. injection H as H. now apply IH.
Qed.

Lemma append_cancel_r s : forall a b,
  String.append a s = String.append b s -> a = b.
Proof.
  induction a as [|x a IH]; intros b H.
  - destruct b as [|y b]; [reflexivity|].
    apply (f_equal String.length) in H.
    rewrite append_nil_l, append_length in H. simpl in H. lia.
  - destruct b as [|y b].
    + apply (f_equal String.length) in H.
      rewrite append_nil_l, append_length in H. simpl in H. lia.
    + rewrite !append_cons in H. injection H as -> H. f_equal. now apply IH.
Qed.

(** Different identifiers give different file names, and no file name
    is the bare identifier followed by [.png]. *)
Theorem png_name_injective h1 h2 :
  (png_name h1 = png_name h2 -> h1 = h2) /\
  png_name h1 <> String.append h1 ".png".
Proof.
  unfold png_name. split.
  - intros H. apply append_cancel_l in H. now apply append_cancel_r in H.
  - intros H. apply (f_equal String.length) in H.
    rewrite !append_length in H. simpl in H. lia.
Qed.

(** ** A second run *)

Lemma dict_set_twice k v d : dict_set k v (dict_set k v d) = dict_set k v d.
Proof. apply dict_set_same, dict_get_set_eq. Qed.

Lemma process_cell_text render urandom st s :
  process_cell render urandom st (PStr s) = Raise AttributeError.
Proof. reflexivity. Qed.

Section Stability.
Variable render : pyval -> pyval -> result (bytes * pyval).
Variables urandom urandom' : nat -> N.

Lemma process_output_stable st out out' st' :
  process_output render urandom st out = Ok (out', st') ->
  forall st2, process_output render urandom' st2 out' = Ok (out', st2).
Proof.
  intros H st2. unfold process_output in H.
  destruct (py_get out "data" (PDict [])) as [data| |] eqn:E1;
    cbn [rbind] in H; try discriminate H.
  destruct (py_get data "text/html" PNone) as [html| |] eqn:E2;
    cbn [rbind] in H; try discriminate H.
  assert (Hpass : forall fig,
    (if negb (py_truthy html) then True
     else match html with
          | PStr h =>
              extract_plotly_json h = Ok fig /\
              match fig with
              | None => True
              | Some fj =>
                  if negb (py_truthy fj) then True
                  else exists fig1 e,
                      normalize_heatmapgl fj = Ok fig1 /\
                      to_png render fig1 = Raise e
              end
          | _ => False
          end) ->
    process_output render urandom' st2 out = Ok (out, st2)).
  { intros fig Hf. unfold process_output. rewrite E1. cbn [rbind].
    rewrite E2. cbn [rbind].
    destruct (negb (py_truthy html)); [reflexivity|].
    destruct html; try contradiction. destruct Hf as [-> Hf]. cbn [rbind].
    destruct fig as [fj|]; [|reflexivity].
    destruct (negb (py_truthy fj)); [reflexivity|].
    destruct Hf as (fig1 & e & -> & Hr). cbn [rbind]. now rewrite Hr. }
  destruct (negb (py_truthy html)) eqn:E3.
  { injection H as <- <-. now apply (Hpass None). }
  destruct html as [| | | |h| |]; try discriminate H.
  destruct (extract_plotly_json h) as [fig| |] eqn:E4;
    cbn [rbind] in H; try discriminate H.
  destruct fig as [fj|].
  2:{ injection H as <- <-. now apply (Hpass None). }
  destruct (negb (py_truthy fj)) eqn:E5.
  { injection H as <- <-. apply (Hpass (Some fj)).
    split; [reflexivity|]. now rewrite E5. }
  destruct (normalize_heatmapgl fj) as [fig1| |] eqn:E6;
    cbn [rbind] in H; try discriminate H.
  destruct (to_png render fig1) as [[png width]|e|] eqn:E7;
    try discriminate H.
  - injection H as <- <-. reflexivity.
  - injection H as <- <-. apply (Hpass (Some fj)).
    split; [reflexivity|]. rewrite E5. now exists fig1, e.
Qed.

Lemma process_outputs_stable : forall outs st outs' st',
  process_outputs render urandom st outs = Ok (outs', st') ->
  forall st2, process_outputs render urandom' st2 outs' = Ok (outs', st2).
Proof.
  induction outs as [|out outs IH]; intros st outs' st' H st2;
    cbn [process_outputs] in H.
  - injection H as <- <-. reflexivity.
  - apply rbind_ok in H as ([out1 st1] & H1 & H).
    apply rbind_ok in H as ([rest st3] & H2 & H). injection H as <- <-.
    cbn [process_outputs].
    rewrite (process_output_stable _ _ _ _ H1). cbn [rbind].
    rewrite (IH _ _ _ H2). reflexivity.
Qed.

Lemma process_cell_stable st cell cell' st' :
  process_cell render urandom st cell = Ok (cell', st') ->
  forall st2, process_cell render urandom' st2 cell' = Ok (cell', st2).
Proof.
  intros H st2. unfold process_cell in H.
  destruct cell as [| | | | | |c]; try discriminate H. cbn [py_attr] in H.
  destruct (dict_get "cell_type" c) as [ty|] eqn:Ety; try discriminate H.
  cbn [rbind] in H. destruct (negb (py_eq_str ty "code")) eqn:Ecode.
  - injection H as <- <-. unfold process_cell. cbn [py_attr].
    rewrite Ety. cbn [rbind]. now rewrite Ecode.
  - cbn [py_get rbind] in H.
    apply rbind_ok in H as (l & Hl & H).
    apply rbind_ok in H as ([new st3] & Hn & H).
    cbn [py_setitem rbind] in H. injection H as <- <-.
    unfold process_cell. cbn [py_attr].
    rewrite dict_get_set_ne by discriminate. rewrite Ety. cbn [rbind].
    rewrite Ecode. cbn [py_get]. rewrite dict_get_set_eq.
    cbn -[dict_set process_outputs].
    rewrite (process_outputs_stable _ _ _ _ Hn). cbn -[dict_set].
    now rewrite dict_set_twice.
Qed.

Lemma process_cells_stable : forall cells st cells' st',
  process_cells render urandom st cells = Ok (cells', st') ->
  forall st2, process_cells render urandom' st2 cells' = Ok (cells', st2).
Proof.
  induction cells as [|cell cells IH]; intros st cells' st' H st2;
    cbn [process_cells] in H.
  - injection H as <- <-. reflexivity.
  - apply rbind_ok in H as ([c1 st1] & H1 & H).
    apply rbind_ok in H as ([rest st3] & H2 & H). injection H as <- <-.
    cbn [process_cells].
    rewrite (process_cell_stable _ _ _ _ H1). cbn [rbind].
    rewrite (IH _ _ _ H2). reflexivity.
Qed.

(** [preprocess] is idempotent for a renderer that answers the same on
    the same figure: run on its own result, notebook and resources, it
    returns them as they are, whatever the random bytes. *)
Theorem preprocess_idempotent nb res nb' res' :
  preprocess render urandom nb res = Ok (nb', res') ->
  preprocess render urandom' nb' (Some res') = Ok (nb', res').
Proof.
  unfold preprocess. intros H.
  destruct nb as [| | | | | |d]; try discriminate H. cbn [py_attr] in H.
  destruct (dict_get "cells" d) as [cells|] eqn:Ec; try discriminate H.
  cbn [rbind] in H.
  apply rbind_ok in H as (l & Hl & H).
  apply rbind_ok in H as ([cells' st] & Hp & H).
  assert (Hsame : forall r : resources,
            {| res_outputs := Some (store st); res_other := res_other r |}
            = {| res_outputs :=
                   Some (store {| store := store st; draws := 0 |});
                 res_other := res_other r |}) by reflexivity.
  destruct cells as [| | | |s|cl|cd]; try discriminate Hl;
    cbn [py_iter] in Hl; injection Hl as <-; injection H as <- <-.
  - (* the cells are a string *)
    destruct s as [|ch s]; [|discriminate Hp].
    cbn [chars_of process_cells] in Hp. injection Hp as <- <-.
    cbn [py_attr]. rewrite Ec. reflexivity.
  - (* a list *)
    cbn [py_attr]. rewrite dict_get_set_eq. cbn -[dict_set process_cells].
    rewrite (process_cells_stable _ _ _ _ Hp). cbn -[dict_set].
    now rewrite dict_set_twice.
  - (* a mapping *)
    destruct cd as [|[k v] cd]; [|discriminate Hp].
    cbn [map process_cells] in Hp. injection Hp as <- <-.
    cbn [py_attr]. rewrite Ec. reflexivity.
Qed.

End Stability.

Lemma preprocess_idempotent_witness :
  exists nb' res',
    preprocess fake_render fake_urandom nb_sample None = Ok (nb', res') /\
    preprocess fake_render (fun _ => 7%N) nb' (Some res') = Ok (nb', res').
Proof.
  destruct (preprocess fake_render fake_urandom nb_sample None)
    as [[nb' res']| |] eqn:E; try (vm_compute in E; discriminate E).
  exists nb', res'. split; [reflexivity|].
  exact (preprocess_idempotent fake_render fake_urandom (fun _ => 7%N)
           nb_sample None nb' res' E).
Defined.

(** ** Runs that convert nothing *)

Section Passive.
Variable render : pyval -> pyval -> result (bytes * pyval).
Variable urandom : nat -> N.

Lemma process_cells_other : forall cells st,
  forallb is_other_cell cells = true ->
  process_cells render urandom st cells = Ok (cells, st).
Proof.
  induction cells as [|cell cells IH]; intros st H; [reflexivity|].
  cbn [forallb] in H. apply andb_true_iff in H as [Hc H].
  cbn [process_cells]. unfold process_cell at 1.
  destruct cell as [| | | | | |c]; try discriminate Hc.
  cbn [is_other_cell] in Hc. cbn [py_attr].
  destruct (dict_get "cell_type" c) as [ty|]; [|discriminate Hc].
  cbn [rbind]. rewrite Hc. cbn [rbind]. now rewrite IH.
Qed.

(** A notebook without code cells, one without cells included, is
    returned as it is; the resources come back with an [outputs] entry,
    an empty one if they had none. *)
Theorem preprocess_no_code_cells d cells res :
  dict_get "cells" d = Some (PList cells) ->
  forallb is_other_cell cells = true ->
  preprocess render urandom (PDict d) res = Ok (PDict d, with_outputs res).
Proof.
  intros Hc Ho. unfold preprocess. cbn [py_attr]. rewrite Hc.
  cbn [rbind py_iter]. rewrite process_cells_other by exact Ho.
  cbn [rbind]. rewrite dict_set_same by exact Hc. reflexivity.
Qed.

Lemma process_cells_missing_type : forall pre st c post,
  forallb is_other_cell pre = true ->
  dict_get "cell_type" c = None ->
  process_cells render urandom st (pre ++ PDict c :: post)%list
  = Raise AttributeError.
Proof.
  induction pre as [|cell pre IH]; intros st c post Hp Hc.
  - cbn [app process_cells]. unfold process_cell. cbn [py_attr].
    now rewrite Hc.
  - cbn [forallb] in Hp. apply andb_true_iff in Hp as [Hcell Hp].
    change ((cell :: pre) ++ PDict c :: post)%list
      with (cell :: (pre ++ PDict c :: post))%list.
    cbn [process_cells].
    pose proof (process_cells_other [cell] st) as H1.
    cbn [forallb process_cells] in H1. rewrite Hcell in H1.
    specialize (H1 eq_refl).
    destruct (process_cell render urandom st cell) as [[c1 s1]| |];
      try discriminate H1.
    cbn [rbind] in H1. injection H1 as -> ->. cbn [rbind].
    now rewrite IH.
Qed.

(** [preprocess] raises [AttributeError] on a notebook that has no
    [cells], and on one in which a cell without [cell_type] comes after
    cells of other kinds than code. *)
Theorem preprocess_missing_attribute d res :
  (dict_get "cells" d = None ->
   preprocess render urandom (PDict d) res = Raise AttributeError) /\
  (forall pre c post,
     dict_get "cells" d = Some (PList (pre ++ PDict c :: post)%list) ->
     forallb is_other_cell pre = true ->
     dict_get "cell_type" c = None ->
     preprocess render urandom (PDict d) res = Raise AttributeError).
Proof.
  split.
  - intros H. unfold preprocess. cbn [py_attr]. now rewrite H.
  - intros pre c post H Hp Hc. unfold preprocess. cbn [py_attr]. rewrite H.
    cbn [rbind py_iter]. now rewrite process_cells_missing_type.
Qed.

End Passive.

Lemma preprocess_no_code_cells_witness :
  preprocess failing_render fake_urandom
    (notebook [markdown_cell; markdown_cell]) None
  = Ok (notebook [markdown_cell; markdown_cell],
        {| res_outputs := Some ∅; res_other := [] |}).
Proof.
  apply (preprocess_no_code_cells failing_render fake_urandom _
           [markdown_cell; markdown_cell] None); reflexivity.
Defined.

Lemma preprocess_missing_attribute_witness :
  preprocess failing_render fake_urandom (PDict [("nbformat", PInt 4)]) None
  = Raise AttributeError /\
  preprocess failing_render fake_urandom
    (notebook [markdown_cell; PDict [("source", PStr "x")]]) None
  = Raise AttributeError.
Proof.
  split.
  - apply (proj1 (preprocess_missing_attribute failing_render fake_urandom
                    [("nbformat", PInt 4)] None)). reflexivity.
  - apply (proj2 (preprocess_missing_attribute failing_render fake_urandom
                    [("cells", PList [markdown_cell;
                                      PDict [("source", PStr "x")]]);
                     ("nbformat", PInt 4)] None)
             [markdown_cell] [("source", PStr "x")] []); reflexivity.
Defined.

(** ** A renderer that fails *)

Section Failing.
Variable render : pyval -> pyval -> result (bytes * pyval).
Variable urandom : nat -> N.
Hypothesis render_fails : forall data layout, exists e,
  render data layout = Raise e.

Lemma to_png_fails fig : exists e, to_png render fig = Raise e.
Proof.
  unfold to_png.
  destruct (py_getitem fig "data") as [data|e|] eqn:E1.
  - cbn [rbind]. destruct (py_get fig "layout" (PDict [])) as [lay|e|] eqn:E2.
    + cbn [rbind]. apply render_fails.
    + now exists e.
    + destruct fig; discriminate E2.
  - now exists e.
  - destruct fig as [| | | | | |f]; try discriminate E1.
    cbn [py_getitem] in E1. destruct (dict_get "data" f); discriminate E1.
Qed.

Lemma process_output_fails st out out' st' :
  process_output render urandom st out = Ok (out', st') ->
  out' = out /\ st' = st.
Proof.
  unfold process_output. intros H.
  apply rbind_ok in H as (data & _ & H).
  apply rbind_ok in H as (html & _ & H).
  destruct (negb (py_truthy html)); [now injection H as <- <-|].
  destruct html; try discriminate H.
  apply rbind_ok in H as (fig & _ & H).
  destruct fig as [fj|]; [|now injection H as <- <-].
  destruct (negb (py_truthy fj)); [now injection H as <- <-|].
  apply rbind_ok in H as (fig1 & _ & H).
  destruct (to_png_fails fig1) as (e & He). rewrite He in H.
  now injection H as <- <-.
Qed.

Lemma process_outputs_fails : forall outs st outs' st',
  process_outputs render urandom st outs = Ok (outs', st') ->
  outs' = outs /\ st' = st.
Proof.
  induction outs as [|out outs IH]; intros st outs' st' H;
    cbn [process_outputs] in H.
  - now injection H as <- <-.
  - apply rbind_ok in H as ([out1 st1] & H1 & H).
    apply rbind_ok in H as ([rest st3] & H2 & H). injection H as <- <-.
    apply process_output_fails in H1 as [-> ->].
    apply IH in H2 as [-> ->]. now split.
Qed.

Lemma process_cell_fails st cell cell' st' :
  process_cell render urandom st cell = Ok (cell', st') ->
  st' = st /\
  ((is_code_cell cell = true -> has_output_list cell = true) ->
   cell' = cell).
Proof.
  intros H. unfold process_cell in H.
  destruct cell as [| | | | | |c]; try discriminate H. cbn [py_attr] in H.
  cbn [is_code_cell has_output_list].
  destruct (dict_get "cell_type" c) as [ty|] eqn:Ety; try discriminate H.
  cbn [rbind] in H. destruct (py_eq_str ty "code") eqn:Ecode; cbn [negb] in H.
  - cbn [py_get rbind] in H.
    apply rbind_ok in H as (l & Hl & H).
    apply rbind_ok in H as ([new st3] & Hn & H).
    cbn [py_setitem rbind] in H. injection H as <- <-.
    apply process_outputs_fails in Hn as [-> ->].
    split; [reflexivity|]. intros Hout. specialize (Hout eq_refl).
    destruct (dict_get "outputs" c) as [[| | | | |l0|]|] eqn:Eo;
      try discriminate Hout.
    cbn [default py_iter] in Hl. injection Hl as <-.
    now rewrite dict_set_same.
  - injection H as <- <-. now split.
Qed.

Lemma process_cells_fails : forall cells st cells' st',
  process_cells render urandom st cells = Ok (cells', st') ->
  st' = st /\
  (Forall (fun cell => is_code_cell cell = true ->
                       has_output_list cell = true) cells ->
   cells' = cells).
Proof.
  induction cells as [|cell cells IH]; intros st cells' st' H;
    cbn [process_cells] in H.
  - injection H as <- <-. now split.
  - apply rbind_ok in H as ([c1 st1] & H1 & H).
    apply rbind_ok in H as ([rest st3] & H2 & H). injection H as <- <-.
    apply process_cell_fails in H1 as [-> Hc].
    apply IH in H2 as [-> Hr]. split; [reflexivity|].
    intros HF. apply Forall_cons in HF as [Ha Hb].
    now rewrite Hc, Hr.
Qed.

(** When every rendering fails, a run that returns adds no file to the
    resources, and returns the notebook as it was if its code cells have
    their list of outputs. *)
Theorem preprocess_render_failure nb res nb' res' :
  preprocess render urandom nb res = Ok (nb', res') ->
  res' = with_outputs res /\
  (forall cells,
     py_attr nb "cells" = Ok (PList cells) ->
     Forall (fun cell => is_code_cell cell = true ->
                         has_output_list cell = true) cells ->
     nb' = nb).
Proof.
  unfold preprocess. intros H.
  apply rbind_ok in H as (cells & Hc & H).
  apply rbind_ok in H as (l & Hl & H).
  apply rbind_ok in H as ([cells' st] & Hp & H).
  apply process_cells_fails in Hp as [-> Hsame].
  injection H as <- <-. split; [reflexivity|].
  intros cl Hcl HF. rewrite Hcl in Hc. injection Hc as <-.
  cbn [py_iter] in Hl. injection Hl as <-.
  rewrite (Hsame HF).
  destruct nb as [| | | | | |d]; try reflexivity.
  cbn [py_attr] in Hcl.
  destruct (dict_get "cells" d) as [v|] eqn:Ed; [|discriminate Hcl].
  injection Hcl as ->. now rewrite dict_set_same.
Qed.

End Failing.

Lemma preprocess_render_failure_witness :
  preprocess failing_render fake_urandom nb_sample None
  = Ok (nb_sample, {| res_outputs := Some ∅; res_other := [] |}).
Proof.
  destruct (preprocess failing_render fake_urandom nb_sample None)
    as [[nb' res']| |] eqn:E; try (vm_compute in E; discriminate E).
  destruct (preprocess_render_failure failing_render fake_urandom
              (fun _ _ => ex_intro _ RenderError eq_refl)
              nb_sample None nb' res' E) as [-> Hnb].
  rewrite (Hnb _ eq_refl).
  - reflexivity.
  - repeat constructor; intros H; first [reflexivity | discriminate H].
Defined.

(** ** A literal that does not parse *)

(** When the captured data argument does not parse, extraction
    returns [None] and the output is passed through as it is. *)
Theorem parse_failure_passthrough
  (render : pyval -> pyval -> result (bytes * pyval)) (urandom : nat -> N)
  html m dtxt e :
  re_search NEWPLOT_PATTERN html = Some m ->
  group "data" m = Some dtxt ->
  literal_eval (_fix_js dtxt) = Raise e ->
  extract_plotly_json html = Ok None /\
  forall st out,
    html_entry out = Some (PStr html) ->
    process_output render urandom st out = Ok (out, st).
Proof.
  intros Hm Hg He.
  assert (Hx : extract_plotly_json html = Ok None).
  { unfold extract_plotly_json, group_text. rewrite Hm, Hg. cbn [rbind].
    now rewrite He. }
  split; [exact Hx|]. intros st out Hout.
  apply html_entry_inv in Hout as (o & d & -> & Hd & Hh).
  unfold process_output, py_get. rewrite Hd. simpl. rewrite Hh. simpl.
  destruct html; simpl; [reflexivity|].
  rewrite Hx. reflexivity.
Qed.

Lemma parse_failure_passthrough_witness :
  extract_plotly_json html_broken = Ok None /\
  process_output fake_render fake_urandom st0 (html_output html_broken)
  = Ok (html_output html_broken, st0).
Proof.
  destruct (parse_failure_passthrough fake_render fake_urandom html_broken
              [("layout", "{}"); ("data", "[1,,2]"); ("id", "'x'")]
              "[1,,2]" SyntaxError) as [Hx Hp];
    try (vm_compute; reflexivity).
  split; [exact Hx|]. apply Hp. reflexivity.
Defined.

(** ** The store over a whole run *)

Lemma prefix_refl_app p x : String.prefix p (String.append p x) = true.
Proof.
  induction p as [|c p IH].
  - destruct x; reflexivity.
  - rewrite append_cons. cbn [String.prefix].
    destruct (ascii_dec c c); [exact IH | congruence].
Qed.

Lemma store_kept_refl s : store_kept s s.
Proof. split; auto. Qed.

Lemma store_kept_trans s1 s2 s3 :
  store_kept s1 s2 -> store_kept s2 s3 -> store_kept s1 s3.
Proof.
  intros [A1 B1] [A2 B2]. split.
  - intros k Hk. now rewrite A2, A1.
  - auto.
Qed.

Lemma store_kept_insert s h png : store_kept s (<[png_name h := png]> s).
Proof.
  split.
  - intros k Hk. apply lookup_insert_ne. intros <-.
    unfold png_name in Hk. rewrite prefix_refl_app in Hk. discriminate Hk.
  - intros k Hk. destruct (decide (png_name h = k)) as [<-|Hne].
    + rewrite lookup_insert_eq. eauto.
    + now rewrite lookup_insert_ne.
Qed.

Section StoreKept.
Variable render : pyval -> pyval -> result (bytes * pyval).
Variable urandom : nat -> N.

Lemma process_output_kept st out out' st' :
  process_output render urandom st out = Ok (out', st') ->
  store_kept (store st) (store st').
Proof.
  unfold process_output. intros H.
  apply rbind_ok in H as (data & _ & H).
  apply rbind_ok in H as (html & _ & H).
  destruct (negb (py_truthy html));
    [injection H as <- <-; apply store_kept_refl|].
  destruct html; try discriminate H.
  apply rbind_ok in H as (fig & _ & H).
  destruct fig as [fj|]; [|injection H as <- <-; apply store_kept_refl].
  destruct (negb (py_truthy fj));
    [injection H as <- <-; apply store_kept_refl|].
  apply rbind_ok in H as (fig1 & _ & H).
  destruct (to_png render fig1) as [[png width]|e|]; try discriminate H;
    injection H as <- <-.
  - apply store_kept_insert.
  - apply store_kept_refl.
Qed.

Lemma process_outputs_kept : forall outs st outs' st',
  process_outputs render urandom st outs = Ok (outs', st') ->
  store_kept (store st) (store st').
Proof.
  induction outs as [|out outs IH]; intros st outs' st' H;
    cbn [process_outputs] in H.
  - injection H as <- <-. apply store_kept_refl.
  - apply rbind_ok in H as ([out1 st1] & H1 & H).
    apply rbind_ok in H as ([rest st3] & H2 & H). injection H as <- <-.
    eapply store_kept_trans;
      [eapply process_output_kept | eapply IH]; eassumption.
Qed.

Lemma process_cell_kept st cell cell' st' :
  process_cell render urandom st cell = Ok (cell', st') ->
  store_kept (store st) (store st').
Proof.
  unfold process_cell. intros H.
  apply rbind_ok in H as (ty & _ & H).
  destruct (negb (py_eq_str ty "code"));
    [injection H as <- <-; apply store_kept_refl|].
  apply rbind_ok in H as (outs & _ & H).
  apply rbind_ok in H as (l & _ & H).
  apply rbind_ok in H as ([new st3] & Hn & H).
  apply rbind_ok in H as (cell1 & _ & H). injection H as <- <-.
  eapply process_outputs_kept; eassumption.
Qed.

Lemma process_cells_kept : forall cells st cells' st',
  process_cells render urandom st cells = Ok (cells', st') ->
  store_kept (store st) (store st').
Proof.
  induction cells as [|cell cells IH]; intros st cells' st' H;
    cbn [process_cells] in H.
  - injection H as <- <-. apply store_kept_refl.
  - apply rbind_ok in H as ([c1 st1] & H1 & H).
    apply rbind_ok in H as ([rest st3] & H2 & H). injection H as <- <-.
    eapply store_kept_trans;
      [eapply process_cell_kept | eapply IH]; eassumption.
Qed.

(** Over a whole run the files already in the resources stay: an entry
    whose name does not begin with [plotly_static_] is returned as it was,
    no entry is removed, and the entries of the resources other than
    [outputs] are returned as they were. *)
Theorem preprocess_keeps_entries nb res nb' res' :
  preprocess render urandom nb res = Ok (nb', res') ->
  exists final,
    res_outputs res' = Some final /\
    store_kept (initial_store res) final /\
    res_other res' = res_other (default empty_resources res).
Proof.
  unfold preprocess. intros H.
  apply rbind_ok in H as (cells & _ & H).
  apply rbind_ok in H as (l & _ & H).
  apply rbind_ok in H as ([cells' st] & Hp & H). injection H as <- <-.
  exists (store st). split; [reflexivity|]. split; [|reflexivity].
  apply process_cells_kept in Hp. exact Hp.
Qed.

(** A [text/html] entry that is truthy without being a string makes the
    processing of its output raise [TypeError]. *)
Theorem html_not_text_raises st out v :
  html_entry out = Some v -> py_truthy v = true ->
  (forall s, v <> PStr s) ->
  process_output render urandom st out = Raise TypeError.
Proof.
  intros Hout Ht Hs.
  apply html_entry_inv in Hout as (o & d & -> & Hd & Hh).
  unfold process_output, py_get. rewrite Hd. simpl. rewrite Hh. simpl.
  rewrite Ht. simpl. destruct v; try reflexivity. now destruct (Hs s).
Qed.

End StoreKept.

Lemma preprocess_keeps_entries_witness :
  exists nb' res' final,
    preprocess fake_render fake_urandom nb_sample (Some resources_logo)
    = Ok (nb', res') /\
    res_outputs res' = Some final /\
    final !! "logo.png" = Some png_stub.
Proof.
  destruct (preprocess fake_render fake_urandom nb_sample
              (Some resources_logo)) as [[nb' res']| |] eqn:E;
    try (vm_compute in E; discriminate E).
  destruct (preprocess_keeps_entries fake_render fake_urandom nb_sample
              (Some resources_logo) nb' res' E)
    as (final & Hf & [Hk _] & _).
  exists nb', res', final. split; [reflexivity|]. split; [exact Hf|].
  rewrite (Hk "logo.png" eq_refl). apply lookup_insert_eq.
Defined.

Lemma html_not_text_raises_witness :
  process_output fake_render fake_urandom st0
    (PDict [("data", PDict [("text/html", PList [PStr "<b>x</b>"])])])
  = Raise TypeError.
Proof.
  apply (html_not_text_raises fake_render fake_urandom st0 _
           (PList [PStr "<b>x</b>"])); [reflexivity | reflexivity |].
  intros s H. discriminate H.
Defined.

(** ** Normalizing twice *)

Lemma normalize_trace_again t t' :
  normalize_trace t = Ok t' -> normalize_trace t' = Ok t'.
Proof.
  unfold normalize_trace. destruct t as [| | | | | |d]; try discriminate.
  cbn [py_get rbind].
  destruct (py_eq_str (default PNone (dict_get "type" d)) "heatmapgl") eqn:E.
  - cbn [py_setitem]. intros [= <-]. cbn [py_get rbind].
    rewrite dict_get_set_eq. reflexivity.
  - intros [= <-]. cbn [py_get rbind]. now rewrite E.
Qed.

Lemma rmapM_normalize_again : forall l l',
  rmapM normalize_trace l = Ok l' -> rmapM normalize_trace l' = Ok l'.
Proof.
  induction l as [|x l IH]; intros l' H; cbn [rmapM] in H.
  - now injection H as <-.
  - apply rbind_ok in H as (y & Hy & H).
    apply rbind_ok in H as (ys & Hys & H). injection H as <-.
    cbn [rmapM]. rewrite (normalize_trace_again _ _ Hy). cbn [rbind].
    now rewrite (IH _ Hys).
Qed.

Lemma dict_set_keys k v d :
  map fst (dict_set k v d) =
  match dict_get k d with
  | Some _ => map fst d
  | None => (map fst d ++ [k])%list
  end.
Proof.
  induction d as [|[k' v'] d IH]; [reflexivity|].
  cbn [dict_set dict_get]. destruct (String.eqb k k') eqn:E; [reflexivity|].
  cbn [map fst]. rewrite IH. now destruct (dict_get k d).
Qed.

Lemma dict_set_NoDup k v d :
  NoDup (map fst d) -> NoDup (map fst (dict_set k v d)).
Proof.
  intros H. rewrite dict_set_keys.
  destruct (dict_get k d) eqn:E; [exact H|].
  apply NoDup_app. split; [exact H|]. split.
  - intros x Hx Hk. apply list_elem_of_singleton in Hk as ->.
    apply dict_get_None in E. contradiction.
  - apply NoDup_singleton.
Qed.

Lemma rename_fold_NoDup d : forall acc,
  NoDup (map fst acc) ->
  NoDup (map fst
           (fold_left
              (fun acc kv => dict_set (rename_key (fst kv)) (snd kv) acc)
              d acc)).
Proof.
  induction d as [|kv d IH]; intros acc H; [exact H|].
  cbn [fold_left]. apply IH. now apply dict_set_NoDup.
Qed.

Lemma rename_keys_again dt : rename_keys (rename_keys dt) = rename_keys dt.
Proof.
  set (d2 := rename_keys dt).
  assert (Hnd : NoDup (map fst d2))
    by (apply rename_fold_NoDup; constructor).
  assert (Hgl : "heatmapgl" ∉ map fst d2)
    by (apply dict_get_None, rename_keys_no_gl).
  assert (Hid : forall kv, kv ∈ d2 -> renamed kv = kv).
  { intros [k v] Hin. unfold renamed, rename_key. cbn [fst snd].
    destruct (String.eqb k "heatmapgl") eqn:E; [|reflexivity].
    apply String.eqb_eq in E as ->. exfalso. apply Hgl.
    apply list_elem_of_fmap. now exists ("heatmapgl", v). }
  assert (Hmap : map renamed d2 = d2).
  { clear -Hid. induction d2 as [|kv d IH]; [reflexivity|].
    cbn [map]. rewrite Hid by apply list_elem_of_here.
    rewrite IH; [reflexivity|].
    intros x Hx. apply Hid. now apply list_elem_of_further. }
  unfold rename_keys at 1. fold d2.
  rewrite rename_fold_fresh.
  - now rewrite Hmap.
  - cbn [map app].
    assert (Hk : map rename_key (map fst d2) = map fst (map renamed d2))
      by (rewrite !List.map_map; reflexivity).
    now rewrite Hk, Hmap.
Qed.

Lemma normalize_fixed f traces lay tpl :
  py_iter (default (PList []) (dict_get "data" f)) = Ok traces ->
  rmapM normalize_trace traces = Ok traces ->
  dict_get "layout" f = Some (PDict lay) ->
  dict_get "template" lay = Some (PDict tpl) ->
  (forall dt, dict_get "data" tpl = Some (PDict dt) -> rename_keys dt = dt) ->
  normalize_heatmapgl (PDict f) = Ok (PDict f).
Proof.
  intros Hit Hmap Hl Ht Hd.
  assert (Hrest : forall f1, f1 = f ->
    (let* layout := py_get (PDict f1) "layout" (PDict []) in
     let* template := py_get layout "template" (PDict []) in
     let* data_template := py_get template "data" PNone in
     let* template1 :=
       match data_template with
       | PDict dt => py_setitem template "data" (PDict (rename_keys dt))
       | _ => Ok template
       end in
     let* layout1 := py_setitem layout "template" template1 in
     py_setitem (PDict f1) "layout" layout1) = Ok (PDict f)).
  { intros f1 ->. cbn [py_get]. rewrite Hl.
    cbn -[dict_set dict_get rename_keys]. rewrite Ht.
    cbn -[dict_set dict_get rename_keys].
    destruct (dict_get "data" tpl) as [dv|] eqn:Ed;
      [destruct dv as [| | | | | |dt]|];
      cbn -[dict_set dict_get rename_keys];
      rewrite ?(Hd _ eq_refl), ?(dict_set_same _ _ _ Ed),
        ?(dict_set_same _ _ _ Ht), ?(dict_set_same _ _ _ Hl);
      reflexivity. }
  unfold normalize_heatmapgl. cbn [py_get rbind]. rewrite Hit.
  cbn [rbind]. rewrite Hmap. cbn [rbind].
  destruct (dict_get "data" f) as [dv|] eqn:Ed.
  - destruct dv as [| | | | |l|]; try (apply Hrest; reflexivity).
    cbn -[dict_set dict_get rename_keys] in Hit. injection Hit as ->.
    apply Hrest. now apply dict_set_same.
  - apply Hrest. reflexivity.
Qed.

(** [normalize_heatmapgl] is idempotent: normalizing its result gives
    that result again. *)
Theorem normalize_heatmapgl_idempotent fig fig' :
  normalize_heatmapgl fig = Ok fig' -> normalize_heatmapgl fig' = Ok fig'.
Proof.
  unfold normalize_heatmapgl at 1. intros H.
  destruct fig as [| | | | | |f]; try discriminate H.
  cbn [py_get rbind] in H.
  apply rbind_ok in H as (traces & Hit & H).
  apply rbind_ok in H as (traces' & Hmap & H).
  (* the figure after the loop over the traces *)
  assert (Hfig1 : exists f1,
    match default (PList []) (dict_get "data" f) with
    | PList _ =>
        match dict_get "data" f with
        | Some _ => PDict (dict_set "data" (PList traces') f)
        | None => PDict f
        end
    | _ => PDict f
    end = PDict f1 /\
    py_iter (default (PList []) (dict_get "data" f1)) = Ok traces').
  { destruct (dict_get "data" f) as [dv|] eqn:Ed.
    - cbn -[dict_set dict_get] in *. destruct dv as [| | | |s|l|d];
        try discriminate Hit; cbn [py_iter] in Hit; injection Hit as <-.
      + exists f. rewrite Ed. cbn -[dict_set dict_get].
        destruct s; cbn [chars_of rmapM] in Hmap; [|discriminate Hmap].
        injection Hmap as <-. now split.
      + eexists. split; [reflexivity|].
        now rewrite dict_get_set_eq.
      + exists f. rewrite Ed. cbn -[dict_set dict_get].
        destruct d as [|[k v] d]; cbn [map rmapM] in Hmap;
          [|discriminate Hmap].
        injection Hmap as <-. now split.
    - cbn -[dict_set dict_get] in *. injection Hit as <-.
      cbn [rmapM] in Hmap. injection Hmap as <-.
      exists f. rewrite Ed. now split. }
  destruct Hfig1 as (f1 & E1 & Hit1). rewrite E1 in H. clear E1.
  cbn [py_get rbind] in H.
  apply rbind_ok in H as (template & Htpl & H).
  apply rbind_ok in H as (data_template & Hdt & H).
  apply rbind_ok in H as (template1 & Ht1 & H).
  apply rbind_ok in H as (layout1 & Hl1 & H).
  cbn [py_setitem] in H. injection H as <-.
  destruct (default (PDict []) (dict_get "layout" f1)) as [| | | | | |lay];
    try discriminate Hl1.
  cbn [py_setitem] in Hl1. injection Hl1 as <-.
  cbn [py_get] in Htpl. injection Htpl as <-.
  destruct (default (PDict []) (dict_get "template" lay))
    as [| | | | | |tpl]; try discriminate Hdt.
  cbn [py_get] in Hdt. injection Hdt as <-.
  assert (Htpl1 : exists tpl1,
    template1 = PDict tpl1 /\
    forall dt, dict_get "data" tpl1 = Some (PDict dt) -> rename_keys dt = dt).
  { destruct (dict_get "data" tpl) as [dv|] eqn:Edt;
      [destruct dv as [| | | | | |dt]|];
      cbn -[dict_set dict_get rename_keys] in Ht1; injection Ht1 as <-;
      try (exists tpl; split; [reflexivity|]; intros dt' Hdt';
           rewrite Edt in Hdt'; discriminate Hdt').
    eexists. split; [reflexivity|]. intros dt' Hdt'.
    rewrite dict_get_set_eq in Hdt'. injection Hdt' as <-.
    apply rename_keys_again. }
  destruct Htpl1 as (tpl1 & -> & Hfix2).
  apply (normalize_fixed _ traces' (dict_set "template" (PDict tpl1) lay) tpl1).
  - now rewrite dict_get_set_ne by discriminate.
  - eapply rmapM_normalize_again; eassumption.
  - apply dict_get_set_eq.
  - apply dict_get_set_eq.
  - exact Hfix2.
Qed.

Lemma normalize_heatmapgl_idempotent_witness :
  normalize_heatmapgl
    (fig_dict
       (PList [PDict [("type", PStr "heatmap"); ("z", PList [PInt 1])]])
       (PDict [("template",
                PDict [("data", PDict [("heatmap", PStr "gl");
                                       ("bar", PStr "b")])])])
       (PDict []))
  = Ok (fig_dict
          (PList [PDict [("type", PStr "heatmap"); ("z", PList [PInt 1])]])
          (PDict [("template",
                   PDict [("data", PDict [("heatmap", PStr "gl");
                                          ("bar", PStr "b")])])])
          (PDict [])).
Proof.
  apply (normalize_heatmapgl_idempotent
           (fig_dict
              (PList [PDict [("type", PStr "heatmapgl");
                             ("z", PList [PInt 1])]])
              (PDict [("template",
                       PDict [("data", PDict [("heatmapgl", PStr "gl");
                                              ("bar", PStr "b")])])])
              (PDict []))).
  reflexivity.
Defined.

(** ** What a match of [NEWPLOT_PATTERN] captures *)

Lemma strip_prefix_app l : forall s s',
  strip_prefix l s = Some s' -> s = String.append l s'.
Proof.
  induction l as [|a l IH]; intros s s' H; cbn [strip_prefix] in H.
  - now injection H as <-.
  - destruct s as [|b s]; [discriminate H|].
    destruct (Ascii.eqb a b) eqn:E; [|discriminate H].
    apply Ascii.eqb_eq in E as <-. rewrite append_cons. f_equal.
    now apply IH.
Qed.

Lemma star_greedy_sound {R} p (k : string -> option R) : forall s x,
  star_greedy p k s = Some x ->
  exists w s', s = String.append w s' /\ str_all p w = true /\ k s' = Some x.
Proof.
  induction s as [|c s IH]; intros x H; cbn [star_greedy] in H.
  - exists EmptyString, EmptyString. auto.
  - destruct (p c) eqn:Ep.
    + destruct (star_greedy p k s) as [y|] eqn:Es.
      * injection H as <-. destruct (IH _ eq_refl) as (w & s' & -> & Hw & Hk).
        exists (String c w), s'. rewrite append_cons. cbn [str_all].
        rewrite Ep, Hw. auto.
      * exists EmptyString, (String c s). auto.
    + exists EmptyString, (String c s). auto.
Qed.

Lemma star_lazy_sound {R} p (k : string -> option R) : forall s x,
  star_lazy p k s = Some x ->
  exists w s', s = String.append w s' /\ str_all p w = true /\ k s' = Some x.
Proof.
  induction s as [|c s IH]; intros x H; cbn [star_lazy] in H.
  - destruct (k EmptyString) as [y|] eqn:Ek; [|discriminate H].
    injection H as <-. exists EmptyString, EmptyString. auto.
  - destruct (k (String c s)) as [y|] eqn:Ek.
    + injection H as <-. exists EmptyString, (String c s). auto.
    + destruct (p c) eqn:Ep; [|discriminate H].
      destruct (IH _ H) as (w & s' & -> & Hw & Hk).
      exists (String c w), s'. rewrite append_cons. cbn [str_all].
      rewrite Ep, Hw. auto.
Qed.

Lemma rmatch_sound {R} r : forall s env (k : string -> captures -> option R) x,
  rmatch r s env k = Some x ->
  exists s' env', matched r s env s' env' /\ k s' env' = Some x.
Proof.
  induction r as [l|p|p|p|r1 IH1 r2 IH2|r1 IH1 r2 IH2|r1 IH1|name r1 IH1];
    intros s env k x H; cbn [rmatch] in H; cbn [matched].
  - destruct (strip_prefix l s) as [s'|] eqn:E; [|discriminate H].
    apply strip_prefix_app in E. eauto.
  - apply star_greedy_sound in H as (w & s' & -> & Hw & Hk).
    exists s', env. eauto.
  - destruct s as [|c s]; [discriminate H|].
    destruct (p c) eqn:Ep; [|discriminate H].
    apply star_greedy_sound in H as (w & s' & -> & Hw & Hk).
    exists s', env. split; [|exact Hk]. split; [|reflexivity].
    exists c, w. cbn [str_all]. rewrite Ep, Hw. auto.
  - apply star_lazy_sound in H as (w & s' & -> & Hw & Hk).
    exists s', env. eauto.
  - apply IH1 in H as (s1 & env1 & H1 & H).
    apply IH2 in H as (s2 & env2 & H2 & H). eauto 8.
  - destruct (rmatch r1 s env k) as [y|] eqn:E.
    + injection H as <-. apply IH1 in E as (s' & env' & H1 & Hk). eauto.
    + apply IH2 in H as (s' & env' & H2 & Hk). eauto.
  - destruct (rmatch r1 s env k) as [y|] eqn:E.
    + injection H as <-. apply IH1 in E as (s' & env' & H1 & Hk). eauto.
    + eauto 6.
  - apply IH1 in H as (s' & env' & H1 & Hk). eauto 6.
Qed.

Lemma re_search_sound r : forall s m,
  re_search r s = Some m ->
  exists t s', matched r t [] s' m.
Proof.
  induction s as [|c s IH]; intros m H; cbn [re_search] in H.
  - destruct (rmatch r EmptyString [] _) as [env|] eqn:E; [|discriminate H].
    injection H as <-. apply rmatch_sound in E as (s' & env' & Hm & Hk).
    injection Hk as <-. eauto.
  - destruct (rmatch r (String c s) [] _) as [env|] eqn:E.
    + injection H as <-. apply rmatch_sound in E as (s' & env' & Hm & Hk).
      injection Hk as <-. eauto.
    + eauto.
Qed.

Lemma substring_app a : forall b,
  String.substring 0 (String.length a) (String.append a b) = a.
Proof.
  induction a as [|c a IH]; intros b.
  - destruct b; reflexivity.
  - rewrite append_cons. cbn [String.length String.substring].
    now rewrite IH.
Qed.

Lemma consumed_app a s' : consumed (String.append a s') s' = a.
Proof.
  unfold consumed. rewrite append_length.
  replace (String.length a + String.length s' - String.length s')%nat
    with (String.length a) by lia.
  apply substring_app.
Qed.

Lemma matched_bracket name o c s env s' env' :
  matched (RGroup name (rseq [RLit o; RLazy is_any; RLit c])) s env s' env' ->
  exists t, bracketed o c t /\ env' = (name, t) :: env.
Proof.
  cbn [matched rseq].
  intros (env1 & (s1 & e1 & [-> ->] & s2 & e2 & [(w & -> & _) ->]
                  & -> & ->) & ->).
  exists (String.append o (String.append w c)). split; [now exists w|].
  rewrite <- (append_assoc w c s'), <- (append_assoc o _ s').
  now rewrite consumed_app.
Qed.

Lemma matched_ws s env s' env' : matched ws s env s' env' -> env' = env.
Proof. now intros [_ ->]. Qed.

Lemma matched_lit l s env s' env' :
  matched (RLit l) s env s' env' -> env' = env.
Proof. now intros [_ ->]. Qed.

Lemma matched_id s env s' env' :
  matched (RGroup "id"
             (RAlt (rseq [RLit sq; RPlus (is_not quote_sq); RLit sq])
                   (rseq [RLit dq; RPlus (is_not quote_dq); RLit dq])))
    s env s' env' ->
  exists t, env' = ("id", t) :: env.
Proof.
  cbn [matched rseq].
  intros (env1 & [H|H] & ->);
    destruct H as (s1 & e1 & [_ ->] & s2 & e2 & [_ ->] & _ & ->); eauto.
Qed.

Lemma newplot_matched_groups t0 s' m :
  matched NEWPLOT_PATTERN t0 [] s' m ->
  (exists t, group "id" m = Some t) /\
  (exists t, group "data" m = Some t /\ bracketed "[" "]" t) /\
  (exists t, group "layout" m = Some t /\ bracketed "{" "}" t) /\
  (group "config" m = None \/
   exists t, group "config" m = Some t /\ bracketed "{" "}" t).
Proof.
  intros H.
  unfold NEWPLOT_PATTERN in H.
  cbn [rseq] in H.
  repeat match type of H with
         | matched (RSeq _ _) _ _ _ _ =>
             let s1 := fresh "s" in
             let e1 := fresh "e" in
             let H1 := fresh "H" in
             destruct H as (s1 & e1 & H1 & H)
         end.
  repeat match goal with
         | H : matched (RLit _) _ _ _ _ |- _ => apply matched_lit in H
         | H : matched ws _ _ _ _ |- _ => apply matched_ws in H
         | H : matched (RGroup "id" _) _ _ _ _ |- _ =>
             apply matched_id in H as (? & H)
         | H : matched (RGroup _ _) _ _ _ _ |- _ =>
             apply (matched_bracket _ "[" "]") in H as (? & ? & H)
         | H : matched (RGroup _ _) _ _ _ _ |- _ =>
             apply (matched_bracket _ "{" "}") in H as (? & ? & H)
         end.
  match goal with
  | H : matched (ROpt _) _ _ _ _ |- _ => rename H into Hopt
  end.
  change (matched (ROpt ?r) ?a ?b ?c ?d)
    with (matched r a b c d \/ (c = a /\ d = b)) in Hopt.
  destruct Hopt as [(sa & ea & Ha & sb & eb & Hb & sc & ec & Hc & Hd)
                   | [_ Hopt]].
  - apply matched_ws in Ha. apply matched_lit in Hb. apply matched_ws in Hc.
    apply (matched_bracket _ "{" "}") in Hd as (tc & Hbc & Hd).
    subst. cbn [group String.eqb Ascii.eqb Bool.eqb].
    split; [eauto|]. split; [eauto|]. split; [eauto|]. right. eauto.
  - subst. cbn [group String.eqb Ascii.eqb Bool.eqb].
    split; [eauto|]. split; [eauto|]. split; [eauto|]. now left.
Qed.

(** A match of [NEWPLOT_PATTERN] always has the groups [id], [data] and
    [layout]; [data] is a text in square brackets, [layout] one in
    braces, and so is [config] when the match has it. *)
Theorem newplot_groups html m :
  re_search NEWPLOT_PATTERN html = Some m ->
  (exists t, group "id" m = Some t) /\
  (exists t, group "data" m = Some t /\ bracketed "[" "]" t) /\
  (exists t, group "layout" m = Some t /\ bracketed "{" "}" t) /\
  (group "config" m = None \/
   exists t, group "config" m = Some t /\ bracketed "{" "}" t).
Proof.
  intros H. apply re_search_sound in H as (t0 & s' & H).
  eapply newplot_matched_groups. exact H.
Qed.

Lemma newplot_groups_witness :
  exists m,
    re_search NEWPLOT_PATTERN html_bar = Some m /\
    exists t, group "data" m = Some t /\ bracketed "[" "]" t.
Proof.
  destruct (re_search NEWPLOT_PATTERN html_bar) as [m|] eqn:E;
    [|vm_compute in E; discriminate E].
  exists m. split; [reflexivity|].
  exact (proj1 (proj2 (newplot_groups html_bar m E))).
Defined.

(** ** What extraction returns *)

(** [extract_plotly_json] never raises; it returns [None] when the
    pattern has no match; and what it returns besides [None] is the
    mapping with exactly the keys [data], [layout] and [config], holding
    what [literal_eval] made of the [data] group and of the [layout]
    group, and an empty [config] when the match has no such group. *)
Theorem extract_result_shape html :
  (forall e, extract_plotly_json html <> Raise e) /\
  (re_search NEWPLOT_PATTERN html = None ->
   extract_plotly_json html = Ok None) /\
  (forall fig,
     extract_plotly_json html = Ok (Some fig) ->
     exists m data layout config,
       re_search NEWPLOT_PATTERN html = Some m /\
       fig = PDict [("data", data); ("layout", layout); ("config", config)]
       /\ (exists t, group "data" m = Some t
                     /\ literal_eval (_fix_js t) = Ok data)
       /\ (exists t, group "layout" m = Some t
                     /\ literal_eval (_fix_js t) = Ok layout)
       /\ (group "config" m = None -> config = PDict [])).
Proof.
  unfold extract_plotly_json.
  destruct (re_search NEWPLOT_PATTERN html) as [m|] eqn:Em;
    [|split; [discriminate | split; [reflexivity | discriminate]]].
  split; [|split; [discriminate|]].
  - intros e. unfold try_except.
    destruct (rbind (group_text "data" m) _); discriminate.
  - intros fig H. unfold try_except in H.
    match type of H with
    | match ?r with _ => _ end = _ => destruct r as [res|e|] eqn:E
    end; try discriminate H.
    injection H as ->.
    apply rbind_ok in E as (dtxt & Hgd & E).
    apply rbind_ok in E as (data & Hd & E).
    apply rbind_ok in E as (ltxt & Hgl & E).
    apply rbind_ok in E as (layout & Hl & E).
    apply rbind_ok in E as (config & Hc & E).
    injection E as <-. exists m, data, layout, config.
    unfold group_text in Hgd, Hgl.
    destruct (group "data" m) as [td|] eqn:Gd; [|discriminate Hgd].
    destruct (group "layout" m) as [tl|] eqn:Gl; [|discriminate Hgl].
    injection Hgd as ->. injection Hgl as ->.
    split; [reflexivity|]. split; [reflexivity|].
    split; [now exists dtxt|]. split; [now exists ltxt|].
    intros Gc. rewrite Gc in Hc. now injection Hc as <-.
Qed.

Lemma extract_result_shape_witness :
  exists m data layout config,
    re_search NEWPLOT_PATTERN html_bar = Some m /\
    spec_bar = PDict [("data", data); ("layout", layout); ("config", config)]
    /\ (exists t, group "data" m = Some t
                  /\ literal_eval (_fix_js t) = Ok data)
    /\ (exists t, group "layout" m = Some t
                  /\ literal_eval (_fix_js t) = Ok layout)
    /\ (group "config" m = None -> config = PDict []).
Proof.
  apply (proj2 (proj2 (extract_result_shape html_bar))).
  vm_compute. reflexivity.
Defined.

(** ** What a successful normalization leaves in place *)

(** A successful [normalize_heatmapgl] returns a figure whose layout is a
    mapping with a mapping under [template]; the entries of the figure
    other than [data] and [layout], those of the layout other than
    [template] and those of the template other than [data] are the ones
    it was given. *)
Theorem normalize_frame fig fig' :
  normalize_heatmapgl fig = Ok fig' ->
  exists f f' lay lay' tpl tpl',
    fig = PDict f /\ fig' = PDict f' /\
    default (PDict []) (dict_get "layout" f) = PDict lay /\
    default (PDict []) (dict_get "template" lay) = PDict tpl /\
    dict_get "layout" f' = Some (PDict lay') /\
    dict_get "template" lay' = Some (PDict tpl') /\
    (forall k, k <> "data" -> k <> "layout" ->
               dict_get k f' = dict_get k f) /\
    (forall k, k <> "template" -> dict_get k lay' = dict_get k lay) /\
    (forall k, k <> "data" -> dict_get k tpl' = dict_get k tpl).
Proof.
  unfold normalize_heatmapgl. intros H.
  destruct fig as [| | | | | |f]; try discriminate H.
  cbn [py_get rbind] in H.
  apply rbind_ok in H as (traces & Hit & H).
  apply rbind_ok in H as (traces' & Hmap & H).
  assert (Hfig1 : exists f1,
    match default (PList []) (dict_get "data" f) with
    | PList _ =>
        match dict_get "data" f with
        | Some _ => PDict (dict_set "data" (PList traces') f)
        | None => PDict f
        end
    | _ => PDict f
    end = PDict f1 /\
    forall k, k <> "data" -> dict_get k f1 = dict_get k f).
  { destruct (dict_get "data" f) as [dv|] eqn:Ed;
      [destruct dv|]; cbn -[dict_set dict_get];
      try (exists f; split; [reflexivity | reflexivity]).
    eexists. split; [reflexivity|]. intros k Hk.
    now apply dict_get_set_ne. }
  destruct Hfig1 as (f1 & E1 & Hf1). rewrite E1 in H. clear E1.
  cbn [py_get rbind] in H.
  apply rbind_ok in H as (template & Htpl & H).
  apply rbind_ok in H as (data_template & Hdt & H).
  apply rbind_ok in H as (template1 & Ht1 & H).
  apply rbind_ok in H as (layout1 & Hl1 & H).
  cbn [py_setitem] in H. injection H as <-.
  rewrite (Hf1 "layout") in * by discriminate.
  destruct (default (PDict []) (dict_get "layout" f))
    as [| | | | | |lay] eqn:El; try discriminate Hl1.
  cbn [py_setitem] in Hl1. injection Hl1 as <-.
  cbn [py_get] in Htpl. injection Htpl as <-.
  destruct (default (PDict []) (dict_get "template" lay))
    as [| | | | | |tpl] eqn:Etp; try discriminate Hdt.
  cbn [py_get] in Hdt. injection Hdt as <-.
  assert (Htpl1 : exists tpl1,
    template1 = PDict tpl1 /\
    forall k, k <> "data" -> dict_get k tpl1 = dict_get k tpl).
  { destruct (default PNone (dict_get "data" tpl)) as [| | | | | |dt];
      cbn [py_setitem] in Ht1; injection Ht1 as <-;
      try (exists tpl; split; reflexivity).
    eexists. split; [reflexivity|]. intros k Hk.
    now apply dict_get_set_ne. }
  destruct Htpl1 as (tpl1 & -> & Htpl1).
  exists f, (dict_set "layout" (PDict (dict_set "template" (PDict tpl1) lay))
               f1), lay, (dict_set "template" (PDict tpl1) lay), tpl, tpl1.
  split; [reflexivity|]. split; [reflexivity|].
  split; [exact El|]. split; [exact Etp|].
  split; [apply dict_get_set_eq|]. split; [apply dict_get_set_eq|].
  split; [|split].
  - intros k Hd Hl. rewrite dict_get_set_ne by exact Hl. now apply Hf1.
  - intros k Hk. now apply dict_get_set_ne.
  - exact Htpl1.
Qed.

Lemma normalize_frame_witness :
  exists f f' lay lay' tpl tpl',
    fig_dict (PList []) (PDict [("width", PInt 500)]) (PDict []) = PDict f /\
    fig_dict (PList [])
      (PDict [("width", PInt 500); ("template", PDict [])]) (PDict [])
    = PDict f' /\
    default (PDict []) (dict_get "layout" f) = PDict lay /\
    default (PDict []) (dict_get "template" lay) = PDict tpl /\
    dict_get "layout" f' = Some (PDict lay') /\
    dict_get "template" lay' = Some (PDict tpl') /\
    (forall k, k <> "data" -> k <> "layout" ->
               dict_get k f' = dict_get k f) /\
    (forall k, k <> "template" -> dict_get k lay' = dict_get k lay) /\
    (forall k, k <> "data" -> dict_get k tpl' = dict_get k tpl).
Proof.
  apply (normalize_frame
           (fig_dict (PList []) (PDict [("width", PInt 500)]) (PDict []))).
  reflexivity.
Defined.

(** ** When an output is replaced *)

(** The processing of an output that returns either gives the output
    back, with the store and the count of identifiers as they were, or
    gives the static output: the latter only for an output whose
    [text/html] is a non-empty string from which a figure was extracted,
    normalized and rendered; the image is then stored under the name built
    from the next identifier. *)
Theorem process_output_cases
  (render : pyval -> pyval -> result (bytes * pyval)) (urandom : nat -> N)
  st out out' st' :
  process_output render urandom st out = Ok (out', st') ->
  (out' = out /\ st' = st) \/
  (exists h fig fig1 png width,
     html_entry out = Some (PStr h) /\ h <> EmptyString /\
     extract_plotly_json h = Ok (Some fig) /\
     normalize_heatmapgl fig = Ok fig1 /\
     to_png render fig1 = Ok (png, width) /\
     out' = static_output png width /\
     st' = {| store := <[png_name (uuid4_hex (urandom (draws st))) := png]>
                         (store st);
              draws := S (draws st) |}).
Proof.
  unfold process_output. intros H.
  destruct out as [| | | | | |o]; try discriminate H.
  cbn [py_get rbind] in H.
  destruct (dict_get "data" o) as [data|] eqn:Ed; cbn -[dict_get] in H.
  2:{ injection H as <- <-. now left. }
  destruct data as [| | | | | |d]; try discriminate H.
  cbn -[dict_get] in H.
  destruct (dict_get "text/html" d) as [html|] eqn:Eh; cbn -[dict_get] in H.
  2:{ injection H as <- <-. now left. }
  destruct (negb (py_truthy html)) eqn:Et; [injection H as <- <-; now left|].
  destruct html as [| | | |h| |]; try discriminate H.
  apply rbind_ok in H as (fig & He & H).
  destruct fig as [fj|]; [|injection H as <- <-; now left].
  destruct (negb (py_truthy fj)); [injection H as <- <-; now left|].
  apply rbind_ok in H as (fig1 & Hn & H).
  destruct (to_png render fig1) as [[png width]|e|] eqn:Ep;
    try discriminate H; injection H as <- <-; [|now left].
  right. exists h, fj, fig1, png, width.
  split; [cbn [html_entry]; now rewrite Ed, Eh|].
  split; [intros ->; discriminate Et|].
  repeat split; assumption.
Qed.

Lemma process_output_cases_witness :
  exists h fig fig1 png width,
    html_entry (html_output html_bar) = Some (PStr h) /\
    h <> EmptyString /\
    extract_plotly_json h = Ok (Some fig) /\
    normalize_heatmapgl fig = Ok fig1 /\
    to_png fake_render fig1 = Ok (png, width) /\
    static_output png_stub PNone = static_output png width /\
    {| store := <[png_name (uuid4_hex (fake_urandom 0)) := png_stub]> ∅;
       draws := 1 |}
    = {| store := <[png_name (uuid4_hex (fake_urandom (draws st0)))
                     := png]> (store st0);
         draws := S (draws st0) |}.
Proof.
  destruct (process_output_cases fake_render fake_urandom st0
              (html_output html_bar) (static_output png_stub PNone)
              {| store := <[png_name (uuid4_hex (fake_urandom 0))
                             := png_stub]> ∅;
                 draws := 1 |} eq_refl) as [[H _]|H].
  - vm_compute in H. discriminate H.
  - exact H.
Defined.

(** ** The matcher finds every match *)

Lemma strip_prefix_complete l s' :
  strip_prefix l (String.append l s') = Some s'.
Proof.
  induction l as [|c l IH]; [reflexivity|].
  rewrite append_cons. cbn [strip_prefix]. now rewrite Ascii.eqb_refl.
Qed.

Lemma star_greedy_here {R} p (k : string -> option R) s x :
  k s = Some x -> exists y, star_greedy p k s = Some y.
Proof.
  intros Hk. destruct s as [|c s]; cbn [star_greedy]; [eauto|].
  destruct (p c); [|eauto]. destruct (star_greedy p k s); eauto.
Qed.

Lemma star_greedy_complete {R} p (k : string -> option R) s' x :
  k s' = Some x -> forall w,
  str_all p w = true -> exists y, star_greedy p k (String.append w s') = Some y.
Proof.
  intros Hk. induction w as [|c w IH]; intros Hw.
  - now apply (star_greedy_here p k s' x).
  - cbn [str_all] in Hw. apply andb_true_iff in Hw as [Hc Hw].
    rewrite append_cons. cbn [star_greedy]. rewrite Hc.
    destruct (IH Hw) as (y & ->). eauto.
Qed.

Lemma star_lazy_here {R} p (k : string -> option R) s x :
  k s = Some x -> star_lazy p k s = Some x.
Proof. intros Hk. destruct s; cbn [star_lazy]; now rewrite Hk. Qed.

Lemma star_lazy_complete {R} p (k : string -> option R) s' x :
  k s' = Some x -> forall w,
  str_all p w = true -> exists y, star_lazy p k (String.append w s') = Some y.
Proof.
  intros Hk. induction w as [|c w IH]; intros Hw.
  - exists x. now apply star_lazy_here.
  - cbn [str_all] in Hw. apply andb_true_iff in Hw as [Hc Hw].
    rewrite append_cons. cbn [star_lazy].
    destruct (k (String c (String.append w s'))); [eauto|].
    rewrite Hc. now apply IH.
Qed.

Lemma rmatch_complete {R} r :
  forall s env s' env' (k : string -> captures -> option R) x,
    matched r s env s' env' -> k s' env' = Some x ->
    exists y, rmatch r s env k = Some y.
Proof.
  induction r as [l|p|p|p|r1 IH1 r2 IH2|r1 IH1 r2 IH2|r1 IH1|name r1 IH1];
    intros s env s' env' k x Hm Hk; cbn [matched] in Hm; cbn [rmatch].
  - destruct Hm as [-> ->]. rewrite strip_prefix_complete. eauto.
  - destruct Hm as [(w & -> & Hw) ->].
    now apply (star_greedy_complete p (fun t => k t env) s' x).
  - destruct Hm as [(c & w & -> & Hw) ->]. cbn [str_all] in Hw.
    apply andb_true_iff in Hw as [Hc Hw]. rewrite Hc.
    now apply (star_greedy_complete p (fun t => k t env) s' x).
  - destruct Hm as [(w & -> & Hw) ->].
    now apply (star_lazy_complete p (fun t => k t env) s' x).
  - destruct Hm as (s1 & env1 & H1 & H2).
    destruct (IH2 _ _ _ _ k x H2 Hk) as (y & Hy).
    exact (IH1 _ _ _ _ _ y H1 Hy).
  - destruct Hm as [H1|H2].
    + destruct (IH1 _ _ _ _ k x H1 Hk) as (y & ->). eauto.
    + destruct (rmatch r1 s env k); [eauto|]. exact (IH2 _ _ _ _ k x H2 Hk).
  - destruct Hm as [H1|[-> ->]].
    + destruct (IH1 _ _ _ _ k x H1 Hk) as (y & ->). eauto.
    + destruct (rmatch r1 s env k); eauto.
  - destruct Hm as (env1 & H1 & ->).
    exact (IH1 _ _ _ _ (fun t e => k t ((name, consumed s t) :: e)) x H1 Hk).
Qed.

Lemma re_search_complete r t s' m :
  matched r t [] s' m ->
  forall pre, exists m', re_search r (String.append pre t) = Some m'.
Proof.
  intros Hm.
  destruct (rmatch_complete r t [] s' m (fun _ env => Some env) m Hm eq_refl)
    as (y & Hy).
  induction pre as [|c p IH].
  - rewrite append_nil_l. exists y. destruct t; cbn [re_search]; now rewrite Hy.
  - rewrite append_cons, re_search_cons.
    destruct (rmatch r (String c (String.append p t)) []
                (fun _ env => Some env)); [eauto | exact IH].
Qed.

Lemma re_search_found r : forall s m,
  re_search r s = Some m ->
  exists pre t s', s = String.append pre t /\ matched r t [] s' m.
Proof.
  induction s as [|c s IH]; intros m H; cbn [re_search] in H.
  - destruct (rmatch r EmptyString [] _) as [env|] eqn:E; [|discriminate H].
    injection H as <-. apply rmatch_sound in E as (s' & env' & Hm & Hk).
    injection Hk as <-. now exists EmptyString, EmptyString, s'.
  - destruct (rmatch r (String c s) [] _) as [env|] eqn:E.
    + injection H as <-. apply rmatch_sound in E as (s' & env' & Hm & Hk).
      injection Hk as <-. now exists EmptyString, (String c s), s'.
    + apply IH in H as (pre & t & s' & -> & Hm).
      now exists (String c pre), t, s'.
Qed.

(** The search fails exactly on the pages without invocation. *)
Lemma search_none_iff html :
  re_search NEWPLOT_PATTERN html = None <-> no_invocation html.
Proof.
  split.
  - intros H pre t s' m -> Hm.
    destruct (re_search_complete _ _ _ _ Hm pre) as (m' & Hs).
    rewrite Hs in H. discriminate H.
  - intros H. destruct (re_search NEWPLOT_PATTERN html) as [m|] eqn:E;
      [|reflexivity].
    apply re_search_found in E as (pre & t & s' & -> & Hm).
    destruct (H pre t s' m eq_refl Hm).
Qed.

(** C8.  For a page no substring of which is an invocation, that is, a
    word of [NEWPLOT_PATTERN], extraction returns [None] and the output
    that holds the page is returned as it is, the store with it. *)
Theorem pattern_miss_passthrough
  (render : pyval -> pyval -> result (bytes * pyval)) (urandom : nat -> N)
  (html : string) :
  no_invocation html ->
  extract_plotly_json html = Ok None /\
  forall st out,
    html_entry out = Some (PStr html) ->
    process_output render urandom st out = Ok (out, st).
Proof.
  intros Hno. apply search_none_iff in Hno.
  assert (He : extract_plotly_json html = Ok None).
  { unfold extract_plotly_json. now rewrite Hno. }
  split; [exact He|].
  intros st out Hh. apply html_entry_inv in Hh.
  destruct Hh as (o & d & -> & Hd & Ht).
  unfold process_output, py_get. rewrite Hd. simpl. rewrite Ht. simpl.
  destruct html; simpl; [reflexivity|].
  rewrite He. reflexivity.
Qed.

Lemma pattern_miss_passthrough_witness :
  extract_plotly_json html_other_call = Ok None /\
  process_output (fun _ _ => Raise RenderError) (fun _ => 0%N)
    {| store := ∅; draws := 0 |} (html_output html_other_call)
  = Ok (html_output html_other_call, {| store := ∅; draws := 0 |}).
Proof.
  destruct (pattern_miss_passthrough
              (fun _ _ => Raise RenderError) (fun _ => 0%N) html_other_call
              (proj1 (search_none_iff html_other_call)
                 ltac:(vm_compute; reflexivity)))
    as [He Hp].
  split; [exact He|]. apply Hp. reflexivity.
Defined.

(** A page in which the text [Plotly.newPlot] does not occur has no
    invocation. *)
Lemma no_literal_no_invocation html :
  occurs "Plotly.newPlot" html = false -> no_invocation html.
Proof. intros H. now apply search_none_iff, search_needs_literal. Qed.

(** ** The invocation of the specification inside a page *)

Lemma prefix_app_long lit : forall x y,
  (String.length lit <= String.length x)%nat ->
  String.prefix lit (String.append x y) = String.prefix lit x.
Proof.
  induction lit as [|c l IH]; intros x y H.
  - destruct x, y; reflexivity.
  - destruct x as [|d x]; [simpl in H; lia|].
    rewrite append_cons. cbn [String.prefix].
    destruct (ascii_dec c d); [|reflexivity].
    apply IH. simpl in H. lia.
Qed.

Lemma starts_nowhere_app lit s post : forall pre,
  (String.length lit <= String.length s)%nat ->
  starts_nowhere lit pre s = true ->
  starts_nowhere lit pre (String.append s post) = true.
Proof.
  induction pre as [|c p IH]; intros Hl H; [reflexivity|].
  cbn [starts_nowhere] in *. apply andb_true_iff in H as [H1 H2].
  rewrite IH by assumption. rewrite andb_true_r.
  rewrite <- append_assoc. rewrite prefix_app_long; [exact H1|].
  rewrite append_length. lia.
Qed.

Lemma search_skip s : forall pre,
  starts_nowhere "Plotly.newPlot" pre s = true ->
  re_search NEWPLOT_PATTERN (String.append pre s)
  = re_search NEWPLOT_PATTERN s.
Proof.
  destruct NEWPLOT_head as [rest E].
  induction pre as [|c p IH]; intros H; [reflexivity|].
  cbn [starts_nowhere] in H. apply andb_true_iff in H as [H1 H2].
  apply negb_true_iff in H1. rewrite append_cons in *.
  rewrite re_search_cons. rewrite E at 1.
  rewrite rmatch_lit_seq, (strip_prefix_none _ _ H1). now apply IH.
Qed.

Lemma search_newplot_bar post :
  re_search NEWPLOT_PATTERN (String.append newplot_bar post)
  = Some [("layout", bq "{`title`:`T`}");
          ("data", bq "[{`type`:`bar`,`y`:[1,2,3]}]");
          ("id", "'x'")].
Proof.
  cbv -[consumed].
  repeat f_equal.
  - exact (consumed_app (bq "{`title`:`T`}") (String ")" post)).
  - exact (consumed_app (bq "[{`type`:`bar`,`y`:[1,2,3]}]")
             (String.append (bq ", {`title`:`T`})") post)).
  - exact (consumed_app "'x'"
             (String.append (bq ", [{`type`:`bar`,`y`:[1,2,3]}], {`title`:`T`})")
                post)).
Qed.

(** C3, amended.  In a page where the first occurrence of the text
    [Plotly.newPlot] opens the invocation of the specification, whatever
    comes before and after it, extraction returns the data, the layout and
    the empty config the specification names; and whenever a match has no
    fourth argument and its data and layout parse, the extracted config is
    the empty mapping. *)
Theorem extract_round_trip :
  (forall pre post,
     starts_nowhere "Plotly.newPlot" pre newplot_bar = true ->
     extract_plotly_json
       (String.append pre (String.append newplot_bar post))
     = Ok (Some spec_bar)) /\
  (forall html m dtxt ltxt data layout,
     re_search NEWPLOT_PATTERN html = Some m ->
     group "data" m = Some dtxt -> group "layout" m = Some ltxt ->
     group "config" m = None ->
     literal_eval (_fix_js dtxt) = Ok data ->
     literal_eval (_fix_js ltxt) = Ok layout ->
     extract_plotly_json html
     = Ok (Some (PDict [("data", data); ("layout", layout);
                        ("config", PDict [])]))).
Proof.
  split.
  - intros pre post H. unfold extract_plotly_json.
    rewrite search_skip
      by (apply starts_nowhere_app; [vm_compute; lia | exact H]).
    rewrite search_newplot_bar. vm_compute. reflexivity.
  - intros html m dtxt ltxt data layout Hm Hd Hl Hc Ed El.
    unfold extract_plotly_json, group_text.
    rewrite Hm, Hd, Hl, Hc. cbn [rbind]. rewrite Ed. cbn [rbind].
    rewrite El. reflexivity.
Qed.

Lemma extract_round_trip_witness :
  extract_plotly_json html_bar = Ok (Some spec_bar).
Proof.
  apply (proj1 extract_round_trip "<script>" "</script>").
  vm_compute. reflexivity.
Defined.

(** C3 as the specification words it fails: a page that contains the
    invocation after an earlier one yields the earlier chart. *)
Lemma extract_first_invocation_wins :
  ~ (forall pre post,
       extract_plotly_json
         (String.append pre (String.append newplot_bar post))
       = Ok (Some spec_bar)).
Proof.
  intros H. specialize (H newplot_empty EmptyString).
  vm_compute in H. discriminate H.
Qed.

(** ** An invocation the pattern cuts in the wrong place *)


(** ** The static output *)

Lemma to_png_render render fig png width :
  to_png render fig = Ok (png, width) ->
  exists data layout, render data layout = Ok (png, width).
Proof.
  unfold to_png. intros H.
  apply rbind_ok in H as (data & _ & H).
  apply rbind_ok in H as (layout & _ & H). eauto.
Qed.

Lemma checking_render_contract : render_contract checking_render.
Proof.
  intros data layout png width. unfold checking_render.
  destruct (py_get layout "width" PNone) as [[| |z| | | |]| |];
    try discriminate.
  - intros [= <- <-]. split; [discriminate | now left].
  - destruct (10 <=? z)%Z eqn:E; [|discriminate]. intros [= <- <-].
    split; [discriminate|]. right. cbn [py_truthy].
    apply Z.leb_le in E. apply negb_true_iff, Z.eqb_neq. lia.
Qed.

(** C7.  On a successfully rendered chart the replacement output has the
    type "display_data"; its data has the one key "image/png", holding the
    base64 text of the rendered image, which decodes to exactly those
    bytes, and they are not empty; its metadata records under "image/png"
    the width of the rendered layout when the figure holds one, and 700
    when it holds none. *)
Theorem static_output_shape
  (render : pyval -> pyval -> result (bytes * pyval)) (urandom : nat -> N)
  st out h fig fig1 png width :
  render_contract render ->
  html_entry out = Some (PStr h) -> h <> EmptyString ->
  extract_plotly_json h = Ok (Some fig) ->
  normalize_heatmapgl fig = Ok fig1 ->
  to_png render fig1 = Ok (png, width) ->
  exists st',
    process_output render urandom st out =
      Ok (PDict [("output_type", PStr "display_data");
                 ("metadata",
                  PDict [("image/png",
                          PDict [("width", match width with
                                           | PNone => PInt 700
                                           | _ => width
                                           end)])]);
                 ("data", PDict [("image/png", PStr (b64encode png))])],
          st') /\
    b64decode (b64encode png) = Some png /\ png <> [].
Proof.
  intros Hc Hh Hne He Hn Hp.
  rewrite (process_output_success render urandom st out h fig fig1 png width
             Hh Hne He Hn Hp).
  destruct (to_png_render _ _ _ _ Hp) as (data & layout & Hr).
  destruct (Hc _ _ _ _ Hr) as [Hpng Hw].
  eexists. split; [|split; [apply b64_round_trip | exact Hpng]].
  unfold static_output, new_output_display, py_or.
  destruct Hw as [-> | Hw]; [reflexivity|].
  rewrite Hw. now destruct width.
Qed.

Lemma static_output_shape_witness :
  exists st',
    process_output checking_render fake_urandom st0 (html_output html_wide) =
    Ok (PDict [("output_type", PStr "display_data");
               ("metadata",
                PDict [("image/png", PDict [("width", PInt 500)])]);
               ("data", PDict [("image/png", PStr "iVBORw0KGgo=")])], st')
    /\ b64decode "iVBORw0KGgo=" = Some png_stub /\ png_stub <> [].
Proof.
  destruct (extract_plotly_json html_wide) as [[fig|]| |] eqn:E;
    try (vm_compute in E; discriminate E).
  destruct (normalize_heatmapgl fig) as [fig1| |] eqn:En;
    try (vm_compute in E; injection E as <-; vm_compute in En;
         discriminate En).
  apply (static_output_shape checking_render fake_urandom st0
           (html_output html_wide) html_wide fig fig1 png_stub (PInt 500)
           checking_render_contract eq_refl ltac:(discriminate) E En).
  vm_compute in E. injection E as <-. vm_compute in En. injection En as <-.
  reflexivity.
Defined.

(** ** The entry a chart writes *)







(** ** The renaming, by lookup *)

Lemma renamed_get_heatmap dt :
  dict_get "heatmap" dt = None ->
  dict_get "heatmap" (map renamed dt) = dict_get "heatmapgl" dt.
Proof.
  induction dt as [|[k v] dt IH]; intros H; [reflexivity|].
  cbn [dict_get] in H. cbn [map renamed fst snd dict_get].
  destruct (String.eqb "heatmap" k) eqn:E1; [discriminate H|].
  unfold rename_key.
  rewrite (String.eqb_sym "heatmapgl" k).
  destruct (String.eqb k "heatmapgl") eqn:E2; [reflexivity|].
  rewrite E1. now apply IH.
Qed.

Lemma renamed_get_other dt k :
  k <> "heatmapgl" -> k <> "heatmap" ->
  dict_get k (map renamed dt) = dict_get k dt.
Proof.
  intros H1 H2. induction dt as [|[k0 v] dt IH]; [reflexivity|].
  cbn [map renamed fst snd dict_get]. rewrite IH. unfold rename_key.
  destruct (String.eqb k0 "heatmapgl") eqn:E.
  - apply String.eqb_eq in E as ->.
    apply String.eqb_neq in H1, H2. now rewrite H1, H2.
  - reflexivity.
Qed.

(** C4 as the specification words it fails: with a "heatmap" entry next
    to "heatmapgl" in [template.data] the renaming collapses the two and
    the "heatmap" entry loses its value; and a template that is not a
    mapping makes the operation raise instead of being left alone. *)
Lemma normalize_claim_fails :
  ~ (forall fig fig' dt k v,
       normalize_heatmapgl fig = Ok fig' ->
       template_data fig = Some (PDict dt) ->
       k <> "heatmapgl" -> dict_get k dt = Some v ->
       exists dt', template_data fig' = Some (PDict dt') /\
                   dict_get k dt' = Some v) /\
  ~ (forall f lay tpl,
       dict_get "layout" f = Some (PDict lay) ->
       dict_get "template" lay = Some tpl -> is_mapping tpl = false ->
       exists fig', normalize_heatmapgl (PDict f) = Ok fig').
Proof.
  split; [exact template_key_clash|].
  intros H.
  destruct (H [("data", PList []);
               ("layout", PDict [("template", PStr "plotly_dark")]);
               ("config", PDict [])]
              [("template", PStr "plotly_dark")] (PStr "plotly_dark")
              eq_refl eq_refl eq_refl) as (fig' & Hf).
  vm_compute in Hf. discriminate Hf.
Qed.

(** C4, amended.  On a figure whose data is a list of mappings and whose
    layout is a mapping with no template or with a mapping as template,
    [normalize_heatmapgl] returns: every trace of type "heatmapgl" has the
    type "heatmap" and its other entries, every other trace is as it was;
    the layout has a template, the empty mapping when there was none;
    when the template's data is absent or not a mapping, template and
    layout are as they were; when it is a mapping with distinct keys none
    of which is "heatmap", the value under "heatmapgl" is found under
    "heatmap", no key "heatmapgl" is left, every other key has its value,
    and the keys keep their order. *)
Theorem normalize_heatmapgl_amended f traces lay :
  dict_get "data" f = Some (PList (map PDict traces)) ->
  dict_get "layout" f = Some (PDict lay) ->
  (dict_get "template" lay = None \/
   exists tpl, dict_get "template" lay = Some (PDict tpl)) ->
  exists f' lay' tpl',
    normalize_heatmapgl (PDict f) = Ok (PDict f') /\
    dict_get "data" f' = Some (PList (map (fun t => PDict (retag t)) traces))
    /\
    (forall t,
       (dict_get "type" t = Some (PStr "heatmapgl") ->
        dict_get "type" (retag t) = Some (PStr "heatmap") /\
        forall k, k <> "type" -> dict_get k (retag t) = dict_get k t) /\
       (py_eq_str (default PNone (dict_get "type" t)) "heatmapgl" = false ->
        retag t = t)) /\
    dict_get "layout" f' = Some (PDict lay') /\
    dict_get "template" lay' = Some (PDict tpl') /\
    (dict_get "template" lay = None -> tpl' = []) /\
    (forall tpl,
       dict_get "template" lay = Some (PDict tpl) ->
       match dict_get "data" tpl with
       | Some (PDict dt) =>
           NoDup (map fst dt) -> dict_get "heatmap" dt = None ->
           exists dt',
             dict_get "data" tpl' = Some (PDict dt') /\
             (forall v, dict_get "heatmapgl" dt = Some v ->
                        dict_get "heatmap" dt' = Some v) /\
             dict_get "heatmapgl" dt' = None /\
             (forall k, k <> "heatmapgl" -> k <> "heatmap" ->
                        dict_get k dt' = dict_get k dt) /\
             map fst dt' = map rename_key (map fst dt)
       | _ => tpl' = tpl /\ lay' = lay
       end).
Proof.
  intros Hd Hl Ht.
  destruct (normalize_heatmapgl_run f traces lay Hd Hl Ht)
    as (tpl' & Hrun & Hretag & Hnone & Hsome).
  eexists _, (dict_set "template" (PDict tpl') lay), tpl'.
  split; [exact Hrun|].
  split; [rewrite dict_get_set_ne by discriminate; apply dict_get_set_eq|].
  split; [exact Hretag|].
  split; [apply dict_get_set_eq|].
  split; [apply dict_get_set_eq|].
  split; [exact Hnone|].
  intros tpl Htpl. specialize (Hsome tpl Htpl).
  destruct (dict_get "data" tpl) as [[| | | | | |dt]|]; try exact Hsome.
  destruct Hsome as [-> Hren]. intros Hnd Hhm.
  specialize (Hren Hnd Hhm). exists (rename_keys dt).
  split; [apply dict_get_set_eq|].
  split; [|split; [apply rename_keys_no_gl|split]].
  - intros v Hv. now rewrite Hren, renamed_get_heatmap.
  - intros k H1 H2. now rewrite Hren, renamed_get_other.
  - rewrite Hren, !List.map_map. reflexivity.
Qed.

Lemma normalize_heatmapgl_amended_witness :
  exists f' lay' tpl',
    normalize_heatmapgl
      (fig_dict
         (PList [PDict [("type", PStr "heatmapgl"); ("z", PList [PInt 1])]])
         (PDict [("template",
                  PDict [("data", PDict [("heatmapgl", PStr "gl");
                                         ("bar", PStr "b")])])])
         (PDict [])) = Ok (PDict f') /\
    dict_get "data" f'
    = Some (PList [PDict [("type", PStr "heatmap"); ("z", PList [PInt 1])]])
    /\ dict_get "layout" f' = Some (PDict lay') /\
    dict_get "template" lay' = Some (PDict tpl') /\
    exists dt',
      dict_get "data" tpl' = Some (PDict dt') /\
      dict_get "heatmap" dt' = Some (PStr "gl") /\
      dict_get "heatmapgl" dt' = None /\
      dict_get "bar" dt' = Some (PStr "b").
Proof.
  destruct (normalize_heatmapgl_amended
              [("data",
                PList [PDict [("type", PStr "heatmapgl");
                              ("z", PList [PInt 1])]]);
               ("layout",
                PDict [("template",
                        PDict [("data", PDict [("heatmapgl", PStr "gl");
                                               ("bar", PStr "b")])])]);
               ("config", PDict [])]
              [[("type", PStr "heatmapgl"); ("z", PList [PInt 1])]]
              [("template",
                PDict [("data", PDict [("heatmapgl", PStr "gl");
                                       ("bar", PStr "b")])])]
              eq_refl eq_refl
              (or_intror (ex_intro _ _ eq_refl)))
    as (f' & lay' & tpl' & Hrun & Hdata & _ & Hlay & Htpl & _ & Hsome).
  specialize (Hsome _ eq_refl). cbn [dict_get String.eqb Ascii.eqb Bool.eqb]
    in Hsome.
  destruct Hsome as (dt' & Hdt & Hgl & Hno & Hother & _).
  - cbn [map fst].
    apply NoDup_cons_2; [intros H|apply NoDup_singleton].
    apply list_elem_of_singleton in H. discriminate H.
  - reflexivity.
  - exists f', lay', tpl'. split; [exact Hrun|]. split; [exact Hdata|].
    split; [exact Hlay|]. split; [exact Htpl|]. exists dt'.
    split; [exact Hdt|]. split; [now apply Hgl|]. split; [exact Hno|].
    now rewrite Hother.
Defined.
